(** * Cromos: detection-and-aggregation pipeline of [infer.py]

    A shallow embedding of the geometry utilities, the cross-class resolver,
    the count stabilizer, the transfer tracker and the statistics summary of
    [YOLODetector], followed by the properties checked against them.

    Conventions of the embedding:
    - Python [int] is [Z]; pixel boxes are 4-tuples [(x1, y1, x2, y2)] of [Z].
    - Python [float] values that the modelled code produces are quotients of
      integers; they are represented by exact rationals [Q].  The thresholds
      written [0.02], [0.1], [0.20], [0.5] in the source are the rationals
      [1/50], [1/10], [1/5], [1/2].
    - Code that can raise is written in the [result] monad below; integer
      true division raises [ZeroDivisionError] on a zero divisor.
    - A [dict] whose iteration order matters is an association list in
      insertion order. *)

From Stdlib Require Import ZArith QArith Qround Qabs List Sorted String Bool Lia.
Import ListNotations.

Local Open Scope Z_scope.

(** ** Python prelude *)

Module Py.

Inductive exn : Type :=
| ZeroDivisionError
| ValueError.

Inductive result (A : Type) : Type :=
| Ok (a : A)
| Raise (e : exn).
Arguments Ok {A} a.
Arguments Raise {A} e.

Definition bind {A B : Type} (m : result A) (k : A -> result B) : result B :=
  match m with
  | Ok a => k a
  | Raise e => Raise e
  end.

(** [a / b] on two ints: a float, or [ZeroDivisionError]. *)
Definition truediv (a b : Z) : result Q :=
  if b =? 0 then Raise ZeroDivisionError
  else Ok (inject_Z a / inject_Z b)%Q.

(** [sum(l)] on a list of ints. *)
Definition sum (l : list Z) : Z := fold_left Z.add l 0.

(** [len(l)]. *)
Definition len {A : Type} (l : list A) : Z := Z.of_nat (List.length l).

(** [l[start:]] with Python's treatment of a negative start. *)
Definition slice_from {A : Type} (start : Z) (l : list A) : list A :=
  if start <? 0 then skipn (Z.to_nat (Z.max 0 (len l + start))) l
  else skipn (Z.to_nat start) l.

(** [a > b] on floats. *)
Definition gt (a b : Q) : bool := negb (Qle_bool a b).

(** [round(q)]: to the nearest integer, ties to the even one. *)
Definition round (q : Q) : Z :=
  let f := Qfloor q in
  let r := (q - inject_Z f)%Q in
  match Qcompare r (1 # 2) with
  | Lt => f
  | Gt => f + 1
  | Eq => if Z.even f then f else f + 1
  end.

End Py.

Notation "x <- m ;; k" := (Py.bind m (fun x => k))
  (at level 61, m at next level, right associativity).

(** ** Geometry utilities *)

Definition Box : Type := (Z * Z * Z * Z)%type.


(** [_calculate_iou] (infer.py 446-476). *)
Definition _calculate_iou (box1 box2 : Box) : Py.result Q :=
  let '(x1_1, y1_1, x2_1, y2_1) := box1 in
  let '(x1_2, y1_2, x2_2, y2_2) := box2 in
  let x1_i := Z.max x1_1 x1_2 in
  let y1_i := Z.max y1_1 y1_2 in
  let x2_i := Z.min x2_1 x2_2 in
  let y2_i := Z.min y2_1 y2_2 in
  if (x2_i <=? x1_i) || (y2_i <=? y1_i) then Py.Ok 0%Q
  else
    let intersection := (x2_i - x1_i) * (y2_i - y1_i) in
    let area1 := (x2_1 - x1_1) * (y2_1 - y1_1) in
    let area2 := (x2_2 - x1_2) * (y2_2 - y1_2) in
    let union := area1 + area2 - intersection in
    if 0 <? union then Py.truediv intersection union else Py.Ok 0%Q.

(** [_is_box_completely_outside] (infer.py 478-501). *)
Definition _is_box_completely_outside (box1 box2 : Box) : bool :=
  let '(x1_1, y1_1, x2_1, y2_1) := box1 in
  let '(x1_2, y1_2, x2_2, y2_2) := box2 in
  (x2_1 <=? x1_2) || (x1_1 >=? x2_2) || (y2_1 <=? y1_2) || (y1_1 >=? y2_2).

(** The value [_calculate_iou] returns; [calculate_iou_returns] below shows
    that the call never raises, so callers may use the value directly. *)
Definition iou (box1 box2 : Box) : Q :=
  match _calculate_iou box1 box2 with
  | Py.Ok q => q
  | Py.Raise _ => 0%Q
  end.

(** *** Vocabulary for statements about boxes *)


Definition proper (b : Box) : Prop :=
  let '(x1, y1, x2, y2) := b in x1 < x2 /\ y1 < y2.


(** The intersection rectangle of two boxes (possibly empty or flat). *)
Definition inter_box (b1 b2 : Box) : Box :=
  let '(x1_1, y1_1, x2_1, y2_1) := b1 in
  let '(x1_2, y1_2, x2_2, y2_2) := b2 in
  (Z.max x1_1 x1_2, Z.max y1_1 y1_2, Z.min x2_1 x2_2, Z.min y2_1 y2_2).

(** The boxes, as closed rectangles, have no point in common. *)
Definition no_common_point (b1 b2 : Box) : Prop :=
  let '(x1, y1, x2, y2) := inter_box b1 b2 in x2 < x1 \/ y2 < y1.

(** The boxes meet, but only along an edge or at a corner: the intersection
    rectangle is non-empty and has no area. *)
Definition touching (b1 b2 : Box) : Prop :=
  let '(x1, y1, x2, y2) := inter_box b1 b2 in
  x1 <= x2 /\ y1 <= y2 /\ (x1 = x2 \/ y1 = y2).

(** A side of [b1] lies on the line of the opposite side of [b2], as in
    [box1.x2 == box2.x1]. *)
Definition edge_adjacent (b1 b2 : Box) : Prop :=
  let '(x1_1, y1_1, x2_1, y2_1) := b1 in
  let '(x1_2, y1_2, x2_2, y2_2) := b2 in
  x2_1 = x1_2 \/ x1_1 = x2_2 \/ y2_1 = y1_2 \/ y1_1 = y2_2.



(** ** Detections and the per-class dictionary *)

(** A detection as [process_frame] builds it: [{'bbox', 'confidence'}] and,
    for the symbols model, ['class_id']. *)
Record Detection : Type := mkDetection {
  bbox : Box;
  confidence : Q;
  class_id : option Z
}.

(** [detections_by_class]: class name to list of detections, in insertion
    order.  Keys are distinct, as in any dict. *)
Definition DetectionsByClass : Type := list (string * list Detection).

Definition dict_keys {V : Type} (d : list (string * V)) : list string :=
  map fst d.

Fixpoint dict_get {V : Type} (k : string) (d : list (string * V)) : option V :=
  match d with
  | [] => None
  | (k', v) :: rest => if String.eqb k' k then Some v else dict_get k rest
  end.

(** [d[k].append(x)]; every caller below passes a key of [d]. *)
Definition dict_append (k : string) (x : Detection) (d : DetectionsByClass)
  : DetectionsByClass :=
  map (fun '(k', l) => if String.eqb k' k then (k', l ++ [x]) else (k', l)) d.

(** [{class_name: [] for class_name in d.keys()}]. *)
Definition dict_empty_like (d : DetectionsByClass) : DetectionsByClass :=
  map (fun k => (k, [])) (dict_keys d).

(** The annotated record both resolver passes sort and scan.  The exclusive
    pass neither stores nor reads ['is_exclusive']; it is set to [true]
    there. *)
Record Candidate : Type := mkCandidate {
  cand_class : string;
  cand_bbox : Box;
  cand_confidence : Q;
  cand_class_id : option Z;
  priority : Z;
  is_exclusive : bool;
  is_fifa_in_simbolos : bool;
  is_fifa_smudge : bool
}.

Definition exclusive_classes : list string :=
  ["smudge"; "simbolos"; "blackdot"]%string.

Definition str_in (s : string) (l : list string) : bool :=
  existsb (String.eqb s) l.

(** [l.index(s)] when [s in l]. *)
Fixpoint index_of (s : string) (l : list string) : option Z :=
  match l with
  | [] => None
  | h :: t =>
      if String.eqb h s then Some 0
      else match index_of s t with
           | Some i => Some (i + 1)
           | None => None
           end
  end.

(** [class_id is not None and class_id in [0, 1]]. *)
Definition class_id_in_0_1 (cid : option Z) : bool :=
  match cid with
  | Some c => (c =? 0) || (c =? 1)
  | None => false
  end.

(** The key [(x['priority'], -x['confidence'])] compared with [<]. *)
Definition key_lt (a b : Candidate) : bool :=
  (priority a <? priority b)
  || ((priority a =? priority b)
      && negb (Qle_bool (- cand_confidence b) (- cand_confidence a))).

(** [list.sort(key=...)]: stable, decided by [<] on keys alone. *)
Fixpoint sort_insert (x : Candidate) (l : list Candidate) : list Candidate :=
  match l with
  | [] => [x]
  | y :: ys => if key_lt y x then y :: sort_insert x ys else x :: y :: ys
  end.

Definition sort_candidates (l : list Candidate) : list Candidate :=
  fold_right sort_insert [] l.

(** The filtered record appended to the result dictionaries. *)
Definition strip (c : Candidate) : Detection :=
  {| bbox := cand_bbox c;
     confidence := cand_confidence c;
     class_id := cand_class_id c |}.

(** The smudge rule shared by both passes (infer.py 582-591, 712-720):
    some box of the flat list is not completely outside the detection. *)
Definition smudge_blocked (flat : list Box) (detection : Candidate) : bool :=
  is_fifa_smudge detection
  && existsb (fun other_bbox =>
                negb (_is_box_completely_outside (cand_bbox detection) other_bbox))
             flat.

(** ** Cross-class resolver *)

Section Resolver.

(** [self.class_priority] and [self.overlap_threshold]. *)
Variable class_priority : list string.
Variable overlap_threshold : Q.

Definition base_priority (class_name : string) : Z :=
  match index_of class_name class_priority with
  | Some i => i
  | None => 999
  end.

(** Lines 661-692 and 530-562: one candidate per input detection. *)
Definition annotate (exclusive : bool) (class_name : string) (detection : Detection)
  : Candidate :=
  let cid := class_id detection in
  let fifa_in_simbolos := String.eqb class_name "simbolos" && class_id_in_0_1 cid in
  let fifa_smudge := String.eqb class_name "smudge" in
  {| cand_class := class_name;
     cand_bbox := bbox detection;
     cand_confidence := confidence detection;
     cand_class_id := cid;
     priority := if fifa_in_simbolos then 1 else base_priority class_name;
     is_exclusive := exclusive;
     is_fifa_in_simbolos := fifa_in_simbolos;
     is_fifa_smudge := fifa_smudge |}.

(** *** Exclusive pass: [_apply_exclusive_filtering] (infer.py 638-756) *)

Definition collect_exclusive (d : DetectionsByClass) : list Candidate :=
  flat_map (fun class_name =>
              match dict_get class_name d with
              | Some detections => map (annotate true class_name) detections
              | None => []
              end)
           exclusive_classes.

Definition other_exclusive_flat (exclusive_detections : list Candidate) : list Box :=
  map cand_bbox (filter (fun c => negb (is_fifa_smudge c)) exclusive_detections).

Definition fifa_fifa_intersection (detection accepted : Candidate) : bool :=
  (is_fifa_smudge detection && is_fifa_in_simbolos accepted)
  || (is_fifa_in_simbolos detection && is_fifa_smudge accepted).

(** The scan of [filtered_exclusive] (lines 723-737). *)
Definition overlaps_accepted (detection : Candidate) (filtered_exclusive : list Candidate)
  : bool :=
  existsb (fun accepted =>
             if fifa_fifa_intersection detection accepted then false
             else Py.gt (iou (cand_bbox detection) (cand_bbox accepted)) (1 # 50))
          filtered_exclusive.

(** One iteration of the loop at line 708. *)
Definition exclusive_step (flat : list Box) (filtered_exclusive : list Candidate)
           (detection : Candidate) : list Candidate :=
  if smudge_blocked flat detection then filtered_exclusive
  else if overlaps_accepted detection filtered_exclusive then filtered_exclusive
  else filtered_exclusive ++ [detection].

Definition filter_exclusive (d : DetectionsByClass) : list Candidate :=
  let exclusive_detections := sort_candidates (collect_exclusive d) in
  fold_left (exclusive_step (other_exclusive_flat exclusive_detections))
            exclusive_detections [].

Definition rebuild (d : DetectionsByClass) (kept : list Candidate) : DetectionsByClass :=
  fold_left (fun result detection =>
               dict_append (cand_class detection) (strip detection) result)
            kept (dict_empty_like d).

Definition _apply_exclusive_filtering (d : DetectionsByClass) : DetectionsByClass :=
  rebuild d (filter_exclusive d).

(** *** General pass: [_filter_overlapping_detections] (infer.py 503-636) *)

Definition collect_all (d : DetectionsByClass) : list Candidate :=
  flat_map (fun '(class_name, detections) =>
              map (annotate (str_in class_name exclusive_classes) class_name) detections)
           d.

Definition other_detections_flat (d : DetectionsByClass) : list Box :=
  flat_map (fun '(other_class_name, other_detections_list) =>
              if String.eqb other_class_name "smudge" then []
              else map bbox other_detections_list)
           d.

(** The scan of [filtered_detections.items()] (lines 594-622). *)
Definition overlaps_filtered (detection : Candidate) (filtered_detections : DetectionsByClass)
  : bool :=
  existsb (fun '(accepted_class, accepted_detections) =>
    existsb (fun accepted_detection =>
      let accepted_is_fifa_in_simbolos :=
        String.eqb accepted_class "simbolos"
        && class_id_in_0_1 (class_id accepted_detection) in
      let fifa_fifa :=
        (is_fifa_smudge detection && accepted_is_fifa_in_simbolos)
        || (is_fifa_in_simbolos detection && String.eqb accepted_class "smudge") in
      if fifa_fifa then false
      else if is_exclusive detection
              && negb (String.eqb accepted_class (cand_class detection))
      then Py.gt (iou (cand_bbox detection) (bbox accepted_detection)) (1 # 10)
      else if negb (is_exclusive detection)
      then Py.gt (iou (cand_bbox detection) (bbox accepted_detection)) overlap_threshold
      else false)
    accepted_detections)
  filtered_detections.

(** One iteration of the loop at line 578. *)
Definition general_step (flat : list Box) (filtered_detections : DetectionsByClass)
           (detection : Candidate) : DetectionsByClass :=
  if smudge_blocked flat detection then filtered_detections
  else if overlaps_filtered detection filtered_detections then filtered_detections
  else dict_append (cand_class detection) (strip detection) filtered_detections.

Definition _filter_overlapping_detections (d : DetectionsByClass) : DetectionsByClass :=
  let all_detections := sort_candidates (collect_all d) in
  fold_left (general_step (other_detections_flat d)) all_detections (dict_empty_like d).

(** The two passes as [process_frame] chains them (lines 1492-1495). *)
Definition resolve (d : DetectionsByClass) : DetectionsByClass :=
  _filter_overlapping_detections (_apply_exclusive_filtering d).

End Resolver.

(** The detections retained for a class, [filtered.get(class_name, [])]. *)
Definition retained (class_name : string) (d : DetectionsByClass) : list Detection :=
  match dict_get class_name d with
  | Some l => l
  | None => []
  end.

(** The dictionary both passes build, read off the list of candidates kept:
    under each key, the kept candidates of that class in acceptance order
    ([rebuild_grouped] and [general_fold_grouped] relate it to the code). *)
Definition grouped (keys : list string) (kept : list Candidate) : DetectionsByClass :=
  map (fun k => (k, map strip (filter (fun c => String.eqb k (cand_class c)) kept))) keys.

(** The test one accepted candidate contributes to [overlaps_accepted]. *)
Definition conflicts (detection accepted : Candidate) : bool :=
  if fifa_fifa_intersection detection accepted then false
  else Py.gt (iou (cand_bbox detection) (cand_bbox accepted)) (1 # 50).

(** The defaults of [__init__] (lines 113-118). *)
Definition default_class_priority : list string :=
  ["blackdot"; "simbolos"; "smudge"]%string.
Definition default_overlap_threshold : Q := 3 # 10.

(** ** Temporal stabilizer: [_stabilize_detection_count] (infer.py 758-792) *)

(** [max(a, b)] on floats: the first argument unless the second is larger. *)
Definition float_max (a b : Q) : Q := if Py.gt b a then b else a.

(** [[i + 1 for i in range(n)]]. *)
Definition weights (n : nat) : list Z := map (fun i => Z.of_nat i + 1) (seq 0 n).

(** [sum(count * weight for count, weight in zip(history, weights))]. *)
Definition weighted_sum (history : list Z) : Z :=
  Py.sum (map (fun '(count, weight) => count * weight)
              (combine history (weights (List.length history)))).

(** [history[-2]]; read only under the guard [len(history) > 1]. *)
Definition previous_of (history : list Z) : Z :=
  nth (List.length history - 2) history 0.

(** The history after the append and the trim of lines 770-774. *)
Definition push_history (stabilization_window : Z) (history : list Z) (current_count : Z)
  : list Z :=
  let h := history ++ [current_count] in
  if Py.len h >? stabilization_window then Py.slice_from (- stabilization_window) h
  else h.

(** The float held by [stabilized_count] when line 790 is reached; the
    divisor [total_weight] is positive because the history is not empty. *)
Definition smoothed (history : list Z) : Q :=
  let w := weights (List.length history) in
  let stabilized_count := (inject_Z (weighted_sum history) / inject_Z (Py.sum w))%Q in
  if Py.len history >? 1 then
    let previous_count := previous_of history in
    let max_change := float_max 1 (inject_Z previous_count * (1 # 2)) in
    if Py.gt (Qabs (stabilized_count - inject_Z previous_count)) max_change
    then inject_Z (previous_count
                   + (if Py.gt stabilized_count (inject_Z previous_count) then 1 else -1))
    else stabilized_count
  else stabilized_count.

(** Returns the updated [self.detection_history[class_name]] and the
    stabilized count. *)
Definition _stabilize_detection_count (stabilization_window : Z) (history : list Z)
           (current_count : Z) : list Z * Z :=
  let h := push_history stabilization_window history current_count in
  if Py.len h >? 0 then (h, Py.round (smoothed h))
  else (h, current_count).

(** The stabilized outputs for a stream of raw counts of one class, together
    with the history length after each call. *)
Fixpoint stabilize_stream (stabilization_window : Z) (history : list Z) (raw : list Z)
  : list (Z * Z) :=
  match raw with
  | [] => []
  | c :: rest =>
      let '(h, s) := _stabilize_detection_count stabilization_window history c in
      (Py.len h, s) :: stabilize_stream stabilization_window h rest
  end.

(** ** Transfer tracker state *)

(** [self.detection_history]. *)
Record DetectionHistory : Type := mkHistory {
  dh_smudge : list Z;
  dh_simbolos : list Z;
  dh_blackdot : list Z
}.

(** [self.current_transfer_stats]: one list of per-frame counts per key. *)
Record CurrentTransferStats : Type := mkSeqs {
  cts_smudge : list Z;
  cts_simbolos : list Z;
  cts_blackdot : list Z;
  cts_fifa_ok : list Z;
  cts_fifa_no : list Z;
  cts_simbolo_ok : list Z;
  cts_simbolo_no : list Z;
  cts_string_ok : list Z;
  cts_string_no : list Z
}.

(** [self.transfer_averages]. *)
Record TransferAverages : Type := mkAverages {
  avg_smudge : Q;
  avg_simbolos : Q;
  avg_blackdot : Q
}.

(** An entry of ["objects_detected"] with an OK/NO split. *)
Record OkNoObjects : Type := mkOkNoObjects {
  obj_total : Z;
  obj_ok : Z;
  obj_no : Z;
  obj_frames_with_detection : Z
}.

(** [transfer_record] (lines 1717-1763). *)
Record TransferRecord : Type := mkTransferRecord {
  transfer_id : Z;
  duration_frames : Z;
  start_frame : Z;
  smudge_avg : Q;
  simbolos_avg : Q;
  blackdot_avg : Q;
  approved : bool;
  smudge_detected : bool;
  simbolos_detected : bool;
  blackdot_detected : bool;
  smudge_reject : bool;
  simbolos_reject : bool;
  blackdot_reject : bool;
  blackdot_total : Z;
  blackdot_frames : Z;
  smudge_total : Z;
  smudge_frames : Z;
  fifa_objects : OkNoObjects;
  simbolo_objects : OkNoObjects;
  string_objects : OkNoObjects
}.

(** [self.transfer_stats]. *)
Record TransferStats : Type := mkTransferStats {
  total_evaluated : Z;
  total_approved : Z;
  total_rejected : Z;
  transfer_history : list TransferRecord
}.

(** The attributes of the detector that the tracker reads and writes.  The
    ROI smoothing history, the timing figures and the predominant-class
    history are written by [process_frame] too, but nothing below reads
    them; they are left out. *)
Record State : Type := mkState {
  transfer_count : Z;
  frames_without_roi : Z;
  current_transfer_active : bool;
  current_transfer_start_frame : Z;
  current_transfer_frames : Z;
  frame_count : Z;
  detection_history : DetectionHistory;
  transfer_stats : TransferStats;
  current_transfer_stats : CurrentTransferStats;
  transfer_averages : TransferAverages
}.

(** The tunables [process_frame] reads. *)
Record Config : Type := mkConfig {
  ABSENT_TO_NEW : Z;
  stabilization_window : Z;
  class_priority : list string;
  overlap_threshold : Q;
  enabled_smudge : bool;
  enabled_simbolos : bool;
  enabled_blackdot : bool
}.

Definition empty_seqs : CurrentTransferStats :=
  mkSeqs [] [] [] [] [] [] [] [] [].

(** The state [__init__] builds (lines 98-196). *)
Definition initial_state : State :=
  {| transfer_count := 0;
     frames_without_roi := 0;
     current_transfer_active := false;
     current_transfer_start_frame := 0;
     current_transfer_frames := 0;
     frame_count := 0;
     detection_history := mkHistory [] [] [];
     transfer_stats := mkTransferStats 0 0 0 [];
     current_transfer_stats := empty_seqs;
     transfer_averages := mkAverages 0 0 0 |}.

(** The configuration [__init__] builds from an empty config dict. *)
Definition default_config : Config :=
  {| ABSENT_TO_NEW := 8;
     stabilization_window := 8;
     class_priority := default_class_priority;
     overlap_threshold := default_overlap_threshold;
     enabled_smudge := true;
     enabled_simbolos := true;
     enabled_blackdot := true |}.

(** ** Closing a transfer: [_finalize_transfer] (infer.py 1654-1801) *)

(** [np.mean] of a non-empty list of ints. *)
Definition np_mean (l : list Z) : Q := (inject_Z (Py.sum l) / inject_Z (Py.len l))%Q.

(** Lines 1657-1661 for one key. *)
Definition class_average (l : list Z) : Q :=
  if Py.len l >? 0 then np_mean l else 0%Q.

(** [sum(1 for count in l if count > 0)]. *)
Definition frames_with (l : list Z) : Z :=
  Py.len (filter (fun count => count >? 0) l).

(** [sum(1 for ok, no in zip(oks, nos) if ok > 0 or no > 0)]. *)
Definition frames_with_ok_no (oks nos : list Z) : Z :=
  Py.len (filter (fun '(ok, no) => (ok >? 0) || (no >? 0)) (combine oks nos)).

Definition ok_no_objects (oks nos : list Z) : OkNoObjects :=
  {| obj_total := Py.sum oks + Py.sum nos;
     obj_ok := Py.sum oks;
     obj_no := Py.sum nos;
     obj_frames_with_detection := frames_with_ok_no oks nos |}.

(** The record built at lines 1717-1763 from the state at the call. *)
Definition make_transfer_record (st : State) : TransferRecord :=
  let cts := current_transfer_stats st in
  let smudge_avg := class_average (cts_smudge cts) in
  let simbolos_avg := class_average (cts_simbolos cts) in
  let blackdot_avg := class_average (cts_blackdot cts) in
  let smudge_reject := Py.gt smudge_avg (1 # 5) in
  let simbolos_reject := Py.gt simbolos_avg (1 # 5) in
  let blackdot_reject := Py.gt blackdot_avg (1 # 5) in
  let rejected := smudge_reject || simbolos_reject || blackdot_reject in
  {| transfer_id := transfer_count st;
     duration_frames := current_transfer_frames st;
     start_frame := current_transfer_start_frame st;
     smudge_avg := smudge_avg;
     simbolos_avg := simbolos_avg;
     blackdot_avg := blackdot_avg;
     approved := negb rejected;
     smudge_detected := Py.gt smudge_avg 0;
     simbolos_detected := Py.gt simbolos_avg 0;
     blackdot_detected := Py.gt blackdot_avg 0;
     smudge_reject := smudge_reject;
     simbolos_reject := simbolos_reject;
     blackdot_reject := blackdot_reject;
     blackdot_total := Py.sum (cts_blackdot cts);
     blackdot_frames := frames_with (cts_blackdot cts);
     smudge_total := Py.sum (cts_smudge cts);
     smudge_frames := frames_with (cts_smudge cts);
     fifa_objects := ok_no_objects (cts_fifa_ok cts) (cts_fifa_no cts);
     simbolo_objects := ok_no_objects (cts_simbolo_ok cts) (cts_simbolo_no cts);
     string_objects := ok_no_objects (cts_string_ok cts) (cts_string_no cts) |}.

(** [history.append(record)] and the cap of lines 1771-1772. *)
Definition push_record (history : list TransferRecord) (r : TransferRecord)
  : list TransferRecord :=
  let h := history ++ [r] in
  if Py.len h >? 100 then tl h else h.

Definition _finalize_transfer (st : State) : State :=
  let r := make_transfer_record st in
  let ts := transfer_stats st in
  {| transfer_count := transfer_count st;
     frames_without_roi := frames_without_roi st;
     current_transfer_active := current_transfer_active st;
     current_transfer_start_frame := current_transfer_start_frame st;
     current_transfer_frames := current_transfer_frames st;
     frame_count := frame_count st;
     detection_history := detection_history st;
     transfer_stats :=
       {| total_evaluated := total_evaluated ts + 1;
          total_approved := if approved r then total_approved ts + 1 else total_approved ts;
          total_rejected := if approved r then total_rejected ts else total_rejected ts + 1;
          transfer_history := push_record (transfer_history ts) r |};
     current_transfer_stats := empty_seqs;
     transfer_averages :=
       {| avg_smudge := smudge_avg r;
          avg_simbolos := simbolos_avg r;
          avg_blackdot := blackdot_avg r |} |}.

(** ** Per-frame entry point: [process_frame] (infer.py 1331-1652) *)

(** What a sub-detector produced on the ROI crop of one frame, as far as
    [process_frame] looks at it.  Model inference, the validators' tests on
    confidences and box sizes, the mapping of boxes to frame coordinates and
    the in-ROI test belong to collaborators; their outcome is input here. *)
Record ModelOutput : Type := mkModelOutput {
  cls : list Z;             (* [result.boxes.cls]; [len(result.boxes)] is its length *)
  quality_ok : bool;        (* verdict of the validator on a non-empty result *)
  in_roi : list Detection   (* frame-mapped boxes kept by [is_detection_inside_roi] *)
}.

(** The three [detect_in_roi] results of a frame whose ROI was found. *)
Record RoiFrame : Type := mkRoiFrame {
  smudge_result : option ModelOutput;
  simbolos_result : option ModelOutput;
  blackdot_result : option ModelOutput
}.

(** A frame: [None] when [extract_roi_from_segmentation] found no ROI. *)
Definition Frame : Type := option RoiFrame.

(** The entries of the returned [stats] that depend on the tracker. *)
Record Stats : Type := mkStats {
  stat_smudge : Z;
  stat_simbolos : Z;
  stat_blackdot : Z;
  has_roi : bool;
  stat_transfer_count : Z
}.

(** [_validate_detection_quality] and [_validate_fifa_detection]: [False]
    on a missing or empty result, else the quality verdict. *)
Definition validate (result : option ModelOutput) : bool :=
  match result with
  | None => false
  | Some r => if Py.len (cls r) =? 0 then false else quality_ok r
  end.

(** Lines 1387-1401 (and their two copies) for one class: the result kept,
    the updated history and the count. *)
Definition detect_class (enabled : bool) (window : Z) (history : list Z)
           (result : option ModelOutput) : option ModelOutput * list Z * Z :=
  if enabled then
    let '(kept, count) :=
      if validate result
      then (result, match result with Some r => Py.len (cls r) | None => 0 end)
      else (None, 0) in
    let '(h, stabilized) := _stabilize_detection_count window history count in
    (kept, h, stabilized)
  else (None, history, 0).

(** Lines 1448-1459 (and copies): the key is created when the kept result
    has boxes, whatever survives the in-ROI test. *)
Definition class_entry (class_name : string) (kept : option ModelOutput)
  : DetectionsByClass :=
  match kept with
  | Some r => if Py.len (cls r) >? 0 then [(class_name, in_roi r)] else []
  | None => []
  end.

(** [l[-1] = v] on a non-empty list. *)
Definition set_last (l : list Z) (v : Z) : list Z := removelast l ++ [v].

(** [np.sum(classes == k)]. *)
Definition count_cls (k : Z) (classes : list Z) : Z :=
  Py.len (filter (Z.eqb k) classes).

(** The six counts of [_analyze_ok_no_classes] (infer.py 2408-2473), in the
    order fifa_ok, fifa_no, simbolo_ok, simbolo_no, string_ok, string_no. *)
Definition _analyze_ok_no_classes (simbolos : option ModelOutput)
  : Z * Z * Z * Z * Z * Z :=
  match simbolos with
  | None => (0, 0, 0, 0, 0, 0)
  | Some r =>
      if Py.len (cls r) =? 0 then (0, 0, 0, 0, 0, 0)
      else (count_cls 1 (cls r), count_cls 0 (cls r),
            count_cls 3 (cls r), count_cls 2 (cls r),
            count_cls 5 (cls r), count_cls 4 (cls r))
  end.

(** Lines 1631-1637 and 1640-1646: one entry on each OK/NO sequence. *)
Definition append_ok_no (cts : CurrentTransferStats) (c : Z * Z * Z * Z * Z * Z)
  : CurrentTransferStats :=
  let '(f_ok, f_no, s_ok, s_no, g_ok, g_no) := c in
  {| cts_smudge := cts_smudge cts;
     cts_simbolos := cts_simbolos cts;
     cts_blackdot := cts_blackdot cts;
     cts_fifa_ok := cts_fifa_ok cts ++ [f_ok];
     cts_fifa_no := cts_fifa_no cts ++ [f_no];
     cts_simbolo_ok := cts_simbolo_ok cts ++ [s_ok];
     cts_simbolo_no := cts_simbolo_no cts ++ [s_no];
     cts_string_ok := cts_string_ok cts ++ [g_ok];
     cts_string_no := cts_string_no cts ++ [g_no] |}.

(** Lines 1403, 1422, 1441: one entry on each class sequence. *)
Definition append_counts (cts : CurrentTransferStats) (s b k : Z) : CurrentTransferStats :=
  {| cts_smudge := cts_smudge cts ++ [s];
     cts_simbolos := cts_simbolos cts ++ [b];
     cts_blackdot := cts_blackdot cts ++ [k];
     cts_fifa_ok := cts_fifa_ok cts;
     cts_fifa_no := cts_fifa_no cts;
     cts_simbolo_ok := cts_simbolo_ok cts;
     cts_simbolo_no := cts_simbolo_no cts;
     cts_string_ok := cts_string_ok cts;
     cts_string_no := cts_string_no cts |}.

(** Lines 1517-1519: the last entries replaced by the resolved counts. *)
Definition set_last_counts (cts : CurrentTransferStats) (s b k : Z) : CurrentTransferStats :=
  {| cts_smudge := set_last (cts_smudge cts) s;
     cts_simbolos := set_last (cts_simbolos cts) b;
     cts_blackdot := set_last (cts_blackdot cts) k;
     cts_fifa_ok := cts_fifa_ok cts;
     cts_fifa_no := cts_fifa_no cts;
     cts_simbolo_ok := cts_simbolo_ok cts;
     cts_simbolo_no := cts_simbolo_no cts;
     cts_string_ok := cts_string_ok cts;
     cts_string_no := cts_string_no cts |}.

(** The ROI-present branch (lines 1356-1569).  Returns the state, the
    [stats] and the value left in the local [simbolos_result]. *)
Definition roi_present (cfg : Config) (st : State) (roi : RoiFrame)
  : State * Stats * option ModelOutput :=
  let opening := negb (current_transfer_active st) in
  let start := if opening then frame_count st else current_transfer_start_frame st in
  let frames := (if opening then 0 else current_transfer_frames st) + 1 in
  let dh := detection_history st in
  let w := stabilization_window cfg in
  let '(smudge_kept, h_smudge, smudge_count) :=
    detect_class (enabled_smudge cfg) w (dh_smudge dh) (smudge_result roi) in
  let '(simbolos_kept, h_simbolos, simbolos_count) :=
    detect_class (enabled_simbolos cfg) w (dh_simbolos dh) (simbolos_result roi) in
  let '(blackdot_kept, h_blackdot, blackdot_count) :=
    detect_class (enabled_blackdot cfg) w (dh_blackdot dh) (blackdot_result roi) in
  let cts1 := append_counts (current_transfer_stats st)
                            smudge_count simbolos_count blackdot_count in
  let detections_by_class :=
    class_entry "smudge" smudge_kept
    ++ class_entry "simbolos" simbolos_kept
    ++ class_entry "blackdot" blackdot_kept in
  let '(s, b, k, cts2) :=
    match detections_by_class with
    | [] => (smudge_count, simbolos_count, blackdot_count, cts1)
    | _ :: _ =>
        let filtered_detections :=
          resolve (class_priority cfg) (overlap_threshold cfg) detections_by_class in
        let s := Py.len (retained "smudge" filtered_detections) in
        let b := Py.len (retained "simbolos" filtered_detections) in
        let k := Py.len (retained "blackdot" filtered_detections) in
        (s, b, k, set_last_counts cts1 s b k)
    end in
  ({| transfer_count := transfer_count st;
      frames_without_roi := 0;
      current_transfer_active := true;
      current_transfer_start_frame := start;
      current_transfer_frames := frames;
      frame_count := frame_count st;
      detection_history := mkHistory h_smudge h_simbolos h_blackdot;
      transfer_stats := transfer_stats st;
      current_transfer_stats := cts2;
      transfer_averages := transfer_averages st |},
   {| stat_smudge := s; stat_simbolos := b; stat_blackdot := k;
      has_roi := true; stat_transfer_count := transfer_count st |},
   simbolos_kept).

(** Line 1572: [self.frames_without_roi += 1]. *)
Definition count_absent (st : State) : State :=
  {| transfer_count := transfer_count st;
     frames_without_roi := frames_without_roi st + 1;
     current_transfer_active := current_transfer_active st;
     current_transfer_start_frame := current_transfer_start_frame st;
     current_transfer_frames := current_transfer_frames st;
     frame_count := frame_count st;
     detection_history := detection_history st;
     transfer_stats := transfer_stats st;
     current_transfer_stats := current_transfer_stats st;
     transfer_averages := transfer_averages st |}.

(** The ROI-absent branch (lines 1570-1581). *)
Definition roi_absent (cfg : Config) (st : State) : State * Stats * option ModelOutput :=
  let st1 := count_absent st in
  let st2 :=
    if current_transfer_active st1 && (frames_without_roi st1 >=? ABSENT_TO_NEW cfg) then
      let f := _finalize_transfer st1 in
      {| transfer_count := transfer_count f + 1;
         frames_without_roi := frames_without_roi f;
         current_transfer_active := false;
         current_transfer_start_frame := current_transfer_start_frame f;
         current_transfer_frames := 0;
         frame_count := frame_count f;
         detection_history := detection_history f;
         transfer_stats := transfer_stats f;
         current_transfer_stats := current_transfer_stats f;
         transfer_averages := transfer_averages f |}
    else st1 in
  (st2,
   {| stat_smudge := 0; stat_simbolos := 0; stat_blackdot := 0;
      has_roi := false; stat_transfer_count := transfer_count st |},
   None).

(** Lines 1588 and 1624-1646: the frame counter, then the OK/NO sequences. *)
Definition record_ok_no (st : State) (stats : Stats) (simbolos : option ModelOutput)
  : State :=
  let counts :=
    if (stat_simbolos stats >? 0) && (match simbolos with Some _ => true | None => false end)
    then _analyze_ok_no_classes simbolos
    else (0, 0, 0, 0, 0, 0) in
  {| transfer_count := transfer_count st;
     frames_without_roi := frames_without_roi st;
     current_transfer_active := current_transfer_active st;
     current_transfer_start_frame := current_transfer_start_frame st;
     current_transfer_frames := current_transfer_frames st;
     frame_count := frame_count st + 1;
     detection_history := detection_history st;
     transfer_stats := transfer_stats st;
     current_transfer_stats :=
       if current_transfer_active st
       then append_ok_no (current_transfer_stats st) counts
       else current_transfer_stats st;
     transfer_averages := transfer_averages st |}.

Definition process_frame (cfg : Config) (st : State) (frame : Frame) : State * Stats :=
  let '(st1, stats, simbolos) :=
    match frame with
    | Some roi => roi_present cfg st roi
    | None => roi_absent cfg st
    end in
  (record_ok_no st1 stats simbolos, stats).

(** The detector run over a sequence of frames; the states after each
    frame, oldest first, are given by [trace]. *)
Definition run (cfg : Config) (st : State) (frames : list Frame) : State :=
  fold_left (fun s f => fst (process_frame cfg s f)) frames st.

Fixpoint trace (cfg : Config) (st : State) (frames : list Frame) : list State :=
  match frames with
  | [] => []
  | f :: rest =>
      let st' := fst (process_frame cfg st f) in
      st' :: trace cfg st' rest
  end.

(** ** Statistics summary: [get_final_statistics_summary] (infer.py 1841-2026) *)

Record ClassSummary : Type := mkClassSummary {
  cs_count : Z;              (* transfers in which the class appeared *)
  cs_total_objects : Z;
  cs_ok_no : option (Z * Z)  (* the ["ok"] and ["no"] totals, where present *)
}.

Record MostFrequentError : Type := mkMostFrequentError {
  mfe_class : string;
  mfe_type : string;
  mfe_count : Z;
  mfe_percentage : Q
}.

Record TransferObjects : Type := mkTransferObjects {
  to_transfer_id : Z;
  to_blackdot : Z;
  to_smudge : Z;
  to_fifa : Z * Z;
  to_simbolo : Z * Z;
  to_string : Z * Z
}.

Record Summary : Type := mkSummary {
  total_transfers_evaluated : Z;
  transfers_by_class : list (string * ClassSummary);
  most_frequent_error : MostFrequentError;
  objects_per_transfer : list TransferObjects
}.

(** [needle in s] on strings. *)
Fixpoint str_contains (needle s : string) : bool :=
  String.prefix needle s
  || match s with
     | EmptyString => false
     | String _ rest => str_contains needle rest
     end.

(** [max(d, key=d.get)] continued from a best entry so far: a later entry
    wins only with a strictly larger value. *)
Fixpoint max_entry (best : string * Z) (rest : list (string * Z)) : string * Z :=
  match rest with
  | [] => best
  | e :: t => if snd e >? snd best then max_entry e t else max_entry best t
  end.

Definition class_name_map : list (string * string) :=
  [("fifa_no", "FIFA"); ("simbolo_no", "Simbolo"); ("string_no", "String");
   ("smudge", "Smudge"); ("blackdot", "BlackDot")]%string.

(** The running totals of the loop at line 1888, as sums over the history. *)
Definition total_of (f : TransferRecord -> Z) (history : list TransferRecord) : Z :=
  Py.sum (map f history).

(** The [..._count] counters of the same loop. *)
Definition transfers_with (f : TransferRecord -> Z) (history : list TransferRecord) : Z :=
  Py.len (filter (fun t => f t >? 0) history).

Definition ok_no_summary (f : TransferRecord -> OkNoObjects) (history : list TransferRecord)
  : ClassSummary :=
  {| cs_count := transfers_with (fun t => obj_total (f t)) history;
     cs_total_objects := total_of (fun t => obj_total (f t)) history;
     cs_ok_no := Some (total_of (fun t => obj_ok (f t)) history,
                       total_of (fun t => obj_no (f t)) history) |}.

Definition transfer_objects (t : TransferRecord) : TransferObjects :=
  {| to_transfer_id := transfer_id t;
     to_blackdot := blackdot_total t;
     to_smudge := smudge_total t;
     to_fifa := (obj_ok (fifa_objects t), obj_no (fifa_objects t));
     to_simbolo := (obj_ok (simbolo_objects t), obj_no (simbolo_objects t));
     to_string := (obj_ok (string_objects t), obj_no (string_objects t)) |}.

(** [error_counts] (lines 1989-1995), in insertion order. *)
Definition error_counts (history : list TransferRecord) : list (string * Z) :=
  [("fifa_no"%string, total_of (fun t => obj_no (fifa_objects t)) history);
   ("simbolo_no"%string, total_of (fun t => obj_no (simbolo_objects t)) history);
   ("string_no"%string, total_of (fun t => obj_no (string_objects t)) history);
   ("smudge"%string, total_of smudge_total history);
   ("blackdot"%string, total_of blackdot_total history)].

(** Lines 1998-2019. *)
Definition most_frequent (counts : list (string * Z)) : Py.result MostFrequentError :=
  match counts with
  | [] => Py.Raise Py.ValueError  (* [max] of an empty dict; the dict has five keys *)
  | first :: rest =>
      let '(most_frequent_error_class, most_frequent_error_count) := max_entry first rest in
      let total_errors := Py.sum (map snd counts) in
      most_frequent_error_percentage <-
        (if total_errors >? 0
         then q <- Py.truediv most_frequent_error_count total_errors ;; Py.Ok (q * 100)%Q
         else Py.Ok 0%Q) ;;
      Py.Ok {| mfe_class := match dict_get most_frequent_error_class class_name_map with
                            | Some name => name
                            | None => most_frequent_error_class
                            end;
               mfe_type := if str_contains "_no" most_frequent_error_class
                           then "NO"%string else "Erro"%string;
               mfe_count := most_frequent_error_count;
               mfe_percentage := most_frequent_error_percentage |}
  end.

Definition get_final_statistics_summary (st : State) : Py.result Summary :=
  let transfer_history := transfer_history (transfer_stats st) in
  let total_transfers := Py.len transfer_history in
  if total_transfers =? 0 then
    Py.Ok {| total_transfers_evaluated := 0;
             transfers_by_class := [];
             most_frequent_error :=
               {| mfe_class := "Nenhuma"; mfe_type := "N/A";
                  mfe_count := 0; mfe_percentage := 0 |};
             objects_per_transfer := [] |}
  else
    most_frequent_error <- most_frequent (error_counts transfer_history) ;;
    Py.Ok {| total_transfers_evaluated := total_transfers;
             transfers_by_class :=
               [("blackdot"%string,
                 mkClassSummary (transfers_with blackdot_total transfer_history)
                                (total_of blackdot_total transfer_history) None);
                ("smudge"%string,
                 mkClassSummary (transfers_with smudge_total transfer_history)
                                (total_of smudge_total transfer_history) None);
                ("fifa"%string, ok_no_summary fifa_objects transfer_history);
                ("simbolo"%string, ok_no_summary simbolo_objects transfer_history);
                ("string"%string, ok_no_summary string_objects transfer_history)];
             most_frequent_error := most_frequent_error;
             objects_per_transfer := map transfer_objects transfer_history |}.

(** ** Vocabulary for statements about the tracker *)

(** The mean of a per-frame count sequence exceeds 0.20, in integers:
    [sum / len > 1/5] for a non-empty sequence; never for an empty one. *)
Definition exceeds_fifth (l : list Z) : Prop := Py.len l < 5 * Py.sum l.

(** [q] is the mean of [l]; the code records [0.0] for an empty sequence. *)
Definition is_mean_of (q : Q) (l : list Z) : Prop :=
  (q * inject_Z (Py.len l) == inject_Z (Py.sum l))%Q /\ (l = [] -> q = 0%Q).

(** The nine per-frame sequences all have the same length. *)
Definition sequences_aligned (cts : CurrentTransferStats) : Prop :=
  let n := List.length (cts_smudge cts) in
  List.length (cts_simbolos cts) = n /\ List.length (cts_blackdot cts) = n
  /\ List.length (cts_fifa_ok cts) = n /\ List.length (cts_fifa_no cts) = n
  /\ List.length (cts_simbolo_ok cts) = n /\ List.length (cts_simbolo_no cts) = n
  /\ List.length (cts_string_ok cts) = n /\ List.length (cts_string_no cts) = n.

(** The three class sequences have length [n]. *)
Definition class_lengths (cts : CurrentTransferStats) (n : Z) : Prop :=
  Py.len (cts_smudge cts) = n /\ Py.len (cts_simbolos cts) = n
  /\ Py.len (cts_blackdot cts) = n.

(** The six OK/NO sequences have length [n]. *)
Definition ok_no_lengths (cts : CurrentTransferStats) (n : Z) : Prop :=
  Py.len (cts_fifa_ok cts) = n /\ Py.len (cts_fifa_no cts) = n
  /\ Py.len (cts_simbolo_ok cts) = n /\ Py.len (cts_simbolo_no cts) = n
  /\ Py.len (cts_string_ok cts) = n /\ Py.len (cts_string_no cts) = n.

(** [l'] is [l] with exactly one entry appended. *)
Definition appended (l l' : list Z) : Prop := exists v, l' = l ++ [v].

(** Each of the three class sequences got exactly one new entry. *)
Definition class_appended (cts cts' : CurrentTransferStats) : Prop :=
  appended (cts_smudge cts) (cts_smudge cts')
  /\ appended (cts_simbolos cts) (cts_simbolos cts')
  /\ appended (cts_blackdot cts) (cts_blackdot cts').

(** The three class sequences are as before. *)
Definition class_unchanged (cts cts' : CurrentTransferStats) : Prop :=
  cts_smudge cts' = cts_smudge cts
  /\ cts_simbolos cts' = cts_simbolos cts
  /\ cts_blackdot cts' = cts_blackdot cts.

(** Each of the six OK/NO sequences got exactly one new entry. *)
Definition ok_no_appended (cts cts' : CurrentTransferStats) : Prop :=
  appended (cts_fifa_ok cts) (cts_fifa_ok cts')
  /\ appended (cts_fifa_no cts) (cts_fifa_no cts')
  /\ appended (cts_simbolo_ok cts) (cts_simbolo_ok cts')
  /\ appended (cts_simbolo_no cts) (cts_simbolo_no cts')
  /\ appended (cts_string_ok cts) (cts_string_ok cts')
  /\ appended (cts_string_no cts) (cts_string_no cts').

(** Each of the six OK/NO sequences got one new entry, a zero. *)
Definition ok_no_appended_zero (cts cts' : CurrentTransferStats) : Prop :=
  cts_fifa_ok cts' = cts_fifa_ok cts ++ [0]
  /\ cts_fifa_no cts' = cts_fifa_no cts ++ [0]
  /\ cts_simbolo_ok cts' = cts_simbolo_ok cts ++ [0]
  /\ cts_simbolo_no cts' = cts_simbolo_no cts ++ [0]
  /\ cts_string_ok cts' = cts_string_ok cts ++ [0]
  /\ cts_string_no cts' = cts_string_no cts ++ [0].

(** What holds of the sequences in every state the detector reaches. *)
Definition sequences_invariant (st : State) : Prop :=
  if current_transfer_active st
  then class_lengths (current_transfer_stats st) (current_transfer_frames st)
       /\ ok_no_lengths (current_transfer_stats st)
                        (frame_count st - current_transfer_start_frame st)
  else current_transfer_stats st = empty_seqs.

(** The part of the state that the opening and closing of transfers
    depends on, with each history record cut down to its id, duration and
    start frame. *)
Record TrackerView : Type := mkView {
  v_transfer_count : Z;
  v_frames_without_roi : Z;
  v_active : bool;
  v_start_frame : Z;
  v_frames : Z;
  v_frame_count : Z;
  v_total_evaluated : Z;
  v_history : list (Z * Z * Z)
}.

Definition view (st : State) : TrackerView :=
  {| v_transfer_count := transfer_count st;
     v_frames_without_roi := frames_without_roi st;
     v_active := current_transfer_active st;
     v_start_frame := current_transfer_start_frame st;
     v_frames := current_transfer_frames st;
     v_frame_count := frame_count st;
     v_total_evaluated := total_evaluated (transfer_stats st);
     v_history := map (fun r => (transfer_id r, duration_frames r, start_frame r))
                      (transfer_history (transfer_stats st)) |}.

(** [process_frame] seen through [view]: it depends on the frame only
    through the presence of the ROI ([view_process_frame] below). *)
Definition view_step (absent_to_new : Z) (v : TrackerView) (roi_found : bool)
  : TrackerView :=
  if roi_found then
    {| v_transfer_count := v_transfer_count v;
       v_frames_without_roi := 0;
       v_active := true;
       v_start_frame := if v_active v then v_start_frame v else v_frame_count v;
       v_frames := (if v_active v then v_frames v else 0) + 1;
       v_frame_count := v_frame_count v + 1;
       v_total_evaluated := v_total_evaluated v;
       v_history := v_history v |}
  else if v_active v && (v_frames_without_roi v + 1 >=? absent_to_new) then
    {| v_transfer_count := v_transfer_count v + 1;
       v_frames_without_roi := v_frames_without_roi v + 1;
       v_active := false;
       v_start_frame := v_start_frame v;
       v_frames := 0;
       v_frame_count := v_frame_count v + 1;
       v_total_evaluated := v_total_evaluated v + 1;
       v_history :=
         let h := v_history v ++ [(v_transfer_count v, v_frames v, v_start_frame v)] in
         if Py.len h >? 100 then tl h else h |}
  else
    {| v_transfer_count := v_transfer_count v;
       v_frames_without_roi := v_frames_without_roi v + 1;
       v_active := v_active v;
       v_start_frame := v_start_frame v;
       v_frames := v_frames v;
       v_frame_count := v_frame_count v + 1;
       v_total_evaluated := v_total_evaluated v;
       v_history := v_history v |}.

Fixpoint view_trace (absent_to_new : Z) (v : TrackerView) (rois : list bool)
  : list TrackerView :=
  match rois with
  | [] => []
  | r :: rest =>
      let v' := view_step absent_to_new v r in
      v' :: view_trace absent_to_new v' rest
  end.

Definition roi_found (f : Frame) : bool :=
  match f with Some _ => true | None => false end.

(** ** Concrete inputs used as test cases *)

(** A FIFA_OK symbols detection and a smudge detection at IOU 0.5. *)
Definition overlap_smudge : Detection := mkDetection (0, 0, 10, 10) (9 # 10) None.
Definition overlap_fifa_ok : Detection := mkDetection (0, 0, 10, 5) (8 # 10) (Some 1).
Definition overlap_input : DetectionsByClass :=
  [("smudge"%string, [overlap_smudge]); ("simbolos"%string, [overlap_fifa_ok])].

(** A frame with the ROI found and no detector output, and the state after
    one such frame followed by one frame without ROI. *)
Definition quiet_roi_frame : RoiFrame := mkRoiFrame None None None.
Definition after_one_absent_frame : State :=
  run default_config initial_state [Some quiet_roi_frame; None].

(** A state about to close a transfer of ten frames, given the per-frame
    counts of the three classes. *)
Definition closing_state (smudge simbolos blackdot : list Z) : State :=
  {| transfer_count := 0;
     frames_without_roi := 8;
     current_transfer_active := true;
     current_transfer_start_frame := 0;
     current_transfer_frames := 10;
     frame_count := 18;
     detection_history := mkHistory [] [] [];
     transfer_stats := mkTransferStats 0 0 0 [];
     current_transfer_stats := mkSeqs smudge simbolos blackdot [] [] [] [] [] [];
     transfer_averages := mkAverages 0 0 0 |}.

Definition one_in_ten : list Z := [0; 0; 1; 0; 0; 0; 0; 0; 0; 0].
Definition three_in_ten : list Z := [1; 0; 1; 0; 0; 1; 0; 0; 0; 0].

(** ** Vocabulary for statements about runs of frames *)

(** The tracker view after a sequence of ROI presence flags. *)
Definition view_after (absent_to_new : Z) (v : TrackerView) (rois : list bool)
  : TrackerView :=
  fold_left (view_step absent_to_new) rois v.


(** The number of ROI-absent frames at the head of a list of frames. *)
Fixpoint leading_absent (frames : list Frame) : nat :=
  match frames with
  | None :: rest => S (leading_absent rest)
  | _ => 0%nat
  end.

(** The number of consecutive ROI-absent frames that end a run. *)
Definition absent_streak (frames : list Frame) : nat := leading_absent (rev frames).

(** The ROI was found on at least one of the last [n] frames of a run. *)
Definition roi_seen_within (n : Z) (frames : list Frame) : bool :=
  existsb roi_found (firstn (Z.to_nat n) (rev frames)).

(** The ids of the keys [(id, duration, start)] count up from [first]. *)
Fixpoint ids_from (first : Z) (h : list (Z * Z * Z)) : Prop :=
  match h with
  | [] => True
  | (id, _, _) :: rest => id = first /\ ids_from (first + 1) rest
  end.

(** The transfers of the keys [(id, duration, start)] each last at least one
    frame, start no earlier than [lo], are in time order with at least
    [gap] frames between the last ROI frame one could have had and the next
    start, and the last one is over, gap included, by frame [hi]. *)
Fixpoint well_spaced (gap lo : Z) (h : list (Z * Z * Z)) (hi : Z) : Prop :=
  match h with
  | [] => lo <= hi
  | (_, duration, start) :: rest =>
      lo <= start /\ 1 <= duration /\ well_spaced gap (start + duration + gap) rest hi
  end.

(** What the tracker view satisfies in every state reached from the initial
    one ([tracker_ok_run] below); [A] is [ABSENT_TO_NEW]. *)
Definition tracker_ok (A : Z) (v : TrackerView) : Prop :=
  0 <= v_frames_without_roi v
  /\ 0 <= v_transfer_count v
  /\ Py.len (v_history v) = Z.min (v_transfer_count v) 100
  /\ ids_from (v_transfer_count v - Py.len (v_history v)) (v_history v)
  /\ (if v_active v
      then 1 <= v_frames v
           /\ v_frames_without_roi v < A
           /\ v_start_frame v + v_frames v + v_frames_without_roi v <= v_frame_count v
           /\ well_spaced A 0 (v_history v) (v_start_frame v)
      else v_frames v = 0
           /\ well_spaced A 0 (v_history v) (v_frame_count v)).

(** ** Vocabulary for statements about one frame *)

(** The result [process_frame] keeps for a class: the detector's result when
    the model is enabled and the validator accepts it, else [None]. *)
Definition kept_result (enabled : bool) (result : option ModelOutput)
  : option ModelOutput :=
  if enabled && validate result then result else None.

(** The dictionary handed to the resolver on a frame with the ROI. *)
Definition frame_detections (cfg : Config) (roi : RoiFrame) : DetectionsByClass :=
  class_entry "smudge" (kept_result (enabled_smudge cfg) (smudge_result roi))
  ++ class_entry "simbolos" (kept_result (enabled_simbolos cfg) (simbolos_result roi))
  ++ class_entry "blackdot" (kept_result (enabled_blackdot cfg) (blackdot_result roi)).

(** The default configuration with the smudge detector switched off. *)
Definition smudge_off_config : Config :=
  {| ABSENT_TO_NEW := 8;
     stabilization_window := 8;
     class_priority := default_class_priority;
     overlap_threshold := default_overlap_threshold;
     enabled_smudge := false;
     enabled_simbolos := true;
     enabled_blackdot := true |}.

(** A frame on which the black-dot detector reports one validated box. *)
Definition one_blackdot_frame : RoiFrame :=
  {| smudge_result := None;
     simbolos_result := None;
     blackdot_result :=
       Some {| cls := [0]; quality_ok := true;
               in_roi := [mkDetection (5, 5, 15, 15) (6 # 10) None] |} |}.

(** ** Runtime controls: [self.model_enabled] (infer.py 66-72, 2083-2105) *)

Definition ModelEnabled : Type := list (string * bool).

Definition initial_model_enabled : ModelEnabled :=
  [("seg", true); ("smudge", true); ("simbolos", true); ("blackdot", true)]%string.

(** [d[k] = v] for a key [k] of [d]. *)
Definition dict_set {V : Type} (k : string) (v : V) (d : list (string * V))
  : list (string * V) :=
  map (fun '(k', v') => if String.eqb k' k then (k', v) else (k', v')) d.

(** [set_model_enabled]: an unknown name only logs a warning. *)
Definition set_model_enabled (model_name : string) (enabled : bool) (m : ModelEnabled)
  : ModelEnabled :=
  if str_in model_name (dict_keys m) then dict_set model_name enabled m else m.

(** [get_model_status]: a copy of the dictionary. *)
Definition get_model_status (m : ModelEnabled) : ModelEnabled := m.

Definition enable_all_models (m : ModelEnabled) : ModelEnabled :=
  fold_left (fun acc model => dict_set model true acc) (dict_keys m) m.

Definition disable_all_models (m : ModelEnabled) : ModelEnabled :=
  fold_left (fun acc model => dict_set model false acc) (dict_keys m) m.

(** ** Vocabulary for statements about the resolver *)

(** [b] is not placed before [a] by the sort key: [not (key(b) < key(a))]. *)
Definition key_ordered (a b : Candidate) : Prop := key_lt b a = false.

(** No two of the candidates, taken in list order, have IOU above 0.02. *)
Definition pairwise_apart (l : list Candidate) : Prop :=
  ForallOrdPairs (fun c1 c2 => (iou (cand_bbox c1) (cand_bbox c2) <= 1 # 50)%Q) l.

(** A symbols detection and a black-dot detection far apart. *)
Definition apart_symbol : Detection := mkDetection (0, 0, 10, 10) (9 # 10) (Some 0).
Definition apart_blackdot : Detection := mkDetection (20, 20, 30, 30) (6 # 10) None.
Definition apart_input : DetectionsByClass :=
  [("simbolos"%string, [apart_symbol]); ("blackdot"%string, [apart_blackdot])].

(** The test one accepted detection contributes to [overlaps_filtered]
    (infer.py 594-622), for a candidate of class [accepted_class]. *)
Definition general_conflicts (overlap_threshold : Q) (detection : Candidate)
           (accepted_class : string) (accepted_detection : Detection) : bool :=
  let accepted_is_fifa_in_simbolos :=
    String.eqb accepted_class "simbolos"
    && class_id_in_0_1 (class_id accepted_detection) in
  let fifa_fifa :=
    (is_fifa_smudge detection && accepted_is_fifa_in_simbolos)
    || (is_fifa_in_simbolos detection && String.eqb accepted_class "smudge") in
  if fifa_fifa then false
  else if is_exclusive detection
          && negb (String.eqb accepted_class (cand_class detection))
  then Py.gt (iou (cand_bbox detection) (bbox accepted_detection)) (1 # 10)
  else if negb (is_exclusive detection)
  then Py.gt (iou (cand_bbox detection) (bbox accepted_detection)) overlap_threshold
  else false.

(** ** Vocabulary for statements about counts and records *)

(** Every entry of a count sequence is non-negative. *)
Definition nonneg (l : list Z) : Prop := Forall (fun x => 0 <= x) l.

Definition history_nonneg (dh : DetectionHistory) : Prop :=
  nonneg (dh_smudge dh) /\ nonneg (dh_simbolos dh) /\ nonneg (dh_blackdot dh).

Definition seqs_nonneg (cts : CurrentTransferStats) : Prop :=
  nonneg (cts_smudge cts) /\ nonneg (cts_simbolos cts) /\ nonneg (cts_blackdot cts)
  /\ nonneg (cts_fifa_ok cts) /\ nonneg (cts_fifa_no cts)
  /\ nonneg (cts_simbolo_ok cts) /\ nonneg (cts_simbolo_no cts)
  /\ nonneg (cts_string_ok cts) /\ nonneg (cts_string_no cts).

Definition six_nonneg (c : Z * Z * Z * Z * Z * Z) : Prop :=
  let '(f_ok, f_no, s_ok, s_no, g_ok, g_no) := c in
  0 <= f_ok /\ 0 <= f_no /\ 0 <= s_ok /\ 0 <= s_no /\ 0 <= g_ok /\ 0 <= g_no.

(** The OK/NO entry of a transfer record adds up. *)
Definition ok_no_coherent (o : OkNoObjects) : Prop :=
  0 <= obj_ok o /\ 0 <= obj_no o
  /\ obj_total o = obj_ok o + obj_no o
  /\ 0 <= obj_frames_with_detection o <= obj_total o.

(** The numbers of one transfer record agree with each other. *)
Definition record_coherent (r : TransferRecord) : Prop :=
  (0 <= smudge_frames r <= duration_frames r /\ smudge_frames r <= smudge_total r)
  /\ (0 <= blackdot_frames r <= duration_frames r /\ blackdot_frames r <= blackdot_total r)
  /\ smudge_detected r = (smudge_total r >? 0)
  /\ blackdot_detected r = (blackdot_total r >? 0)
  /\ (smudge_avg r * inject_Z (duration_frames r) == inject_Z (smudge_total r))%Q
  /\ (blackdot_avg r * inject_Z (duration_frames r) == inject_Z (blackdot_total r))%Q
  /\ (smudge_reject r = true -> smudge_detected r = true)
  /\ (simbolos_reject r = true -> simbolos_detected r = true)
  /\ (blackdot_reject r = true -> blackdot_detected r = true)
  /\ approved r = negb (smudge_reject r || simbolos_reject r || blackdot_reject r)
  /\ ok_no_coherent (fifa_objects r)
  /\ ok_no_coherent (simbolo_objects r)
  /\ ok_no_coherent (string_objects r).

(** What holds of the counts in every state the detector reaches. *)
Definition counts_invariant (st : State) : Prop :=
  sequences_invariant st
  /\ history_nonneg (detection_history st)
  /\ seqs_nonneg (current_transfer_stats st)
  /\ Forall record_coherent (transfer_history (transfer_stats st)).

(** What the summary says about one class, given the totals it was
    computed from. *)
Definition row_coherent (total_transfers : Z) (c : ClassSummary) : Prop :=
  0 <= cs_count c <= total_transfers
  /\ cs_count c <= cs_total_objects c
  /\ match cs_ok_no c with
     | Some (ok, no) => 0 <= ok /\ 0 <= no /\ cs_total_objects c = ok + no
     | None => True
     end.

(** ** Per-class detection rates: [get_transfer_class_stats] (infer.py 1813-1839) *)

Record TransferClassStats : Type := mkTransferClassStats {
  tcs_total_transfers : Z;
  tcs_smudge_detected_count : Z;
  tcs_simbolos_detected_count : Z;
  tcs_blackdot_detected_count : Z;
  tcs_smudge_detection_rate : Q;
  tcs_simbolos_detection_rate : Q;
  tcs_blackdot_detection_rate : Q
}.

(** [sum(1 for t in history if t["classes_detected"][...])]. *)
Definition detected_count (flag : TransferRecord -> bool) (history : list TransferRecord)
  : Z :=
  Py.len (filter flag history).

Definition get_transfer_class_stats (st : State) : Py.result TransferClassStats :=
  let transfer_history := transfer_history (transfer_stats st) in
  match transfer_history with
  | [] => Py.Ok (mkTransferClassStats 0 0 0 0 0 0 0)
  | _ :: _ =>
      let total_transfers := Py.len transfer_history in
      let smudge_detected := detected_count smudge_detected transfer_history in
      let simbolos_detected := detected_count simbolos_detected transfer_history in
      let blackdot_detected := detected_count blackdot_detected transfer_history in
      smudge_rate <- Py.truediv smudge_detected total_transfers ;;
      simbolos_rate <- Py.truediv simbolos_detected total_transfers ;;
      blackdot_rate <- Py.truediv blackdot_detected total_transfers ;;
      Py.Ok {| tcs_total_transfers := total_transfers;
               tcs_smudge_detected_count := smudge_detected;
               tcs_simbolos_detected_count := simbolos_detected;
               tcs_blackdot_detected_count := blackdot_detected;
               tcs_smudge_detection_rate := (smudge_rate * 100)%Q;
               tcs_simbolos_detection_rate := (simbolos_rate * 100)%Q;
               tcs_blackdot_detection_rate := (blackdot_rate * 100)%Q |}
  end.

(** A rate is the share of [count] in [total], in percent, between 0 and 100. *)
Definition rate_of (count total : Z) (rate : Q) : Prop :=
  0 <= count <= total
  /\ (0 <= rate <= 100)%Q
  /\ (rate * inject_Z total == inject_Z (100 * count))%Q.

(** ** Predominant class: [_calculate_predominant_class] (infer.py 2302-2372)
    and [_get_current_dominant_class] (infer.py 2374-2406) *)

(** The accented letters of the labels, as their UTF-8 bytes. *)
Definition i_acute : string :=
  String (Ascii.ascii_of_nat 195) (String (Ascii.ascii_of_nat 173) EmptyString).
Definition o_acute : string :=
  String (Ascii.ascii_of_nat 195) (String (Ascii.ascii_of_nat 179) EmptyString).

Definition label_smudge : string := "Smudge".
Definition label_simbolo : string := ("S" ++ i_acute ++ "mbolo")%string.
Definition label_blackdot : string := "BlackDot".
Definition label_none : string := "Nenhuma".

(** [s.lower()]: the ASCII capitals are lowered; the other bytes of the
    labels belong to letters that are lower case already. *)
Definition lower_byte (c : Ascii.ascii) : Ascii.ascii :=
  let n := Ascii.nat_of_ascii c in
  if Nat.leb 65 n && Nat.leb n 90 then Ascii.ascii_of_nat (n + 32)%nat else c.

Fixpoint str_lower (s : string) : string :=
  match s with
  | EmptyString => EmptyString
  | String c rest => String (lower_byte c) (str_lower rest)
  end.

(** [s.replace(old, new)] for a non-empty [old]: occurrences are replaced
    left to right; [skip] counts the bytes of an occurrence still to drop. *)
Fixpoint replace_from (old new : string) (skip : nat) (s : string) : string :=
  match s with
  | EmptyString => EmptyString
  | String c rest =>
      match skip with
      | S k => replace_from old new k rest
      | O =>
          if String.prefix old s
          then (new ++ replace_from old new (Nat.pred (String.length old)) rest)%string
          else String c (replace_from old new O rest)
      end
  end.

Definition str_replace (old new s : string) : string := replace_from old new O s.

(** [predominant_class.lower().replace('í', 'i').replace('ó', 'o')]. *)
Definition class_key (predominant_class : string) : string :=
  str_replace o_acute "o" (str_replace i_acute "i" (str_lower predominant_class)).

(** An entry of [self.class_history]. *)
Record FrameData : Type := mkFrameData {
  fd_smudge : Z;
  fd_simbolos : Z;
  fd_blackdot : Z;
  fd_frame : Z
}.

(** [frame[key]]; [None] stands for the [KeyError] of a missing key. *)
Definition frame_get (key : string) (frame : FrameData) : option Z :=
  if String.eqb key "smudge" then Some (fd_smudge frame)
  else if String.eqb key "simbolos" then Some (fd_simbolos frame)
  else if String.eqb key "blackdot" then Some (fd_blackdot frame)
  else if String.eqb key "frame" then Some (fd_frame frame)
  else None.

(** What a [try] block yields to its [except Exception] handler: [None]
    when an exception was raised. *)
Definition caught {A : Type} (r : Py.result A) : option A :=
  match r with
  | Py.Ok a => Some a
  | Py.Raise _ => None
  end.

(** [max(scores, key=scores.get)] continued from a best entry so far. *)
Fixpoint max_score_entry (best : string * Q) (rest : list (string * Q)) : string * Q :=
  match rest with
  | [] => best
  | e :: t => if Py.gt (snd e) (snd best) then max_score_entry e t
              else max_score_entry best t
  end.

(** [min(a, b)] on floats: the first argument unless the second is smaller. *)
Definition float_min (a b : Q) : Q := if Py.gt a b then b else a.

Definition _get_current_dominant_class (stats : Stats) : Py.result (string * Q) :=
  let smudge_count := stat_smudge stats in
  let simbolos_count := stat_simbolos stats in
  let blackdot_count := stat_blackdot stats in
  if (smudge_count =? 0) && (simbolos_count =? 0) && (blackdot_count =? 0)
  then Py.Ok (label_none, 0%Q)
  else
    let counts := [(label_smudge, smudge_count); (label_simbolo, simbolos_count);
                   (label_blackdot, blackdot_count)] in
    let '(dominant_class, max_count) :=
      max_entry (label_smudge, smudge_count)
                [(label_simbolo, simbolos_count); (label_blackdot, blackdot_count)] in
    let total_detections := Py.sum (map snd counts) in
    confidence <- (if total_detections >? 0 then Py.truediv max_count total_detections
                   else Py.Ok 0%Q) ;;
    Py.Ok (dominant_class, confidence).

(** The loop at lines 2357-2359 from a running counter: [None] as soon as a
    frame lacks the key. *)
Fixpoint count_detections (key : string) (recent_frames : list FrameData)
         (predominant_detections : Z) : option Z :=
  match recent_frames with
  | [] => Some predominant_detections
  | frame :: rest =>
      match frame_get key frame with
      | None => None
      | Some v =>
          count_detections key rest
            (if v >? 0 then predominant_detections + 1 else predominant_detections)
      end
  end.

(** Lines 2324-2325: the history after the append and the trim. *)
Definition push_class_history (moving_average_window : Z) (class_history : list FrameData)
           (frame_data : FrameData) : list FrameData :=
  let h := class_history ++ [frame_data] in
  if Py.len h >? moving_average_window then Py.slice_from (- moving_average_window) h
  else h.

(** The [try] block from line 2327 on, given the history already updated. *)
Definition predominant_body (class_history : list FrameData) (stats : Stats)
  : option (string * Q) :=
  if Py.len class_history <? 3 then caught (_get_current_dominant_class stats)
  else
    match caught (Py.truediv (Py.sum (map fd_smudge class_history)) (Py.len class_history)),
          caught (Py.truediv (Py.sum (map fd_simbolos class_history)) (Py.len class_history)),
          caught (Py.truediv (Py.sum (map fd_blackdot class_history)) (Py.len class_history))
    with
    | Some smudge_avg, Some simbolos_avg, Some blackdot_avg =>
        let '(predominant_class, max_score) :=
          max_score_entry (label_smudge, smudge_avg)
                          [(label_simbolo, simbolos_avg); (label_blackdot, blackdot_avg)] in
        if Py.gt (1 # 10) max_score then Some (label_none, 0%Q)
        else
          let recent_frames :=
            if Py.len class_history >=? 5 then Py.slice_from (-5) class_history
            else class_history in
          match count_detections (class_key predominant_class) recent_frames 0 with
          | None => None
          | Some predominant_detections =>
              match caught (Py.truediv predominant_detections (Py.len recent_frames)) with
              | None => None
              | Some confidence =>
                  let intensity_factor := float_min (max_score / 2) 1 in
                  Some (predominant_class, (confidence * intensity_factor)%Q)
              end
          end
    | _, _, _ => None
    end.

(** Returns the updated [self.class_history] and the pair returned; the
    handler of line 2370 runs when the block raised. *)
Definition _calculate_predominant_class (moving_average_window : Z)
           (class_history : list FrameData) (frame_count : Z) (stats : Stats)
  : list FrameData * Py.result (string * Q) :=
  let frame_data :=
    {| fd_smudge := stat_smudge stats;
       fd_simbolos := stat_simbolos stats;
       fd_blackdot := stat_blackdot stats;
       fd_frame := frame_count |} in
  let h := push_class_history moving_average_window class_history frame_data in
  (h, match predominant_body h stats with
      | Some r => Py.Ok r
      | None => _get_current_dominant_class stats
      end).

(** Ten frames with two detections of one class each, then a frame with
    none: for symbols, and for smudge. *)
Definition symbol_frames : list FrameData :=
  repeat (mkFrameData 0 2 0 0) 9.
Definition smudge_frames_only : list FrameData :=
  repeat (mkFrameData 2 0 0 0) 9.
Definition empty_stats : Stats := mkStats 0 0 0 true 0.

(** ** Box validation: [_validate_bbox] (infer.py 873-905) and
    [_filter_valid_bboxes] (infer.py 907-925) *)

(** [frame_shape[:2]] is [(height, width)]. *)
Definition _validate_bbox (bbox : Box) (frame_shape : Z * Z) : bool :=
  let '(x1, y1, x2, y2) := bbox in
  let '(height, width) := frame_shape in
  if (x1 <? 0) || (y1 <? 0) || (x2 >=? width) || (y2 >=? height) then false
  else if (x2 <=? x1) || (y2 <=? y1) then false
  else if (x2 - x1 <? 10) || (y2 - y1 <? 10) then false
  else
    let max_width := (inject_Z width * (8 # 10))%Q in
    let max_height := (inject_Z height * (8 # 10))%Q in
    if Py.gt (inject_Z (x2 - x1)) max_width || Py.gt (inject_Z (y2 - y1)) max_height
    then false
    else true.

(** The loop of lines 918-923 from the list built so far. *)
Definition _filter_valid_bboxes (bboxes : list Box) (frame_shape : Z * Z) : list Box :=
  fold_left (fun valid_bboxes bbox =>
               if _validate_bbox bbox frame_shape then valid_bboxes ++ [bbox]
               else valid_bboxes)
            bboxes [].

(** What [_validate_bbox] accepts, in integers: the box lies in the frame
    short of its last row and column, each side is at least 10 pixels and
    at most 80% of the frame's. *)
Definition valid_box (frame_shape : Z * Z) (b : Box) : Prop :=
  let '(x1, y1, x2, y2) := b in
  let '(height, width) := frame_shape in
  0 <= x1 /\ 0 <= y1 /\ x2 < width /\ y2 < height
  /\ 10 <= x2 - x1 /\ 10 <= y2 - y1
  /\ 5 * (x2 - x1) <= 4 * width /\ 5 * (y2 - y1) <= 4 * height.

(** ** In-ROI test: [is_detection_inside_roi] (infer.py 340-397) *)

(** A mask array: [roi_mask.shape[:2]] and the entries [roi_mask[y, x]] for
    indices within the shape. *)
Record Mask : Type := mkMask {
  mask_rows : Z;
  mask_cols : Z;
  mask_at : Z -> Z -> Z
}.

(** [range(a, b)]. *)
Definition zrange (a b : Z) : list Z :=
  map (fun i => a + Z.of_nat i) (seq 0 (Z.to_nat (b - a))).

(** [np.count_nonzero(roi_mask[y_min:y_max, x_min:x_max])] for bounds
    within the shape, as they are where the call is made. *)
Definition count_nonzero_region (m : Mask) (y_min y_max x_min x_max : Z) : Z :=
  Py.len (filter (fun '(y, x) => negb (mask_at m y x =? 0))
                 (list_prod (zrange y_min y_max) (zrange x_min x_max))).

(** [roi_bbox] is [(x, y, w, h)]; [int(s / 2)] truncates towards zero. *)
Definition is_detection_inside_roi (detection_bbox : Box) (roi_mask : option Mask)
           (roi_bbox : option (Z * Z * Z * Z)) : bool :=
  match roi_bbox with
  | None => false
  | Some (roi_x, roi_y, roi_w, roi_h) =>
      let '(x1, y1, x2, y2) := detection_bbox in
      let center_x := Z.quot (x1 + x2) 2 in
      let center_y := Z.quot (y1 + y2) 2 in
      if negb ((roi_x <=? center_x) && (center_x <=? roi_x + roi_w)
               && (roi_y <=? center_y) && (center_y <=? roi_y + roi_h))
      then false
      else
        match roi_mask with
        | Some m =>
            if (0 <=? center_y) && (center_y <? mask_rows m)
               && (0 <=? center_x) && (center_x <? mask_cols m)
               && (mask_at m center_y center_x >? 0)
            then true
            else
              let x_min := Z.max x1 0 in
              let y_min := Z.max y1 0 in
              let x_max := Z.min x2 (mask_cols m) in
              let y_max := Z.min y2 (mask_rows m) in
              if (x_max >? x_min) && (y_max >? y_min) then
                let detection_area := (x2 - x1) * (y2 - y1) in
                if detection_area >? 0 then
                  let intersection_area :=
                    count_nonzero_region m y_min y_max x_min x_max in
                  negb (Py.gt (1 # 2)
                              (inject_Z intersection_area / inject_Z detection_area))
                else false
              else false
        | None => true
        end
  end.

(** The centre of the box, truncated, lies in the closed ROI rectangle. *)
Definition center_in_roi (b : Box) (roi : Z * Z * Z * Z) : Prop :=
  let '(x1, y1, x2, y2) := b in
  let '(roi_x, roi_y, roi_w, roi_h) := roi in
  roi_x <= Z.quot (x1 + x2) 2 <= roi_x + roi_w
  /\ roi_y <= Z.quot (y1 + y2) 2 <= roi_y + roi_h.

(** [m'] has the shape of [m] and is set wherever [m] is. *)
Definition mask_le (m m' : Mask) : Prop :=
  mask_rows m' = mask_rows m /\ mask_cols m' = mask_cols m
  /\ (forall y x, mask_at m y x > 0 -> mask_at m' y x > 0)
  /\ (forall y x, mask_at m y x <> 0 -> mask_at m' y x <> 0).

(** ** Building the detections of a class: [process_frame] lines 1448-1488 *)

(** The loop over [enumerate(boxes_coords)] from index [i]: a box inside the
    ROI is recorded with [confidences[i]] and, for the symbols model,
    [class_ids[i]]; [None] stands for an [IndexError]. *)
Fixpoint collect_from (i : nat) (boxes_coords : list Box) (confidences : list Q)
         (class_ids : option (list Z)) (roi_mask : option Mask)
         (roi_bbox : option (Z * Z * Z * Z)) (acc : list Detection)
  : option (list Detection) :=
  match boxes_coords with
  | [] => Some acc
  | coords :: rest =>
      if is_detection_inside_roi coords roi_mask roi_bbox then
        match nth_error confidences i with
        | None => None
        | Some c =>
            match class_ids with
            | None =>
                collect_from (S i) rest confidences class_ids roi_mask roi_bbox
                             (acc ++ [mkDetection coords c None])
            | Some ids =>
                match nth_error ids i with
                | None => None
                | Some cid =>
                    collect_from (S i) rest confidences class_ids roi_mask roi_bbox
                                 (acc ++ [mkDetection coords c (Some cid)])
                end
            end
        end
      else collect_from (S i) rest confidences class_ids roi_mask roi_bbox acc
  end.

(** The list stored under a class key.  [mapped] is the array
    [b.astype(int)] of [boxes_from_result_in_frame], one box per raw
    detection in the order of [confidences]; the float arithmetic that
    produces it is not modelled. *)
Definition detections_in_roi (mapped : list Box) (frame_shape : Z * Z)
           (confidences : list Q) (class_ids : option (list Z))
           (roi_mask : option Mask) (roi_bbox : option (Z * Z * Z * Z))
  : option (list Detection) :=
  collect_from 0 (_filter_valid_bboxes mapped frame_shape) confidences class_ids
               roi_mask roi_bbox [].

(** A frame of 100 by 100 pixels, a degenerate box and a valid one. *)
Definition small_frame_shape : Z * Z := (100, 100).
Definition flat_box : Box := (5, 5, 5, 5).
Definition good_box : Box := (10, 10, 40, 40).

(** ** ROI box: [largest_bbox_from_mask] (infer.py 1094-1107) *)

(** [rect] is [cv2.boundingRect] of the largest contour of the mask, [None]
    when [cv2.findContours] finds no contour; boxes are [(x, y, w, h)] and
    [frame_shape[:2]] is [(h, w)]. *)
Definition largest_bbox_from_mask (rect : option (Z * Z * Z * Z)) (margin : Z)
           (frame_shape : Z * Z) : option (Z * Z * Z * Z) :=
  let '(h, w) := frame_shape in
  match rect with
  | None => None
  | Some (x, y, bw, bh) =>
      let x := Z.max 0 (x - margin) in
      let y := Z.max 0 (y - margin) in
      let bw := Z.min (w - x) (bw + 2 * margin) in
      let bh := Z.min (h - y) (bh + 2 * margin) in
      Some (x, y, bw, bh)
  end.

(** ** Result validators: [_validate_detection_quality] (infer.py 794-813)
    and [_validate_fifa_detection] (infer.py 815-871) *)

(** A box of a raw result: [boxes.conf] and [boxes.xyxy], floats held as
    exact rationals. *)
Record RawBox : Type := mkRawBox {
  raw_conf : Q;
  raw_x1 : Q;
  raw_y1 : Q;
  raw_x2 : Q;
  raw_y2 : Q
}.

(** [np.max] of a non-empty array, from its first entry. *)
Definition np_max (first : Q) (rest : list Q) : Q := fold_left float_max rest first.

(** [a < b] and [a >= b] on floats. *)
Definition float_lt (a b : Q) : bool := Py.gt b a.
Definition float_ge (a b : Q) : bool := negb (Py.gt b a).

(** A missing result is [None]; an empty one has no boxes. *)
Definition _validate_detection_quality (result : option (list RawBox)) (min_confidence : Q)
  : bool :=
  match result with
  | None => false
  | Some [] => false
  | Some (b :: rest) =>
      float_ge (np_max (raw_conf b) (map raw_conf rest)) min_confidence
  end.

(** The body of the loop at line 849: whether the box counts as valid.
    The division is reached only with [height >= 25]; a zero divisor, which
    numpy answers with [inf] or [nan] and a warning, is held as a failure
    here so that its absence can be stated. *)
Definition fifa_box_valid (box : RawBox) : Py.result bool :=
  let width := (raw_x2 box - raw_x1 box)%Q in
  let height := (raw_y2 box - raw_y1 box)%Q in
  if float_lt width 25 || float_lt height 25 then Py.Ok false
  else if Py.gt width 150 || Py.gt height 150 then Py.Ok false
  else if Qeq_bool height 0 then Py.Raise Py.ZeroDivisionError
  else
    let aspect_ratio := (width / height)%Q in
    if float_lt aspect_ratio (3 # 10) || Py.gt aspect_ratio 3 then Py.Ok false
    else Py.Ok true.

Fixpoint count_valid_boxes (boxes : list RawBox) (valid_boxes : Z) : Py.result Z :=
  match boxes with
  | [] => Py.Ok valid_boxes
  | box :: rest =>
      ok <- fifa_box_valid box ;;
      count_valid_boxes rest (if ok then valid_boxes + 1 else valid_boxes)
  end.

Definition _validate_fifa_detection (result : option (list RawBox)) (min_confidence : Q)
  : Py.result bool :=
  match result with
  | None => Py.Ok false
  | Some [] => Py.Ok false
  | Some (b :: rest) =>
      let max_conf := np_max (raw_conf b) (map raw_conf rest) in
      if float_lt max_conf min_confidence then Py.Ok false
      else
        valid_boxes <- count_valid_boxes (b :: rest) 0 ;;
        if valid_boxes =? 0 then Py.Ok false else Py.Ok true
  end.

(** The shape the FIFA validator asks of a box: sides between 25 and 150
    and width between 0.3 and 3 times the height. *)
Definition fifa_shape (box : RawBox) : Prop :=
  let width := (raw_x2 box - raw_x1 box)%Q in
  let height := (raw_y2 box - raw_y1 box)%Q in
  (25 <= width <= 150 /\ 25 <= height <= 150
   /\ (3 # 10) * height <= width /\ width <= 3 * height)%Q.

(** A confident small box and a well-shaped box of low confidence. *)
Definition tiny_confident_box : RawBox := mkRawBox (9 # 10) 0 0 5 5.
Definition shaped_faint_box : RawBox := mkRawBox (1 # 10) 0 0 50 50.

(** ** Approval rate: [process_frame] lines 1603-1608 *)

(** [stats["approval_rate"]] as computed from the state after a frame. *)
Definition approval_rate (st : State) : Py.result Q :=
  let total_evaluated := total_evaluated (transfer_stats st) in
  if total_evaluated >? 0 then
    q <- Py.truediv (total_approved (transfer_stats st)) total_evaluated ;;
    Py.Ok (q * 100)%Q
  else Py.Ok 0%Q.

(** What holds of the running totals in every state the detector reaches. *)
Definition totals_invariant (st : State) : Prop :=
  total_evaluated (transfer_stats st) = transfer_count st
  /\ 0 <= total_approved (transfer_stats st)
  /\ 0 <= total_rejected (transfer_stats st)
  /\ total_approved (transfer_stats st) + total_rejected (transfer_stats st)
     = total_evaluated (transfer_stats st).

(** * Properties *)

(** Name the coordinates of two boxes as the source does. *)
Ltac destruct_boxes b1 b2 :=
  let x1_1 := fresh "x1_1" in let y1_1 := fresh "y1_1" in
  let x2_1 := fresh "x2_1" in let y2_1 := fresh "y2_1" in
  let x1_2 := fresh "x1_2" in let y1_2 := fresh "y1_2" in
  let x2_2 := fresh "x2_2" in let y2_2 := fresh "y2_2" in
  destruct b1 as [[[x1_1 y1_1] x2_1] y2_1];
  destruct b2 as [[[x1_2 y1_2] x2_2] y2_2].

(** Turn the boolean coordinate tests of the geometry functions into
    integer inequalities. *)
Ltac coordinate_tests :=
  rewrite ?orb_true_iff, ?orb_false_iff, ?Z.leb_le, ?Z.geb_le, ?Z.leb_gt, ?Z.ltb_lt,
    ?Z.ltb_ge in *.

(** ** Arithmetic of the Python prelude *)

Lemma truediv_pos (a b : Z) :
  0 < b -> Py.truediv a b = Py.Ok (inject_Z a / inject_Z b)%Q.
Proof.
  intros Hb. unfold Py.truediv.
  destruct (Z.eqb_spec b 0); [lia | reflexivity].
Qed.

Lemma inject_Z_pos (b : Z) : 0 < b -> (0 < inject_Z b)%Q.
Proof. intros Hb. unfold Qlt, inject_Z; simpl. lia. Qed.

Lemma Qdiv_Z_unit_interval (a b : Z) :
  0 <= a <= b -> 0 < b -> (0 <= inject_Z a / inject_Z b <= 1)%Q.
Proof.
  intros [Ha Hab] Hb. pose proof (inject_Z_pos b Hb) as Hq. split.
  - apply Qle_shift_div_l; [exact Hq|].
    rewrite Qmult_0_l. unfold Qle, inject_Z; simpl. lia.
  - apply Qle_shift_div_r; [exact Hq|].
    rewrite Qmult_1_l. unfold Qle, inject_Z; simpl. lia.
Qed.


Lemma gt_false_iff (a b : Q) : Py.gt a b = false <-> (a <= b)%Q.
Proof.
  unfold Py.gt. rewrite negb_false_iff. apply Qle_bool_iff.
Qed.

Lemma gt_true_iff (a b : Q) : Py.gt a b = true <-> (b < a)%Q.
Proof.
  unfold Py.gt. rewrite negb_true_iff. split.
  - intros H. apply Qnot_le_lt. intros Hle.
    apply Qle_bool_iff in Hle. congruence.
  - intros H. destruct (Qle_bool a b) eqn:E; [|reflexivity].
    apply Qle_bool_iff in E. exfalso. exact (Qlt_not_le _ _ H E).
Qed.

(** ** Geometry *)


(** [_calculate_iou] never raises: [iou] is the value it returns. *)
Lemma calculate_iou_returns (b1 b2 : Box) : _calculate_iou b1 b2 = Py.Ok (iou b1 b2).
Proof.
  unfold iou.
  destruct_boxes b1 b2.
  unfold _calculate_iou.
  destruct (_ || _); [reflexivity|].
  match goal with |- context [0 <? ?u] => destruct (Z.ltb_spec 0 u) as [Hu|Hu] end;
    [rewrite (truediv_pos _ _ Hu)|]; reflexivity.
Qed.

(** Boxes that are completely outside each other have IOU exactly [0]: the
    function leaves through its first [return 0.0]. *)
Lemma outside_iou_zero (b1 b2 : Box) :
  _is_box_completely_outside b1 b2 = true -> iou b1 b2 = 0%Q.
Proof.
  unfold iou.
  destruct_boxes b1 b2.
  unfold _is_box_completely_outside, _calculate_iou. intros H.
  match goal with |- context [if ?g then _ else _] =>
    assert (Hg : g = true); [|rewrite Hg; reflexivity] end.
  coordinate_tests. lia.
Qed.

(** A positive IOU means the boxes are not completely outside each other. *)
Lemma iou_pos_not_outside (b1 b2 : Box) :
  (0 < iou b1 b2)%Q -> _is_box_completely_outside b1 b2 = false.
Proof.
  intros H. destruct (_is_box_completely_outside b1 b2) eqn:E; [|reflexivity].
  rewrite (outside_iou_zero _ _ E) in H. exfalso. exact (Qlt_irrefl 0 H).
Qed.


(** ** Dictionaries and sorting *)

Lemma sort_insert_In (x y : Candidate) (l : list Candidate) :
  In x (sort_insert y l) <-> x = y \/ In x l.
Proof.
  induction l as [|z l IH]; simpl.
  - intuition.
  - destruct (key_lt z y); simpl; rewrite ?IH; intuition.
Qed.

Lemma sort_candidates_In (x : Candidate) (l : list Candidate) :
  In x (sort_candidates l) <-> In x l.
Proof.
  induction l as [|y l IH]; simpl; [reflexivity|].
  rewrite sort_insert_In, IH. intuition.
Qed.

Lemma strip_annotate (cp : list string) (e : bool) (k : string) (det : Detection) :
  strip (annotate cp e k det) = det.
Proof. destruct det; reflexivity. Qed.

Lemma dict_append_grouped (keys : list string) (kept : list Candidate) (c : Candidate) :
  dict_append (cand_class c) (strip c) (grouped keys kept) = grouped keys (kept ++ [c]).
Proof.
  unfold dict_append, grouped. rewrite map_map. apply map_ext. intros k.
  rewrite filter_app, map_app. simpl.
  destruct (String.eqb k (cand_class c)); simpl; [reflexivity|].
  now rewrite app_nil_r.
Qed.

Lemma dict_empty_like_grouped (d : DetectionsByClass) :
  dict_empty_like d = grouped (dict_keys d) [].
Proof. reflexivity. Qed.

Lemma rebuild_fold_grouped (keys : list string) (kept acc : list Candidate) :
  fold_left (fun result detection =>
               dict_append (cand_class detection) (strip detection) result)
            kept (grouped keys acc)
  = grouped keys (acc ++ kept).
Proof.
  revert acc. induction kept as [|c kept IH]; intros acc; simpl.
  - now rewrite app_nil_r.
  - rewrite dict_append_grouped, IH, <- app_assoc. reflexivity.
Qed.

Lemma rebuild_grouped (d : DetectionsByClass) (kept : list Candidate) :
  rebuild d kept = grouped (dict_keys d) kept.
Proof.
  unfold rebuild. rewrite dict_empty_like_grouped. apply rebuild_fold_grouped.
Qed.

Lemma dict_get_grouped (k : string) (keys : list string) (kept : list Candidate) :
  In k keys ->
  dict_get k (grouped keys kept)
  = Some (map strip (filter (fun c => String.eqb k (cand_class c)) kept)).
Proof.
  induction keys as [|k' keys IH]; simpl; [tauto|].
  intros Hin. destruct (String.eqb_spec k' k) as [->|Hne]; [reflexivity|].
  destruct Hin as [->|Hin]; [congruence | auto].
Qed.

Lemma dict_get_In_key {V : Type} (k : string) (d : list (string * V)) (v : V) :
  dict_get k d = Some v -> In k (dict_keys d).
Proof.
  induction d as [|[k' v'] d IH]; simpl; [discriminate|].
  destruct (String.eqb_spec k' k); [auto | intros H; right; auto].
Qed.

(** What [retained] reads from a grouped dictionary. *)
Lemma retained_grouped (k : string) (keys : list string) (kept : list Candidate)
      (x : Detection) :
  In x (retained k (grouped keys kept)) <->
  In k keys /\ exists c, In c kept /\ cand_class c = k /\ strip c = x.
Proof.
  unfold retained. split.
  - destruct (dict_get k (grouped keys kept)) as [l|] eqn:E; [|simpl; tauto].
    intros Hx. pose proof (dict_get_In_key _ _ _ E) as Hk.
    assert (Hk' : In k keys).
    { unfold dict_keys, grouped in Hk. rewrite map_map in Hk. simpl in Hk.
      now rewrite map_id in Hk. }
    split; [exact Hk'|].
    rewrite (dict_get_grouped _ _ _ Hk') in E. injection E as <-.
    apply in_map_iff in Hx. destruct Hx as (c & Hs & Hc).
    apply filter_In in Hc. destruct Hc as [Hc Hcls].
    apply String.eqb_eq in Hcls. exists c. auto.
  - intros (Hk & c & Hc & Hcls & Hs).
    rewrite (dict_get_grouped _ _ _ Hk). subst x.
    apply in_map. apply filter_In. split; [exact Hc|].
    apply String.eqb_eq. auto.
Qed.

(** ** The exclusive pass *)

Lemma overlaps_accepted_conflicts (c : Candidate) (acc : list Candidate) :
  overlaps_accepted c acc = existsb (conflicts c) acc.
Proof. reflexivity. Qed.

(** Candidates of the exclusive pass are the annotated detections of the
    three exclusive classes. *)
Lemma collect_exclusive_In (cp : list string) (d : DetectionsByClass) (c : Candidate) :
  In c (collect_exclusive cp d) <->
  exists k det, In k exclusive_classes /\ In det (retained k d)
                /\ c = annotate cp true k det.
Proof.
  unfold collect_exclusive. rewrite in_flat_map. split.
  - intros (k & Hk & Hc).
    destruct (dict_get k d) as [dets|] eqn:E; [|contradiction].
    apply in_map_iff in Hc. destruct Hc as (det & <- & Hdet).
    exists k, det. unfold retained. rewrite E. auto.
  - intros (k & det & Hk & Hdet & ->). exists k. split; [exact Hk|].
    unfold retained in Hdet.
    destruct (dict_get k d) as [dets|]; [|contradiction].
    now apply in_map.
Qed.

(** Whatever the loop keeps was either kept before or is a candidate of the
    list that passed the smudge rule. *)
Lemma exclusive_fold_sound (flat : list Box) (l acc : list Candidate) (c : Candidate) :
  In c (fold_left (exclusive_step flat) l acc) ->
  In c acc \/ (In c l /\ smudge_blocked flat c = false).
Proof.
  revert acc. induction l as [|y l IH]; intros acc; simpl; [auto|].
  intros H. apply IH in H. destruct H as [H|[H Hb]]; [|now auto].
  unfold exclusive_step in H.
  destruct (smudge_blocked flat y) eqn:Eb; [now auto|].
  destruct (overlaps_accepted y acc); [now auto|].
  apply in_app_or in H. destruct H as [H|[<-|[]]]; auto.
Qed.

Lemma exclusive_step_mono (flat : list Box) (acc : list Candidate) (y c : Candidate) :
  In c acc -> In c (exclusive_step flat acc y).
Proof.
  intros H. unfold exclusive_step.
  destruct (smudge_blocked flat y); [exact H|].
  destruct (overlaps_accepted y acc); [exact H|].
  apply in_or_app. now left.
Qed.

Lemma exclusive_step_incl (flat : list Box) (acc : list Candidate) (y c : Candidate) :
  In c (exclusive_step flat acc y) -> In c acc \/ c = y.
Proof.
  unfold exclusive_step.
  destruct (smudge_blocked flat y); [auto|].
  destruct (overlaps_accepted y acc); [auto|].
  intros H. apply in_app_or in H. destruct H as [H|[<-|[]]]; auto.
Qed.

(** A candidate that passes the smudge rule and conflicts with no candidate
    other than itself is kept by the loop. *)
Lemma exclusive_fold_keeps (flat : list Box) (c : Candidate) (l acc : list Candidate) :
  smudge_blocked flat c = false ->
  (forall x, In x acc -> x = c \/ conflicts c x = false) ->
  (forall x, In x l -> x = c \/ conflicts c x = false) ->
  In c l \/ In c acc ->
  In c (fold_left (exclusive_step flat) l acc).
Proof.
  intros Hb. revert acc. induction l as [|y l IH]; intros acc Hacc Hl Hin; simpl.
  - destruct Hin as [[]|Hin]. exact Hin.
  - assert (Hacc' : forall x, In x (exclusive_step flat acc y) -> x = c \/ conflicts c x = false).
    { intros x Hx. apply exclusive_step_incl in Hx. destruct Hx as [Hx| ->].
      - now apply Hacc.
      - apply Hl. now left. }
    apply IH; [exact Hacc' | intros x Hx; apply Hl; now right |].
    destruct Hin as [[->|Hin]|Hin].
    + right. unfold exclusive_step. rewrite Hb.
      destruct (overlaps_accepted c acc) eqn:Eo.
      * rewrite overlaps_accepted_conflicts in Eo. apply existsb_exists in Eo.
        destruct Eo as (x & Hx & Hcx).
        destruct (Hacc x Hx) as [->|Hn]; [exact Hx | congruence].
      * apply in_or_app. right. now left.
    + now left.
    + right. now apply exclusive_step_mono.
Qed.

(** The flat list of the exclusive pass holds the box of every symbols and
    black-dot detection of the input. *)
Lemma other_exclusive_flat_In (cp : list string) (d : DetectionsByClass)
      (k : string) (o : Detection) :
  In k ["simbolos"; "blackdot"]%string -> In o (retained k d) ->
  In (bbox o) (other_exclusive_flat (sort_candidates (collect_exclusive cp d))).
Proof.
  intros Hk Ho. unfold other_exclusive_flat.
  apply in_map_iff. exists (annotate cp true k o). split; [reflexivity|].
  apply filter_In. split.
  - apply sort_candidates_In. apply collect_exclusive_In.
    exists k, o. split; [|auto].
    simpl in Hk. simpl. destruct Hk as [<-|[<-|[]]]; auto.
  - simpl in Hk. destruct Hk as [<-|[<-|[]]]; reflexivity.
Qed.

Lemma other_exclusive_flat_inv (cp : list string) (d : DetectionsByClass) (b : Box) :
  In b (other_exclusive_flat (sort_candidates (collect_exclusive cp d))) ->
  exists k o, In k ["simbolos"; "blackdot"]%string /\ In o (retained k d) /\ bbox o = b.
Proof.
  unfold other_exclusive_flat. intros H.
  apply in_map_iff in H. destruct H as (c & <- & Hc).
  apply filter_In in Hc. destruct Hc as [Hc Hs].
  apply sort_candidates_In, collect_exclusive_In in Hc.
  destruct Hc as (k & o & Hk & Ho & ->).
  exists k, o. simpl in Hk. destruct Hk as [<-|[<-|[<-|[]]]]; simpl in Hs;
    try discriminate; simpl; auto.
Qed.

Lemma smudge_blocked_false (flat : list Box) (c : Candidate) :
  is_fifa_smudge c = true ->
  smudge_blocked flat c = false ->
  forall b, In b flat -> _is_box_completely_outside (cand_bbox c) b = true.
Proof.
  unfold smudge_blocked. intros -> H b Hb. simpl in H.
  destruct (_is_box_completely_outside (cand_bbox c) b) eqn:E; [reflexivity|].
  assert (existsb (fun other_bbox =>
            negb (_is_box_completely_outside (cand_bbox c) other_bbox)) flat = true).
  { apply existsb_exists. exists b. rewrite E. auto. }
  congruence.
Qed.

Lemma smudge_blocked_intro (flat : list Box) (c : Candidate) :
  (forall b, In b flat -> _is_box_completely_outside (cand_bbox c) b = true) ->
  smudge_blocked flat c = false.
Proof.
  intros H. unfold smudge_blocked.
  destruct (existsb _ flat) eqn:E; [|apply andb_false_r].
  apply existsb_exists in E. destruct E as (b & Hb & Hn).
  rewrite (H b Hb) in Hn. discriminate.
Qed.

(** The smudge detections of the exclusive pass's result are the kept
    candidates of class smudge. *)
Lemma exclusive_retained (cp : list string) (d : DetectionsByClass) (k : string)
      (x : Detection) :
  In x (retained k (_apply_exclusive_filtering cp d)) <->
  In k (dict_keys d)
  /\ exists c, In c (filter_exclusive cp d) /\ cand_class c = k /\ strip c = x.
Proof.
  unfold _apply_exclusive_filtering. rewrite rebuild_grouped. apply retained_grouped.
Qed.

(** The strict rule on the exclusive pass: a retained smudge detection is
    completely outside every symbols and black-dot box of the input. *)
Lemma exclusive_smudge_outside (cp : list string) (d : DetectionsByClass)
      (x o : Detection) (k : string) :
  In x (retained "smudge" (_apply_exclusive_filtering cp d)) ->
  In k ["simbolos"; "blackdot"]%string -> In o (retained k d) ->
  _is_box_completely_outside (bbox x) (bbox o) = true.
Proof.
  intros Hx Hk Ho. apply exclusive_retained in Hx.
  destruct Hx as (_ & c & Hc & Hcls & <-).
  unfold filter_exclusive in Hc. apply exclusive_fold_sound in Hc.
  destruct Hc as [[]|[Hc Hb]].
  assert (Hs : is_fifa_smudge c = true).
  { apply sort_candidates_In, collect_exclusive_In in Hc.
    destruct Hc as (k' & det & _ & _ & ->). simpl in Hcls. subst k'. reflexivity. }
  change (bbox (strip c)) with (cand_bbox c).
  eapply smudge_blocked_false; eauto.
  eapply other_exclusive_flat_In; eauto.
Qed.

(** The exclusive pass only ever returns detections of its input. *)
Lemma exclusive_subset (cp : list string) (d : DetectionsByClass) (k : string)
      (x : Detection) :
  In x (retained k (_apply_exclusive_filtering cp d)) -> In x (retained k d).
Proof.
  intros Hx. apply exclusive_retained in Hx.
  destruct Hx as (_ & c & Hc & Hcls & <-).
  unfold filter_exclusive in Hc. apply exclusive_fold_sound in Hc.
  destruct Hc as [[]|[Hc _]].
  apply sort_candidates_In, collect_exclusive_In in Hc.
  destruct Hc as (k' & det & _ & Hdet & ->). simpl in Hcls. subst k'.
  now rewrite strip_annotate.
Qed.


Lemma touching_or_apart_outside (b1 b2 : Box) :
  proper b1 -> proper b2 -> touching b1 b2 \/ no_common_point b1 b2 ->
  _is_box_completely_outside b1 b2 = true.
Proof.
  destruct_boxes b1 b2.
  unfold proper, touching, no_common_point, inter_box, _is_box_completely_outside.
  intros [Hx1 Hy1] [Hx2 Hy2] Ht.
  coordinate_tests. lia.
Qed.

Lemma touching_edge_adjacent (b1 b2 : Box) :
  proper b1 -> proper b2 -> touching b1 b2 -> edge_adjacent b1 b2.
Proof.
  destruct_boxes b1 b2.
  unfold proper, touching, edge_adjacent, inter_box. lia.
Qed.

Lemma edge_adjacent_outside (b1 b2 : Box) :
  edge_adjacent b1 b2 -> _is_box_completely_outside b1 b2 = true.
Proof.
  destruct_boxes b1 b2.
  unfold edge_adjacent, _is_box_completely_outside.
  coordinate_tests. lia.
Qed.



(** C9.  Two boxes of positive size that merely touch (their intersection
    is an edge segment or a corner point) have a side on the line of the
    other's opposite side, and any two boxes in that position, as with
    [box1.x2 == box2.x1], count as completely outside each other; hence a
    smudge detection whose box touches or is apart from the
    boxes of the other classes, and which overlaps no other smudge detection
    beyond the IOU threshold, is retained by the exclusive pass. *)
Theorem touching_boxes_outside_and_smudge_retained :
  (forall b1 b2 : Box,
      proper b1 -> proper b2 -> touching b1 b2 ->
      edge_adjacent b1 b2 /\ _is_box_completely_outside b1 b2 = true)
  /\ (forall b1 b2 : Box,
         edge_adjacent b1 b2 -> _is_box_completely_outside b1 b2 = true)
  /\ (forall (cp : list string) (d : DetectionsByClass) (a : Detection),
         In a (retained "smudge" d) ->
         proper (bbox a) ->
         (forall k o, In k ["simbolos"; "blackdot"]%string -> In o (retained k d) ->
                      proper (bbox o)
                      /\ (touching (bbox a) (bbox o) \/ no_common_point (bbox a) (bbox o))) ->
         (forall s, In s (retained "smudge" d) ->
                    s = a \/ (iou (bbox a) (bbox s) <= 1 # 50)%Q) ->
         In a (retained "smudge" (_apply_exclusive_filtering cp d))).
Proof.
  split; [|split].
  - intros b1 b2 H1 H2 Ht.
    split; [now apply touching_edge_adjacent | apply touching_or_apart_outside; auto].
  - exact edge_adjacent_outside.
  - intros cp d a Ha Hpa Hothers Hsmudge.
    assert (Hout : forall k o, In k ["simbolos"; "blackdot"]%string ->
                               In o (retained k d) ->
                               _is_box_completely_outside (bbox a) (bbox o) = true).
    { intros k o Hk Ho. destruct (Hothers k o Hk Ho) as [Hpo Hto].
      apply touching_or_apart_outside; assumption. }
    apply exclusive_retained. split.
    { unfold retained in Ha. destruct (dict_get "smudge" d) eqn:E; [|contradiction].
      eapply dict_get_In_key; eauto. }
    exists (annotate cp true "smudge" a).
    split; [|split; [reflexivity | apply strip_annotate]].
    unfold filter_exclusive. apply exclusive_fold_keeps.
    + apply smudge_blocked_intro. intros b Hb.
      apply other_exclusive_flat_inv in Hb. destruct Hb as (k & o & Hk & Ho & <-).
      exact (Hout k o Hk Ho).
    + intros x [].
    + intros x Hx. apply sort_candidates_In, collect_exclusive_In in Hx.
      destruct Hx as (k & det & Hk & Hdet & ->).
      simpl in Hk. destruct Hk as [<-|[<-|[<-|[]]]].
      * destruct (Hsmudge det Hdet) as [->|Hle]; [now left|]. right.
        unfold conflicts, fifa_fifa_intersection. simpl.
        apply gt_false_iff. exact Hle.
      * right. unfold conflicts.
        destruct (fifa_fifa_intersection _ _); [reflexivity|]. simpl.
        rewrite (outside_iou_zero _ _ (Hout "simbolos"%string det
                                            (or_introl eq_refl) Hdet)).
        reflexivity.
      * right. unfold conflicts.
        destruct (fifa_fifa_intersection _ _); [reflexivity|]. simpl.
        rewrite (outside_iou_zero _ _ (Hout "blackdot"%string det
                                            (or_intror (or_introl eq_refl)) Hdet)).
        reflexivity.
    + left. apply sort_candidates_In, collect_exclusive_In.
      exists "smudge"%string, a. simpl. auto.
Qed.

Lemma touching_boxes_outside_and_smudge_retained_witness :
  (edge_adjacent (0, 0, 10, 10) (10, 0, 20, 10)
   /\ _is_box_completely_outside (0, 0, 10, 10) (10, 0, 20, 10) = true)
  /\ In (mkDetection (0, 0, 10, 10) (9 # 10) None)
        (retained "smudge"
           (_apply_exclusive_filtering default_class_priority
              [("smudge"%string, [mkDetection (0, 0, 10, 10) (9 # 10) None]);
               ("blackdot"%string, [mkDetection (10, 0, 20, 10) (6 # 10) None])])).
Proof.
  split.
  - apply (proj1 touching_boxes_outside_and_smudge_retained);
      unfold proper, touching; simpl; lia.
  - apply (proj2 (proj2 touching_boxes_outside_and_smudge_retained)).
    + simpl. left. reflexivity.
    + unfold proper. simpl. lia.
    + intros k o Hk Ho. simpl in Hk. destruct Hk as [<-|[<-|[]]].
      * vm_compute in Ho. contradiction.
      * vm_compute in Ho. destruct Ho as [<-|[]].
        unfold proper, touching. simpl. lia.
    + intros s Hs. vm_compute in Hs. destruct Hs as [<-|[]]. left. reflexivity.
Defined.


(** ** The general pass *)

Lemma dict_keys_grouped (keys : list string) (kept : list Candidate) :
  dict_keys (grouped keys kept) = keys.
Proof.
  unfold dict_keys, grouped. rewrite map_map. simpl. apply map_id.
Qed.

(** In a grouped dictionary every item is the one [dict_get] finds. *)
Lemma grouped_items (keys : list string) (kept : list Candidate)
      (k : string) (dets : list Detection) :
  In (k, dets) (grouped keys kept) -> dict_get k (grouped keys kept) = Some dets.
Proof.
  intros H. unfold grouped in H. apply in_map_iff in H.
  destruct H as (k' & [= -> <-] & Hk). now apply dict_get_grouped.
Qed.

Lemma collect_all_In (cp : list string) (d : DetectionsByClass) (c : Candidate) :
  In c (collect_all cp d) ->
  exists k dets det, In (k, dets) d /\ In det dets
                     /\ c = annotate cp (str_in k exclusive_classes) k det.
Proof.
  unfold collect_all. rewrite in_flat_map. intros ([k dets] & Hkd & Hc).
  apply in_map_iff in Hc. destruct Hc as (det & <- & Hdet).
  exists k, dets, det. auto.
Qed.

(** The accumulator of the general pass stays a grouped dictionary, and its
    kept candidates come from the scanned list and passed the smudge rule. *)
Lemma general_fold_grouped (thr : Q) (flat : list Box) (keys : list string)
      (l acc : list Candidate) :
  exists kept,
    fold_left (general_step thr flat) l (grouped keys acc) = grouped keys kept
    /\ forall c, In c kept -> In c acc \/ (In c l /\ smudge_blocked flat c = false).
Proof.
  revert acc. induction l as [|y l IH]; intros acc; simpl.
  - exists acc. auto.
  - unfold general_step at 2.
    destruct (smudge_blocked flat y) eqn:Eb.
    { destruct (IH acc) as (kept & Hk & Hin). exists kept. split; [exact Hk|].
      intros c Hc. destruct (Hin c Hc) as [?|[? ?]]; auto. }
    destruct (overlaps_filtered thr y (grouped keys acc)).
    { destruct (IH acc) as (kept & Hk & Hin). exists kept. split; [exact Hk|].
      intros c Hc. destruct (Hin c Hc) as [?|[? ?]]; auto. }
    rewrite dict_append_grouped.
    destruct (IH (acc ++ [y])) as (kept & Hk & Hin). exists kept. split; [exact Hk|].
    intros c Hc. destruct (Hin c Hc) as [H|[? ?]]; [|now auto].
    apply in_app_or in H. destruct H as [H|[<-|[]]]; auto.
Qed.

(** The general pass only ever returns detections of its input, provided
    the input's items are the ones [dict_get] finds (true of any dict). *)
Lemma general_subset (cp : list string) (thr : Q) (d : DetectionsByClass)
      (k : string) (x : Detection) :
  (forall k' dets, In (k', dets) d -> dict_get k' d = Some dets) ->
  In x (retained k (_filter_overlapping_detections cp thr d)) -> In x (retained k d).
Proof.
  intros Hfun Hx. unfold _filter_overlapping_detections in Hx.
  rewrite dict_empty_like_grouped in Hx.
  destruct (general_fold_grouped thr (other_detections_flat d) (dict_keys d)
              (sort_candidates (collect_all cp d)) []) as (kept & Hk & Hin).
  rewrite Hk in Hx. apply retained_grouped in Hx.
  destruct Hx as (_ & c & Hc & Hcls & <-).
  destruct (Hin c Hc) as [[]|[Hc' _]].
  apply sort_candidates_In, collect_all_In in Hc'.
  destruct Hc' as (k' & dets & det & Hkd & Hdet & ->).
  simpl in Hcls. subst k'. rewrite strip_annotate.
  unfold retained. now rewrite (Hfun _ _ Hkd).
Qed.

(** The resolver only ever returns detections the exclusive pass kept. *)
Lemma resolve_subset_exclusive (cp : list string) (thr : Q) (d : DetectionsByClass)
      (k : string) (x : Detection) :
  In x (retained k (resolve cp thr d)) ->
  In x (retained k (_apply_exclusive_filtering cp d)).
Proof.
  unfold resolve. apply general_subset.
  unfold _apply_exclusive_filtering. rewrite rebuild_grouped.
  apply grouped_items.
Qed.

(** A smudge detection whose box has positive IOU with a symbols or
    black-dot box of the input does not leave the exclusive pass. *)
Lemma overlapping_smudge_dropped (cp : list string) (d : DetectionsByClass)
      (a o : Detection) (k : string) :
  In k ["simbolos"; "blackdot"]%string -> In o (retained k d) ->
  (0 < iou (bbox a) (bbox o))%Q ->
  ~ In a (retained "smudge" (_apply_exclusive_filtering cp d)).
Proof.
  intros Hk Ho Hpos Hkept.
  pose proof (exclusive_smudge_outside cp d a o k Hkept Hk Ho) as Hout.
  rewrite (iou_pos_not_outside _ _ Hpos) in Hout. discriminate.
Qed.

(** On an input with exactly one smudge detection and one FIFA-equivalent
    symbols detection whose boxes overlap, the resolver keeps the symbols
    detection alone. *)
Lemma resolve_overlapping_pair (cp : list string) (thr : Q) (a b : Detection) :
  class_id_in_0_1 (class_id b) = true ->
  _is_box_completely_outside (bbox a) (bbox b) = false ->
  resolve cp thr [("smudge"%string, [a]); ("simbolos"%string, [b])]
  = [("smudge"%string, []); ("simbolos"%string, [b])].
Proof.
  destruct a as [ba ca ia], b as [bb cb ib]. cbn [bbox class_id]. intros Hid Hout.
  assert (Hex : _apply_exclusive_filtering cp
                  [("smudge"%string, [mkDetection ba ca ia]);
                   ("simbolos"%string, [mkDetection bb cb ib])]
                = [("smudge"%string, []);
                   ("simbolos"%string, [mkDetection bb cb ib])]).
  { unfold _apply_exclusive_filtering, filter_exclusive, collect_exclusive.
    cbn -[key_lt annotate].
    destruct (key_lt _ _);
      unfold exclusive_step, smudge_blocked, annotate;
      cbn -[class_id_in_0_1 _is_box_completely_outside base_priority];
      rewrite Hid;
      cbn -[class_id_in_0_1 _is_box_completely_outside base_priority];
      rewrite Hout; reflexivity. }
  unfold resolve. rewrite Hex.
  unfold _filter_overlapping_detections, collect_all, general_step, smudge_blocked, annotate.
  cbn -[class_id_in_0_1 _is_box_completely_outside base_priority].
  rewrite Hid. reflexivity.
Qed.

(** C2, as the code has it.  For every input with a symbols detection of
    sub-class id 1 (FIFA_OK) and a smudge detection whose boxes have IOU
    0.5, the smudge detection is dropped by the exclusive pass and by the
    resolver: the strict disjointness rule is applied first and the
    coexistence exception does not override it.  When the two are the only
    detections, the resolver returns the symbols detection alone. *)
Theorem strict_rule_precedes_coexistence
        (cp : list string) (thr : Q) (d : DetectionsByClass) (a b : Detection) :
  In a (retained "smudge" d) ->
  In b (retained "simbolos" d) ->
  class_id b = Some 1 ->
  (iou (bbox a) (bbox b) == 1 # 2)%Q ->
  ~ In a (retained "smudge" (_apply_exclusive_filtering cp d))
  /\ ~ In a (retained "smudge" (resolve cp thr d))
  /\ (d = [("smudge"%string, [a]); ("simbolos"%string, [b])] ->
      resolve cp thr d = [("smudge"%string, []); ("simbolos"%string, [b])]).
Proof.
  intros Ha Hb Hid Hiou.
  assert (Hpos : (0 < iou (bbox a) (bbox b))%Q) by (rewrite Hiou; reflexivity).
  assert (Hdrop : ~ In a (retained "smudge" (_apply_exclusive_filtering cp d))).
  { apply (overlapping_smudge_dropped cp d a b "simbolos"); simpl; auto. }
  split; [exact Hdrop|]. split.
  - intros H. apply Hdrop. eapply resolve_subset_exclusive; eauto.
  - intros ->. apply resolve_overlapping_pair.
    + rewrite Hid. reflexivity.
    + now apply iou_pos_not_outside.
Qed.

Lemma strict_rule_precedes_coexistence_witness :
  ~ In overlap_smudge
       (retained "smudge" (_apply_exclusive_filtering default_class_priority overlap_input))
  /\ ~ In overlap_smudge
          (retained "smudge"
             (resolve default_class_priority default_overlap_threshold overlap_input))
  /\ resolve default_class_priority default_overlap_threshold overlap_input
     = [("smudge"%string, []); ("simbolos"%string, [overlap_fifa_ok])].
Proof.
  destruct (strict_rule_precedes_coexistence
              default_class_priority default_overlap_threshold
              overlap_input overlap_smudge overlap_fifa_ok)
    as (H1 & H2 & H3).
  - simpl. left. reflexivity.
  - simpl. left. reflexivity.
  - reflexivity.
  - vm_compute. reflexivity.
  - split; [exact H1|]. split; [exact H2|]. apply H3. reflexivity.
Defined.

(** C2, as stated, fails: no input with a FIFA_OK symbols detection and a
    smudge detection at IOU 0.5 has both retained by the resolver. *)
Lemma fifa_ok_and_overlapping_smudge_never_both_retained :
  ~ exists (cp : list string) (thr : Q) (d : DetectionsByClass) (a b : Detection),
      In a (retained "smudge" d)
      /\ In b (retained "simbolos" d)
      /\ class_id b = Some 1
      /\ (iou (bbox a) (bbox b) == 1 # 2)%Q
      /\ In a (retained "smudge" (resolve cp thr d))
      /\ In b (retained "simbolos" (resolve cp thr d)).
Proof.
  intros (cp & thr & d & a & b & Ha & Hb & Hid & Hiou & Hka & Hkb).
  assert (Hpos : (0 < iou (bbox a) (bbox b))%Q) by (rewrite Hiou; reflexivity).
  apply (overlapping_smudge_dropped cp d a b "simbolos"); simpl; auto.
  eapply resolve_subset_exclusive; eauto.
Qed.

(** ** Closing a transfer *)

Lemma len_pos_cons {A : Type} (x : A) (l : list A) :
  exists p, Py.len (x :: l) = Z.pos p.
Proof.
  unfold Py.len. simpl List.length. rewrite Nat2Z.inj_succ.
  destruct (Z.of_nat (List.length l)) eqn:E; simpl.
  - now exists 1%positive.
  - now exists (p + 1)%positive.
  - pose proof (Nat2Z.is_nonneg (List.length l)). lia.
Qed.

(** The float test [avg > 0.20] of line 1699 decides [5 * sum > len]. *)
Lemma class_average_gt_fifth (l : list Z) :
  Py.gt (class_average l) (1 # 5) = true <-> exceeds_fifth l.
Proof.
  rewrite gt_true_iff. unfold class_average, exceeds_fifth, np_mean.
  destruct l as [|x l].
  - cbn. unfold Qlt. cbn. lia.
  - destruct (len_pos_cons x l) as (p & Hp). rewrite Hp. simpl (Z.pos p >? 0).
    cbv iota. generalize (Py.sum (x :: l)). intros s.
    unfold Qlt, Qdiv, Qmult, Qinv, inject_Z. cbn -[Z.mul]. lia.
Qed.

Lemma class_average_is_mean (l : list Z) : is_mean_of (class_average l) l.
Proof.
  unfold is_mean_of, class_average, np_mean. destruct l as [|x l].
  - split; [reflexivity | intros _; reflexivity].
  - split; [|discriminate].
    destruct (len_pos_cons x l) as (p & Hp). rewrite Hp. simpl (Z.pos p >? 0).
    cbv iota. generalize (Py.sum (x :: l)). intros s.
    unfold Qeq, Qdiv, Qmult, Qinv, inject_Z. cbn -[Z.mul]. lia.
Qed.

(** The record appended by a closure is the newest entry of the history. *)
Lemma push_record_last (h : list TransferRecord) (r : TransferRecord) :
  exists older, push_record h r = older ++ [r].
Proof.
  unfold push_record. destruct (Py.len (h ++ [r]) >? 100) eqn:E.
  - destruct h as [|r0 h]; simpl.
    + discriminate E.
    + exists h. reflexivity.
  - exists h. reflexivity.
Qed.

Lemma reject_flag_false (b : bool) (P : Prop) :
  (b = true <-> P) -> (b = false <-> ~ P).
Proof. destruct b; intuition congruence. Qed.

(** C1.  Closing a transfer appends a record whose averages are the means
    of the three per-frame count sequences, whose rejection flags mark
    exactly the classes with a mean above 0.20, and which is approved
    exactly when no mean is above 0.20 (rejected when some mean is). *)
Theorem approval_rule (st : State) :
  exists (r : TransferRecord) (older : list TransferRecord),
    transfer_history (transfer_stats (_finalize_transfer st)) = older ++ [r]
    /\ is_mean_of (smudge_avg r) (cts_smudge (current_transfer_stats st))
    /\ is_mean_of (simbolos_avg r) (cts_simbolos (current_transfer_stats st))
    /\ is_mean_of (blackdot_avg r) (cts_blackdot (current_transfer_stats st))
    /\ (smudge_reject r = true <-> exceeds_fifth (cts_smudge (current_transfer_stats st)))
    /\ (simbolos_reject r = true <-> exceeds_fifth (cts_simbolos (current_transfer_stats st)))
    /\ (blackdot_reject r = true <-> exceeds_fifth (cts_blackdot (current_transfer_stats st)))
    /\ (approved r = true <->
        ~ exceeds_fifth (cts_smudge (current_transfer_stats st))
        /\ ~ exceeds_fifth (cts_simbolos (current_transfer_stats st))
        /\ ~ exceeds_fifth (cts_blackdot (current_transfer_stats st)))
    /\ (approved r = false <->
        exceeds_fifth (cts_smudge (current_transfer_stats st))
        \/ exceeds_fifth (cts_simbolos (current_transfer_stats st))
        \/ exceeds_fifth (cts_blackdot (current_transfer_stats st))).
Proof.
  destruct (push_record_last (transfer_history (transfer_stats st))
                             (make_transfer_record st)) as (older & Hh).
  exists (make_transfer_record st), older.
  split; [exact Hh|].
  pose proof (class_average_gt_fifth (cts_smudge (current_transfer_stats st))) as Hs.
  pose proof (class_average_gt_fifth (cts_simbolos (current_transfer_stats st))) as Hb.
  pose proof (class_average_gt_fifth (cts_blackdot (current_transfer_stats st))) as Hk.
  pose proof (reject_flag_false _ _ Hs) as Hs'.
  pose proof (reject_flag_false _ _ Hb) as Hb'.
  pose proof (reject_flag_false _ _ Hk) as Hk'.
  repeat (split; [first [apply class_average_is_mean | assumption]|]).
  unfold make_transfer_record; cbn [approved].
  split.
  - rewrite negb_true_iff, !orb_false_iff. tauto.
  - rewrite negb_false_iff, !orb_true_iff. tauto.
Qed.

(** ** Running totals *)

Lemma run_invariant (P : State -> Prop) (cfg : Config) (frames : list Frame) (st : State) :
  P st ->
  (forall s f, P s -> P (fst (process_frame cfg s f))) ->
  P (run cfg st frames).
Proof.
  intros H0 Hstep. unfold run. revert st H0.
  induction frames as [|f frames IH]; intros st H0; simpl; [exact H0|].
  apply IH. now apply Hstep.
Qed.

(** A frame with the ROI present leaves the totals and the transfer counter
    untouched. *)
Lemma process_frame_present_totals (cfg : Config) (st : State) (roi : RoiFrame) :
  transfer_stats (fst (process_frame cfg st (Some roi))) = transfer_stats st
  /\ transfer_count (fst (process_frame cfg st (Some roi))) = transfer_count st.
Proof.
  unfold process_frame, roi_present.
  destruct (detect_class _ _ _ (smudge_result roi)) as [[? ?] ?].
  destruct (detect_class _ _ _ (simbolos_result roi)) as [[? ?] ?].
  destruct (detect_class _ _ _ (blackdot_result roi)) as [[? ?] ?].
  destruct (_ ++ _ ++ _); simpl; auto.
Qed.

(** A frame without ROI either leaves them untouched or closes the active
    transfer, once. *)
Lemma process_frame_absent_totals (cfg : Config) (st : State) :
  let st' := fst (process_frame cfg st None) in
  (transfer_stats st' = transfer_stats st /\ transfer_count st' = transfer_count st)
  \/ (exists s0, transfer_stats st' = transfer_stats (_finalize_transfer s0)
                 /\ transfer_stats s0 = transfer_stats st
                 /\ transfer_count st' = transfer_count st + 1).
Proof.
  unfold process_frame, roi_absent. cbv zeta.
  destruct (current_transfer_active (count_absent st) && _); simpl; [|now left].
  right. exists (count_absent st). simpl. auto.
Qed.

Lemma finalize_totals (st : State) :
  let ts := transfer_stats st in
  let ts' := transfer_stats (_finalize_transfer st) in
  total_evaluated ts' = total_evaluated ts + 1
  /\ ((total_approved ts' = total_approved ts + 1 /\ total_rejected ts' = total_rejected ts)
      \/ (total_approved ts' = total_approved ts /\ total_rejected ts' = total_rejected ts + 1)).
Proof.
  unfold _finalize_transfer.
  cbn [transfer_stats total_evaluated total_approved total_rejected].
  split; [reflexivity|].
  destruct (approved (make_transfer_record st)); [left | right]; auto.
Qed.

(** C7.  Each closure adds one to [total_evaluated] and one to exactly one
    of [total_approved], [total_rejected]; a frame performs at most one
    closure and otherwise leaves the counters alone, so they never
    decrease; and in every state reached from the initial one
    [total_evaluated = total_approved + total_rejected]. *)
Theorem running_totals_consistent :
  (forall st : State,
      let ts := transfer_stats st in
      let ts' := transfer_stats (_finalize_transfer st) in
      total_evaluated ts' = total_evaluated ts + 1
      /\ ((total_approved ts' = total_approved ts + 1
           /\ total_rejected ts' = total_rejected ts)
          \/ (total_approved ts' = total_approved ts
              /\ total_rejected ts' = total_rejected ts + 1)))
  /\ (forall (cfg : Config) (st : State) (f : Frame),
         let ts := transfer_stats st in
         let ts' := transfer_stats (fst (process_frame cfg st f)) in
         total_evaluated ts <= total_evaluated ts'
         /\ total_approved ts <= total_approved ts'
         /\ total_rejected ts <= total_rejected ts')
  /\ (forall (cfg : Config) (frames : list Frame),
         let st := run cfg initial_state frames in
         let ts := transfer_stats st in
         total_evaluated ts = total_approved ts + total_rejected ts
         /\ total_evaluated ts = transfer_count st
         /\ 0 <= total_approved ts /\ 0 <= total_rejected ts).
Proof.
  split; [exact finalize_totals|]. split.
  - intros cfg st [roi|]; cbv zeta.
    + destruct (process_frame_present_totals cfg st roi) as [-> _]. lia.
    + destruct (process_frame_absent_totals cfg st) as [[-> _]|(s0 & -> & <- & _)];
        [lia|].
      pose proof (finalize_totals s0) as H. cbv zeta in H. lia.
  - intros cfg frames. cbv zeta.
    apply (run_invariant
             (fun st => total_evaluated (transfer_stats st)
                        = total_approved (transfer_stats st)
                          + total_rejected (transfer_stats st)
                        /\ total_evaluated (transfer_stats st) = transfer_count st
                        /\ 0 <= total_approved (transfer_stats st)
                        /\ 0 <= total_rejected (transfer_stats st))).
    + simpl. lia.
    + intros s [roi|] (H1 & H2 & H3 & H4).
      * destruct (process_frame_present_totals cfg s roi) as [-> ->]. lia.
      * destruct (process_frame_absent_totals cfg s)
          as [[-> ->]|(s0 & -> & Hs0 & ->)]; [lia|].
        pose proof (finalize_totals s0) as H. cbv zeta in H.
        rewrite Hs0 in H. lia.
Qed.

(** ** Opening and closing of transfers *)

Lemma len_map {A B : Type} (f : A -> B) (l : list A) : Py.len (map f l) = Py.len l.
Proof. unfold Py.len. now rewrite length_map. Qed.

Lemma map_tl {A B : Type} (f : A -> B) (l : list A) : map f (tl l) = tl (map f l).
Proof. destruct l; reflexivity. Qed.

Lemma map_push_record {B : Type} (f : TransferRecord -> B)
      (h : list TransferRecord) (r : TransferRecord) :
  map f (push_record h r)
  = (if Py.len (map f h ++ [f r]) >? 100 then tl (map f h ++ [f r])
     else map f h ++ [f r]).
Proof.
  unfold push_record.
  replace (map f h ++ [f r]) with (map f (h ++ [r])) by (now rewrite map_app).
  rewrite len_map. destruct (Py.len (h ++ [r]) >? 100); [apply map_tl | reflexivity].
Qed.

(** [process_frame] acts on the tracker view as [view_step] does: the
    opening and closing of transfers depends on a frame only through the
    presence of the ROI. *)
Lemma view_process_frame (cfg : Config) (st : State) (f : Frame) :
  view (fst (process_frame cfg st f))
  = view_step (ABSENT_TO_NEW cfg) (view st) (roi_found f).
Proof.
  destruct f as [roi|]; unfold process_frame.
  - unfold roi_present.
    destruct (detect_class _ _ _ (smudge_result roi)) as [[? ?] ?].
    destruct (detect_class _ _ _ (simbolos_result roi)) as [[? ?] ?].
    destruct (detect_class _ _ _ (blackdot_result roi)) as [[? ?] ?].
    destruct (_ ++ _ ++ _); unfold view, view_step; simpl;
      destruct (current_transfer_active st); reflexivity.
  - unfold roi_absent. cbv zeta. unfold view_step, roi_found.
    cbn [view v_active v_frames_without_roi count_absent current_transfer_active
         frames_without_roi].
    destruct (current_transfer_active st && _).
    + unfold view, record_ok_no, _finalize_transfer.
      cbn [fst transfer_count frames_without_roi current_transfer_active
           current_transfer_start_frame current_transfer_frames frame_count
           transfer_stats total_evaluated transfer_history count_absent
           v_transfer_count v_frames_without_roi v_active v_start_frame
           v_frames v_frame_count v_total_evaluated v_history].
      rewrite map_push_record. reflexivity.
    + reflexivity.
Qed.

Lemma view_trace_spec (cfg : Config) (frames : list Frame) (st : State) :
  map view (trace cfg st frames)
  = view_trace (ABSENT_TO_NEW cfg) (view st) (map roi_found frames).
Proof.
  revert st. induction frames as [|f frames IH]; intros st; simpl; [reflexivity|].
  rewrite view_process_frame, IH, view_process_frame. reflexivity.
Qed.

Lemma last_cons_default {A : Type} (x : A) (l : list A) (d d' : A) :
  last (x :: l) d = last (x :: l) d'.
Proof.
  revert x. induction l as [|y l IH]; intros x; [reflexivity|].
  change (last (y :: l) d = last (y :: l) d'). apply IH.
Qed.

Lemma run_last_trace (cfg : Config) (frames : list Frame) (st : State) :
  run cfg st frames = last (trace cfg st frames) st.
Proof.
  unfold run. revert st. induction frames as [|f frames IH]; intros st; [reflexivity|].
  cbn [fold_left trace]. rewrite IH.
  destruct frames as [|g frames]; [reflexivity|].
  cbn [trace]. etransitivity; [apply (last_cons_default _ _ _ st) | reflexivity].
Qed.

Lemma view_run (cfg : Config) (frames : list Frame) (st : State) :
  view (run cfg st frames)
  = last (view_trace (ABSENT_TO_NEW cfg) (view st) (map roi_found frames)) (view st).
Proof.
  rewrite run_last_trace, <- view_trace_spec.
  generalize (trace cfg st frames). intros l.
  induction l as [|x l IH]; [reflexivity|].
  destruct l as [|y l]; [reflexivity|].
  cbn [map last] in *. exact IH.
Qed.

Lemma map_const_repeat {A B : Type} (b : B) (l : list A) :
  map (fun _ => b) l = repeat b (List.length l).
Proof. induction l; simpl; congruence. Qed.

(** C5.  With the ROI present on 20 consecutive frames and absent on the
    next 10, and [ABSENT_TO_NEW = 8], the detector is inactive before the
    first frame, active after each of frames 1 to 27 and inactive after
    frames 28 to 30; the history is empty up to frame 27 and holds one
    record from frame 28 on, with duration 20 and start at the first frame;
    so exactly one transfer opens (on frame 1) and it closes on frame 28. *)
Theorem single_transfer_scenario (cfg : Config) (rois : list RoiFrame) :
  ABSENT_TO_NEW cfg = 8 ->
  List.length rois = 20%nat ->
  let frames := map Some rois ++ repeat None 10 in
  let states := trace cfg initial_state frames in
  current_transfer_active initial_state = false
  /\ map current_transfer_active states = repeat true 27 ++ repeat false 3
  /\ map (fun s => Py.len (transfer_history (transfer_stats s))) states
     = repeat 0 27 ++ repeat 1 3
  /\ map transfer_count states = repeat 0 27 ++ repeat 1 3
  /\ exists r : TransferRecord,
       transfer_history (transfer_stats (run cfg initial_state frames)) = [r]
       /\ duration_frames r = 20
       /\ start_frame r = frame_count initial_state
       /\ total_evaluated (transfer_stats (run cfg initial_state frames)) = 1.
Proof.
  intros Habs Hlen frames states.
  assert (Hrois : map roi_found frames = repeat true 20 ++ repeat false 10).
  { unfold frames. rewrite map_app, map_map. cbn [roi_found].
    rewrite map_const_repeat, Hlen. reflexivity. }
  assert (Hviews : map view states
                   = view_trace 8 (view initial_state)
                                (repeat true 20 ++ repeat false 10)).
  { unfold states. rewrite view_trace_spec, Habs, Hrois. reflexivity. }
  assert (Hfinal : view (run cfg initial_state frames)
                   = last (view_trace 8 (view initial_state)
                                      (repeat true 20 ++ repeat false 10))
                          (view initial_state)).
  { rewrite view_run, Habs, Hrois. reflexivity. }
  split; [reflexivity|]. split.
  { change (map current_transfer_active states)
      with (map (fun s => v_active (view s)) states).
    rewrite <- (map_map view v_active), Hviews. vm_compute. reflexivity. }
  split.
  { transitivity (map (fun v => Py.len (v_history v)) (map view states)).
    - rewrite map_map. apply map_ext. intros s. unfold view; cbn [v_history].
      now rewrite len_map.
    - rewrite Hviews. vm_compute. reflexivity. }
  split.
  { change (map transfer_count states)
      with (map (fun s => v_transfer_count (view s)) states).
    rewrite <- (map_map view v_transfer_count), Hviews. vm_compute. reflexivity. }
  assert (Hh : v_history (view (run cfg initial_state frames)) = [(0, 20, 0)])
    by (rewrite Hfinal; vm_compute; reflexivity).
  assert (Ht : v_total_evaluated (view (run cfg initial_state frames)) = 1)
    by (rewrite Hfinal; vm_compute; reflexivity).
  unfold view in Hh, Ht. cbn [v_history v_total_evaluated] in Hh, Ht.
  destruct (transfer_history (transfer_stats (run cfg initial_state frames)))
    as [|r [|r' rest]]; try discriminate Hh.
  exists r. injection Hh as Hid Hdur Hstart.
  split; [reflexivity|]. split; [exact Hdur|]. split; [exact Hstart|]. exact Ht.
Qed.

Lemma single_transfer_scenario_witness :
  map current_transfer_active
      (trace default_config initial_state
             (map Some (repeat (mkRoiFrame None None None) 20) ++ repeat None 10))
  = repeat true 27 ++ repeat false 3
  /\ exists r : TransferRecord,
       transfer_history
         (transfer_stats
            (run default_config initial_state
                 (map Some (repeat (mkRoiFrame None None None) 20) ++ repeat None 10)))
       = [r]
       /\ duration_frames r = 20.
Proof.
  destruct (single_transfer_scenario default_config
              (repeat (mkRoiFrame None None None) 20))
    as (_ & Hact & _ & _ & r & Hr & Hd & _).
  - reflexivity.
  - reflexivity.
  - split; [exact Hact|]. exists r. split; [exact Hr | exact Hd].
Defined.

(** ** Per-frame sequences *)

Lemma len_app_one {A : Type} (l : list A) (v : A) : Py.len (l ++ [v]) = Py.len l + 1.
Proof. unfold Py.len. rewrite length_app. simpl. lia. Qed.

Lemma appended_len (l l' : list Z) : appended l l' -> Py.len l' = Py.len l + 1.
Proof. intros (v & ->). apply len_app_one. Qed.

Lemma set_last_appended (l : list Z) (c v : Z) : set_last (l ++ [c]) v = l ++ [v].
Proof. unfold set_last. now rewrite removelast_last. Qed.

Lemma append_ok_no_spec (cts : CurrentTransferStats) (c : Z * Z * Z * Z * Z * Z) :
  class_unchanged cts (append_ok_no cts c) /\ ok_no_appended cts (append_ok_no cts c).
Proof.
  destruct c as [[[[[f_ok f_no] s_ok] s_no] g_ok] g_no].
  split; repeat split; eexists; reflexivity.
Qed.

(** What a frame with the ROI present does to the tracker. *)
Lemma process_frame_present (cfg : Config) (st : State) (roi : RoiFrame) :
  let st' := fst (process_frame cfg st (Some roi)) in
  current_transfer_active st' = true
  /\ current_transfer_frames st'
     = (if current_transfer_active st then current_transfer_frames st else 0) + 1
  /\ current_transfer_start_frame st'
     = (if current_transfer_active st then current_transfer_start_frame st
        else frame_count st)
  /\ frame_count st' = frame_count st + 1
  /\ class_appended (current_transfer_stats st) (current_transfer_stats st')
  /\ ok_no_appended (current_transfer_stats st) (current_transfer_stats st').
Proof.
  unfold process_frame, roi_present.
  destruct (detect_class _ _ _ (smudge_result roi)) as [[ks hs] cs].
  destruct (detect_class _ _ _ (simbolos_result roi)) as [[kb hb] cb].
  destruct (detect_class _ _ _ (blackdot_result roi)) as [[kk hk] ck].
  destruct (_ ++ _ ++ _) as [|e dbc];
    cbv zeta; unfold record_ok_no;
    cbn [fst current_transfer_active current_transfer_frames
         current_transfer_start_frame frame_count current_transfer_stats];
    (split; [reflexivity|]);
    (split; [destruct (current_transfer_active st); reflexivity|]);
    (split; [destruct (current_transfer_active st); reflexivity|]);
    (split; [reflexivity|]);
    match goal with
    | |- context [append_ok_no ?c ?x] =>
        destruct (append_ok_no_spec c x) as [(U1 & U2 & U3) Hok]
    end.
  - split.
    + unfold class_appended. rewrite U1, U2, U3. cbn.
      repeat split; eexists; reflexivity.
    + exact Hok.
  - split.
    + unfold class_appended. rewrite U1, U2, U3.
      cbn [set_last_counts append_counts cts_smudge cts_simbolos cts_blackdot].
      rewrite !set_last_appended. repeat split; eexists; reflexivity.
    + exact Hok.
Qed.

(** What a frame without ROI does to the tracker. *)
Lemma process_frame_absent (cfg : Config) (st : State) :
  let st' := fst (process_frame cfg st None) in
  frame_count st' = frame_count st + 1
  /\ if current_transfer_active st
        && (frames_without_roi st + 1 >=? ABSENT_TO_NEW cfg)
     then current_transfer_active st' = false
          /\ current_transfer_stats st' = empty_seqs
     else current_transfer_active st' = current_transfer_active st
          /\ current_transfer_frames st' = current_transfer_frames st
          /\ current_transfer_start_frame st' = current_transfer_start_frame st
          /\ class_unchanged (current_transfer_stats st) (current_transfer_stats st')
          /\ if current_transfer_active st
             then ok_no_appended_zero (current_transfer_stats st)
                                      (current_transfer_stats st')
             else current_transfer_stats st' = current_transfer_stats st.
Proof.
  unfold process_frame, roi_absent. cbv zeta.
  cbn [count_absent current_transfer_active frames_without_roi].
  destruct (current_transfer_active st) eqn:Ea; cbn [andb].
  - destruct (frames_without_roi st + 1 >=? ABSENT_TO_NEW cfg).
    + cbn. auto.
    + cbn. rewrite Ea. cbn. unfold class_unchanged, ok_no_appended_zero. cbn.
      repeat split; reflexivity.
  - cbn. rewrite Ea. unfold class_unchanged. auto 10.
Qed.

Lemma sequences_invariant_step (cfg : Config) (st : State) (f : Frame) :
  sequences_invariant st -> sequences_invariant (fst (process_frame cfg st f)).
Proof.
  intros Hinv. destruct f as [roi|].
  - destruct (process_frame_present cfg st roi)
      as (Ha & Hf & Hs & Hc & (C1 & C2 & C3) & (O1 & O2 & O3 & O4 & O5 & O6)).
    apply appended_len in C1, C2, C3, O1, O2, O3, O4, O5, O6.
    unfold sequences_invariant in *. rewrite Ha, Hf, Hs, Hc.
    unfold class_lengths, ok_no_lengths.
    destruct (current_transfer_active st).
    + destruct Hinv as ((L1 & L2 & L3) & (M1 & M2 & M3 & M4 & M5 & M6)).
      repeat split; lia.
    + rewrite Hinv in *. cbn in *. repeat split; lia.
  - destruct (process_frame_absent cfg st) as (Hc & H).
    unfold sequences_invariant in *.
    destruct (current_transfer_active st) eqn:Ea; cbn [andb] in H.
    + destruct (frames_without_roi st + 1 >=? ABSENT_TO_NEW cfg).
      * destruct H as [-> ->]. reflexivity.
      * destruct H as (-> & -> & -> & (U1 & U2 & U3) & (Z1 & Z2 & Z3 & Z4 & Z5 & Z6)).
        destruct Hinv as ((L1 & L2 & L3) & (M1 & M2 & M3 & M4 & M5 & M6)).
        unfold class_lengths, ok_no_lengths.
        rewrite U1, U2, U3, Z1, Z2, Z3, Z4, Z5, Z6, Hc, !len_app_one.
        repeat split; lia.
    + destruct H as (-> & _ & _ & _ & ->). exact Hinv.
Qed.

(** C6, as the code has it.  A frame with the ROI present appends exactly
    one entry to each of the nine per-frame sequences.  A frame without ROI
    that leaves the transfer active appends one zero to each of the six
    OK/NO sequences and nothing to the smudge, simbolos and blackdot
    sequences.  Hence, in every state reached from the initial one with a
    transfer active, the three class sequences have one entry per
    ROI-present frame of the transfer and the six OK/NO sequences one entry
    per frame since it opened; with no transfer active all are empty. *)
Theorem per_frame_sequences (cfg : Config) :
  (forall (st : State) (roi : RoiFrame),
      class_appended (current_transfer_stats st)
                     (current_transfer_stats (fst (process_frame cfg st (Some roi))))
      /\ ok_no_appended (current_transfer_stats st)
                        (current_transfer_stats (fst (process_frame cfg st (Some roi)))))
  /\ (forall st : State,
         current_transfer_active (fst (process_frame cfg st None)) = true ->
         class_unchanged (current_transfer_stats st)
                         (current_transfer_stats (fst (process_frame cfg st None)))
         /\ ok_no_appended_zero (current_transfer_stats st)
                                (current_transfer_stats (fst (process_frame cfg st None))))
  /\ (forall frames : list Frame,
         sequences_invariant (run cfg initial_state frames)).
Proof.
  split; [|split].
  - intros st roi.
    destruct (process_frame_present cfg st roi) as (_ & _ & _ & _ & Hc & Ho). auto.
  - intros st Hact.
    destruct (process_frame_absent cfg st) as (_ & H).
    destruct (current_transfer_active st) eqn:Ea; cbn [andb] in H.
    + destruct (frames_without_roi st + 1 >=? ABSENT_TO_NEW cfg).
      * destruct H as [H _]. congruence.
      * destruct H as (_ & _ & _ & Hu & Hz). auto.
    + destruct H as (H & _). congruence.
  - intros frames. apply run_invariant.
    + reflexivity.
    + intros s f. apply sequences_invariant_step.
Qed.

Lemma per_frame_sequences_witness :
  class_unchanged
    (current_transfer_stats (run default_config initial_state [Some quiet_roi_frame]))
    (current_transfer_stats after_one_absent_frame)
  /\ ok_no_appended_zero
       (current_transfer_stats (run default_config initial_state [Some quiet_roi_frame]))
       (current_transfer_stats after_one_absent_frame).
Proof.
  apply (proj1 (proj2 (per_frame_sequences default_config))
               (run default_config initial_state [Some quiet_roi_frame])).
  vm_compute. reflexivity.
Defined.

(** C6, as stated, fails: after one frame with the ROI and one without, the
    transfer is active, the smudge sequence has one entry and the OK/NO
    sequences have two. *)
Lemma absent_frame_breaks_alignment :
  current_transfer_active after_one_absent_frame = true
  /\ cts_smudge (current_transfer_stats after_one_absent_frame) = [0]
  /\ cts_fifa_ok (current_transfer_stats after_one_absent_frame) = [0; 0]
  /\ ~ sequences_aligned (current_transfer_stats after_one_absent_frame).
Proof.
  split; [vm_compute; reflexivity|].
  split; [vm_compute; reflexivity|].
  split; [vm_compute; reflexivity|].
  intros (_ & _ & H & _). vm_compute in H. discriminate H.
Qed.

(** ** Statistics summary *)

(** C8.  [get_final_statistics_summary] always returns: on an empty history
    it gives [total_transfers_evaluated = 0] and the placeholder error
    ("Nenhuma", "N/A", 0, 0.0) without reaching the division, and whenever
    the error counts sum to zero the percentage reported is [0.0]. *)
Theorem summary_never_divides_by_zero (st : State) :
  exists s : Summary,
    get_final_statistics_summary st = Py.Ok s
    /\ (transfer_history (transfer_stats st) = [] ->
        total_transfers_evaluated s = 0
        /\ most_frequent_error s = mkMostFrequentError "Nenhuma" "N/A" 0 0
        /\ transfers_by_class s = []
        /\ objects_per_transfer s = [])
    /\ (Py.sum (map snd (error_counts (transfer_history (transfer_stats st)))) = 0 ->
        mfe_percentage (most_frequent_error s) = 0%Q).
Proof.
  unfold get_final_statistics_summary.
  destruct (Z.eqb_spec (Py.len (transfer_history (transfer_stats st))) 0) as [Hz|Hnz].
  - eexists. split; [reflexivity|]. split; [intros _; repeat split | intros _; reflexivity].
  - set (h := transfer_history (transfer_stats st)) in *.
    unfold most_frequent. cbn [error_counts].
    destruct (max_entry _ _) as [k v].
    match goal with
    | |- context [if ?t >? 0 then _ else _] => set (total := t)
    end.
    destruct (Z.gtb_spec total 0) as [Hpos|Hnpos].
    + rewrite (truediv_pos v total) by lia. cbn [Py.bind].
      eexists. split; [reflexivity|]. split.
      * intros Hh. exfalso. apply Hnz. rewrite Hh. reflexivity.
      * intros Hsum. exfalso. unfold total in Hpos.
        cbn [error_counts map snd] in Hsum. lia.
    + cbn [Py.bind]. eexists. split; [reflexivity|]. split.
      * intros Hh. exfalso. apply Hnz. rewrite Hh. reflexivity.
      * intros _. reflexivity.
Qed.

Lemma summary_never_divides_by_zero_witness :
  exists s : Summary,
    get_final_statistics_summary initial_state = Py.Ok s
    /\ total_transfers_evaluated s = 0
    /\ most_frequent_error s = mkMostFrequentError "Nenhuma" "N/A" 0 0
    /\ mfe_percentage (most_frequent_error s) = 0%Q.
Proof.
  destruct (summary_never_divides_by_zero initial_state) as (s & Hs & Hempty & Hzero).
  exists s. split; [exact Hs|].
  destruct (Hempty eq_refl) as (H1 & H2 & _).
  split; [exact H1|]. split; [exact H2|].
  apply Hzero. reflexivity.
Defined.

(** ** Count stabilizer *)

Example round_half_to_even :
  map Py.round [5 # 2; 7 # 2; (-1) # 2; 37 # 10; (-7) # 4] = [2; 4; 0; 4; -2].
Proof. vm_compute. reflexivity. Qed.

(** The noisy-frame example: history [2,2,2,2,2], then a raw count of 8. *)
Example stabilizer_single_noisy_frame :
  map snd (stabilize_stream 8 [] [2; 2; 2; 2; 2; 8]) = [2; 2; 2; 2; 2; 3].
Proof. vm_compute. reflexivity. Qed.

Lemma float_max_lower (a b : Q) : (a <= float_max a b)%Q.
Proof.
  unfold float_max. destruct (Py.gt b a) eqn:E.
  - apply gt_true_iff in E. now apply Qlt_le_weak.
  - apply Qle_refl.
Qed.

(** What the limiter does ensure: with at least two entries in the history,
    the value handed to [round] is within [max(1, 0.5 * previous)] of the
    previous raw count, the entry before last of the history. *)
Lemma limiter_bounds_distance_to_previous_raw (history : list Z) :
  1 < Py.len history ->
  (Qabs (smoothed history - inject_Z (previous_of history))
   <= float_max 1 (inject_Z (previous_of history) * (1 # 2)))%Q.
Proof.
  intros Hlen. unfold smoothed.
  destruct (Z.gtb_spec (Py.len history) 1) as [_|Hle]; [|lia].
  set (p := previous_of history).
  set (avg := (inject_Z (weighted_sum history)
               / inject_Z (Py.sum (weights (List.length history))))%Q).
  destruct (Py.gt (Qabs (avg - inject_Z p)) _) eqn:Ejump.
  - apply Qle_trans with (y := 1%Q); [|apply float_max_lower].
    destruct (Py.gt avg (inject_Z p)).
    + assert (H : (inject_Z (p + 1) - inject_Z p == 1)%Q)
        by (rewrite inject_Z_plus; ring).
      rewrite H. apply Qle_refl.
    + assert (H : (inject_Z (p + -1) - inject_Z p == - (1))%Q)
        by (rewrite inject_Z_plus; ring).
      rewrite H. apply Qle_refl.
  - now apply gt_false_iff.
Qed.

(** C3 on the code.  From an empty history the raw counts 10, 0, 0 give the
    stabilized outputs 10, 9, 1 (history lengths 1, 2, 3): the limiter
    compares with the previous raw count kept in the history, not with the
    previous output, and the last two outputs differ by 8, more than
    [max(1, 0.5 * 9)]. *)
Theorem stabilizer_outputs_jump :
  stabilize_stream 8 [] [10; 0; 0] = [(1, 10); (2, 9); (3, 1)]
  /\ ~ (Qabs (inject_Z 1 - inject_Z 9) <= float_max 1 (inject_Z 9 * (1 # 2)))%Q.
Proof.
  split; [vm_compute; reflexivity|].
  vm_compute. intros H. apply H. reflexivity.
Qed.

(** ** The approval rule on sample transfers *)

Lemma approval_rule_witness :
  (exists r older,
      transfer_history
        (transfer_stats (_finalize_transfer (closing_state three_in_ten one_in_ten one_in_ten)))
      = older ++ [r]
      /\ approved r = false /\ smudge_reject r = true)
  /\ (exists r older,
         transfer_history
           (transfer_stats (_finalize_transfer (closing_state one_in_ten one_in_ten one_in_ten)))
         = older ++ [r]
         /\ approved r = true).
Proof.
  split.
  - destruct (approval_rule (closing_state three_in_ten one_in_ten one_in_ten))
      as (r & older & Hh & _ & _ & _ & Hs & _ & _ & _ & Hrej).
    exists r, older. split; [exact Hh|]. split.
    + apply Hrej. left. vm_compute. reflexivity.
    + apply Hs. vm_compute. reflexivity.
  - destruct (approval_rule (closing_state one_in_ten one_in_ten one_in_ten))
      as (r & older & Hh & _ & _ & _ & _ & _ & _ & Hok & _).
    exists r, older. split; [exact Hh|].
    apply Hok. repeat split; vm_compute; discriminate.
Defined.

Lemma running_totals_consistent_witness :
  total_evaluated (transfer_stats after_one_absent_frame)
  = total_approved (transfer_stats after_one_absent_frame)
    + total_rejected (transfer_stats after_one_absent_frame).
Proof.
  exact (proj1 (proj2 (proj2 running_totals_consistent)
                      default_config [Some quiet_roi_frame; None])).
Defined.

(** * Further properties of the tracker *)

(** ** Runs of frames through the tracker view *)

Lemma run_app (cfg : Config) (st : State) (fs gs : list Frame) :
  run cfg st (fs ++ gs) = run cfg (run cfg st fs) gs.
Proof. unfold run. apply fold_left_app. Qed.

Lemma view_run_after (cfg : Config) (frames : list Frame) (st : State) :
  view (run cfg st frames)
  = view_after (ABSENT_TO_NEW cfg) (view st) (map roi_found frames).
Proof.
  unfold run, view_after. revert st.
  induction frames as [|f frames IH]; intros st; [reflexivity|].
  cbn [fold_left map]. rewrite IH, view_process_frame. reflexivity.
Qed.

Lemma view_after_app (A : Z) (v : TrackerView) (l1 l2 : list bool) :
  view_after A v (l1 ++ l2) = view_after A (view_after A v l1) l2.
Proof. unfold view_after. apply fold_left_app. Qed.

(** [n + 1] frames with the ROI: the transfer is open, with [n + 1] more
    ROI frames than before (or [n + 1] in all when it just opened). *)
Lemma view_after_present (A : Z) (v : TrackerView) (n : nat) :
  view_after A v (repeat true (S n))
  = {| v_transfer_count := v_transfer_count v;
       v_frames_without_roi := 0;
       v_active := true;
       v_start_frame := if v_active v then v_start_frame v else v_frame_count v;
       v_frames := (if v_active v then v_frames v else 0) + Z.of_nat (S n);
       v_frame_count := v_frame_count v + Z.of_nat (S n);
       v_total_evaluated := v_total_evaluated v;
       v_history := v_history v |}.
Proof.
  revert v. induction n as [|n IH]; intros v.
  - cbn. f_equal; lia.
  - change (repeat true (S (S n))) with (true :: repeat true (S n)).
    unfold view_after in *. cbn [fold_left]. rewrite IH.
    unfold view_step. cbn [v_active v_start_frame v_frames v_frame_count
                           v_transfer_count v_total_evaluated v_history].
    f_equal; lia.
Qed.

(** [k] frames without ROI that stay below the threshold only count. *)
Lemma view_after_absent_open (A : Z) (v : TrackerView) (k : nat) :
  v_active v = true ->
  v_frames_without_roi v + Z.of_nat k < A ->
  view_after A v (repeat false k)
  = {| v_transfer_count := v_transfer_count v;
       v_frames_without_roi := v_frames_without_roi v + Z.of_nat k;
       v_active := true;
       v_start_frame := v_start_frame v;
       v_frames := v_frames v;
       v_frame_count := v_frame_count v + Z.of_nat k;
       v_total_evaluated := v_total_evaluated v;
       v_history := v_history v |}.
Proof.
  revert v. induction k as [|k IH]; intros v Ha Hlt.
  - destruct v; cbn in *. subst. f_equal; lia.
  - cbn [repeat]. unfold view_after in *. cbn [fold_left].
    assert (Hstep : view_step A v false
                    = {| v_transfer_count := v_transfer_count v;
                         v_frames_without_roi := v_frames_without_roi v + 1;
                         v_active := true;
                         v_start_frame := v_start_frame v;
                         v_frames := v_frames v;
                         v_frame_count := v_frame_count v + 1;
                         v_total_evaluated := v_total_evaluated v;
                         v_history := v_history v |}).
    { unfold view_step. rewrite Ha. cbn [andb].
      destruct (Z.geb_spec (v_frames_without_roi v + 1) A); [lia | reflexivity]. }
    rewrite Hstep, IH; cbn [v_active v_frames_without_roi v_transfer_count v_start_frame
                            v_frames v_frame_count v_total_evaluated v_history];
      [f_equal; lia | reflexivity | lia].
Qed.

(** Frames without ROI while no transfer is open only count. *)
Lemma view_after_absent_idle (A : Z) (v : TrackerView) (k : nat) :
  v_active v = false ->
  view_after A v (repeat false k)
  = {| v_transfer_count := v_transfer_count v;
       v_frames_without_roi := v_frames_without_roi v + Z.of_nat k;
       v_active := false;
       v_start_frame := v_start_frame v;
       v_frames := v_frames v;
       v_frame_count := v_frame_count v + Z.of_nat k;
       v_total_evaluated := v_total_evaluated v;
       v_history := v_history v |}.
Proof.
  revert v. induction k as [|k IH]; intros v Ha.
  - destruct v; cbn in *. subst. f_equal; lia.
  - cbn [repeat]. unfold view_after in *. cbn [fold_left].
    assert (Hstep : view_step A v false
                    = {| v_transfer_count := v_transfer_count v;
                         v_frames_without_roi := v_frames_without_roi v + 1;
                         v_active := false;
                         v_start_frame := v_start_frame v;
                         v_frames := v_frames v;
                         v_frame_count := v_frame_count v + 1;
                         v_total_evaluated := v_total_evaluated v;
                         v_history := v_history v |}).
    { unfold view_step. rewrite Ha. reflexivity. }
    rewrite Hstep, IH; cbn [v_active v_frames_without_roi v_transfer_count v_start_frame
                            v_frames v_frame_count v_total_evaluated v_history];
      [f_equal; lia | reflexivity].
Qed.

(** The frame without ROI that reaches the threshold closes the transfer. *)
Lemma view_step_close (A : Z) (v : TrackerView) :
  v_active v = true ->
  A <= v_frames_without_roi v + 1 ->
  exists older,
    view_step A v false
    = {| v_transfer_count := v_transfer_count v + 1;
         v_frames_without_roi := v_frames_without_roi v + 1;
         v_active := false;
         v_start_frame := v_start_frame v;
         v_frames := 0;
         v_frame_count := v_frame_count v + 1;
         v_total_evaluated := v_total_evaluated v + 1;
         v_history := older ++ [(v_transfer_count v, v_frames v, v_start_frame v)] |}.
Proof.
  intros Ha Hge. unfold view_step. rewrite Ha. cbn [andb].
  destruct (Z.geb_spec (v_frames_without_roi v + 1) A); [|lia].
  destruct (Py.len _ >? 100) eqn:E.
  - destruct (v_history v) as [|x h]; [discriminate E|].
    exists h. reflexivity.
  - exists (v_history v). reflexivity.
Qed.

Lemma map_eq_snoc {A B : Type} (f : A -> B) (l : list A) (l1 : list B) (y : B) :
  map f l = l1 ++ [y] -> exists older r, l = older ++ [r] /\ f r = y /\ map f older = l1.
Proof.
  revert l1. induction l as [|a l IH]; intros l1 H.
  - destruct l1; discriminate H.
  - destruct l1 as [|b l1].
    + destruct l as [|a' l]; [|discriminate H].
      injection H as H. exists [], a. auto.
    + injection H as Hb H. destruct (IH l1 H) as (older & r & -> & Hr & Hm).
      exists (a :: older), r. cbn. rewrite Hm, Hb. auto.
Qed.

Lemma roi_flags (rois : list RoiFrame) (k : nat) :
  map roi_found (map Some rois ++ repeat None k)
  = repeat true (List.length rois) ++ repeat false k.
Proof.
  rewrite map_app, map_map. cbn [roi_found]. rewrite map_const_repeat.
  f_equal. induction k; cbn; congruence.
Qed.

(** One transfer seen through the view: [n + 1] frames with the ROI from an
    idle tracker, then [k] frames without. *)
Lemma view_after_transfer (A : Z) (v : TrackerView) (n k : nat) :
  0 < A ->
  v_active v = false ->
  if Z.of_nat k <? A
  then view_after A v (repeat true (S n) ++ repeat false k)
       = {| v_transfer_count := v_transfer_count v;
            v_frames_without_roi := Z.of_nat k;
            v_active := true;
            v_start_frame := v_frame_count v;
            v_frames := Z.of_nat (S n);
            v_frame_count := v_frame_count v + Z.of_nat (S n) + Z.of_nat k;
            v_total_evaluated := v_total_evaluated v;
            v_history := v_history v |}
  else exists older,
      view_after A v (repeat true (S n) ++ repeat false k)
      = {| v_transfer_count := v_transfer_count v + 1;
           v_frames_without_roi := Z.of_nat k;
           v_active := false;
           v_start_frame := v_frame_count v;
           v_frames := 0;
           v_frame_count := v_frame_count v + Z.of_nat (S n) + Z.of_nat k;
           v_total_evaluated := v_total_evaluated v + 1;
           v_history := older ++ [(v_transfer_count v, Z.of_nat (S n), v_frame_count v)] |}.
Proof.
  intros HA Hidle. rewrite view_after_app, view_after_present, Hidle.
  set (v1 := {| v_transfer_count := v_transfer_count v; v_frames_without_roi := 0 |}).
  destruct (Z.ltb_spec (Z.of_nat k) A) as [Hlt|Hge].
  - rewrite view_after_absent_open; [|reflexivity | cbn; lia].
    cbn. f_equal; lia.
  - replace (repeat false k)
      with (repeat false (Z.to_nat (A - 1)) ++ false :: repeat false (k - Z.to_nat A)).
    2:{ change (false :: repeat false (k - Z.to_nat A))
          with (repeat false 1 ++ repeat false (k - Z.to_nat A)).
        rewrite <- !repeat_app. f_equal. lia. }
    rewrite view_after_app.
    rewrite (view_after_absent_open A v1 (Z.to_nat (A - 1))); [|reflexivity | cbn; lia].
    unfold view_after at 1. cbn [fold_left].
    match goal with |- context [view_step A ?w false] =>
      destruct (view_step_close A w) as (older & Hclose); [reflexivity | cbn; lia |]
    end.
    rewrite Hclose.
    change (fold_left (view_step A) ?l ?w) with (view_after A w l).
    rewrite view_after_absent_idle by reflexivity.
    exists older. cbn. f_equal; lia.
Qed.

(** While the number of evaluated transfers stays the same over a run, the
    whole of [transfer_stats] stays the same. *)
Lemma step_totals_monotone (cfg : Config) (st : State) (f : Frame) :
  total_evaluated (transfer_stats st)
  <= total_evaluated (transfer_stats (fst (process_frame cfg st f)))
  /\ (total_evaluated (transfer_stats (fst (process_frame cfg st f)))
      = total_evaluated (transfer_stats st) ->
      transfer_stats (fst (process_frame cfg st f)) = transfer_stats st).
Proof.
  destruct f as [roi|].
  - destruct (process_frame_present_totals cfg st roi) as [-> _]. split; [lia | auto].
  - destruct (process_frame_absent_totals cfg st) as [[-> _]|(s0 & -> & <- & _)].
    + split; [lia | auto].
    + pose proof (finalize_totals s0) as H. cbv zeta in H. split; [lia | intros; lia].
Qed.

Lemma run_totals_monotone (cfg : Config) (frames : list Frame) (st : State) :
  total_evaluated (transfer_stats st)
  <= total_evaluated (transfer_stats (run cfg st frames)).
Proof.
  revert st. induction frames as [|f frames IH]; intros st; [cbn; lia|].
  change (run cfg st (f :: frames)) with (run cfg (fst (process_frame cfg st f)) frames).
  pose proof (step_totals_monotone cfg st f) as [H _].
  pose proof (IH (fst (process_frame cfg st f))). lia.
Qed.

Lemma run_stats_unchanged (cfg : Config) (frames : list Frame) (st : State) :
  total_evaluated (transfer_stats (run cfg st frames))
  = total_evaluated (transfer_stats st) ->
  transfer_stats (run cfg st frames) = transfer_stats st.
Proof.
  revert st. induction frames as [|f frames IH]; intros st H; [reflexivity|].
  change (run cfg st (f :: frames))
    with (run cfg (fst (process_frame cfg st f)) frames) in *.
  pose proof (step_totals_monotone cfg st f) as [Hle Heq].
  pose proof (run_totals_monotone cfg frames (fst (process_frame cfg st f))) as Hrun.
  rewrite IH by lia. apply Heq. lia.
Qed.

(** X1.  From a state with no transfer open, [n >= 1] frames with the ROI
    followed by [k] frames without it leave the transfer open, with [n]
    frames counted and nothing recorded, as long as [k < ABSENT_TO_NEW];
    from the [ABSENT_TO_NEW]-th absent frame on the transfer is closed and
    the newest record has duration [n], the opening frame as start and the
    old transfer counter as id. *)
Theorem transfer_closes_after_absence
        (cfg : Config) (st : State) (rois : list RoiFrame) (k : nat) :
  0 < ABSENT_TO_NEW cfg ->
  current_transfer_active st = false ->
  rois <> [] ->
  let st' := run cfg st (map Some rois ++ repeat None k) in
  if Z.of_nat k <? ABSENT_TO_NEW cfg
  then current_transfer_active st' = true
       /\ current_transfer_frames st' = Py.len rois
       /\ current_transfer_start_frame st' = frame_count st
       /\ transfer_stats st' = transfer_stats st
       /\ transfer_count st' = transfer_count st
  else current_transfer_active st' = false
       /\ transfer_count st' = transfer_count st + 1
       /\ total_evaluated (transfer_stats st') = total_evaluated (transfer_stats st) + 1
       /\ exists older r,
           transfer_history (transfer_stats st') = older ++ [r]
           /\ duration_frames r = Py.len rois
           /\ start_frame r = frame_count st
           /\ transfer_id r = transfer_count st.
Proof.
  intros HA Hidle Hne st'.
  destruct rois as [|roi0 rois]; [congruence|].
  pose proof (view_run_after cfg (map Some (roi0 :: rois) ++ repeat None k) st) as Hv.
  fold st' in Hv. rewrite roi_flags in Hv.
  change (List.length (roi0 :: rois)) with (S (List.length rois)) in Hv.
  pose proof (view_after_transfer (ABSENT_TO_NEW cfg) (view st) (List.length rois) k
                                  HA Hidle) as Hrun.
  unfold Py.len. change (List.length (roi0 :: rois)) with (S (List.length rois)).
  destruct (Z.of_nat k <? ABSENT_TO_NEW cfg).
  - rewrite Hrun in Hv.
    assert (Hact : v_active (view st') = true) by (now rewrite Hv).
    assert (Hfr : v_frames (view st') = Z.of_nat (S (List.length rois)))
      by (now rewrite Hv).
    assert (Hst : v_start_frame (view st') = frame_count st) by (now rewrite Hv).
    assert (Htot : v_total_evaluated (view st') = total_evaluated (transfer_stats st))
      by (now rewrite Hv).
    assert (Hcnt : v_transfer_count (view st') = transfer_count st) by (now rewrite Hv).
    cbn in Hact, Hfr, Hst, Htot, Hcnt.
    repeat split; try assumption.
    apply run_stats_unchanged. exact Htot.
  - destruct Hrun as (older & Hrun). rewrite Hrun in Hv.
    assert (Hact : v_active (view st') = false) by (now rewrite Hv).
    assert (Htot : v_total_evaluated (view st') = total_evaluated (transfer_stats st) + 1)
      by (now rewrite Hv).
    assert (Hcnt : v_transfer_count (view st') = transfer_count st + 1)
      by (now rewrite Hv).
    assert (Hh : v_history (view st')
                 = older ++ [(transfer_count st, Z.of_nat (S (List.length rois)),
                              frame_count st)]) by (now rewrite Hv).
    cbn in Hact, Htot, Hcnt, Hh.
    repeat split; try assumption.
    apply map_eq_snoc in Hh. destruct Hh as (older' & r & Hr & Hkey & _).
    exists older', r. injection Hkey as Hid Hd Hs. auto.
Qed.

Lemma transfer_closes_after_absence_witness :
  current_transfer_active
    (run default_config initial_state
         (map Some [quiet_roi_frame; quiet_roi_frame; quiet_roi_frame] ++ repeat None 7))
  = true
  /\ current_transfer_active
       (run default_config initial_state
            (map Some [quiet_roi_frame; quiet_roi_frame; quiet_roi_frame] ++ repeat None 8))
     = false.
Proof.
  split.
  - apply (transfer_closes_after_absence default_config initial_state
             [quiet_roi_frame; quiet_roi_frame; quiet_roi_frame] 7);
      [reflexivity | reflexivity | discriminate].
  - apply (transfer_closes_after_absence default_config initial_state
             [quiet_roi_frame; quiet_roi_frame; quiet_roi_frame] 8);
      [reflexivity | reflexivity | discriminate].
Defined.

Lemma roi_flags_gap (rois1 rois2 : list RoiFrame) (k : nat) :
  map roi_found (map Some rois1 ++ repeat None k ++ map Some rois2)
  = repeat true (List.length rois1) ++ repeat false k ++ repeat true (List.length rois2).
Proof.
  rewrite !map_app, !map_map. cbn [roi_found]. rewrite !map_const_repeat.
  f_equal. f_equal. induction k; cbn; congruence.
Qed.

(** X2.  A gap of fewer than [ABSENT_TO_NEW] frames without ROI does not
    split a transfer: after ROI frames, such a gap and more ROI frames the
    same transfer is open, nothing was recorded, and its frame count grew
    by the ROI frames only. *)
Theorem short_gap_keeps_transfer
        (cfg : Config) (st : State) (rois1 rois2 : list RoiFrame) (k : nat) :
  Z.of_nat k < ABSENT_TO_NEW cfg ->
  rois1 <> [] -> rois2 <> [] ->
  let st' := run cfg st (map Some rois1 ++ repeat None k ++ map Some rois2) in
  current_transfer_active st' = true
  /\ frames_without_roi st' = 0
  /\ current_transfer_frames st'
     = (if current_transfer_active st then current_transfer_frames st else 0)
       + Py.len rois1 + Py.len rois2
  /\ current_transfer_start_frame st'
     = (if current_transfer_active st then current_transfer_start_frame st
        else frame_count st)
  /\ transfer_stats st' = transfer_stats st
  /\ transfer_count st' = transfer_count st.
Proof.
  intros Hk H1 H2 st'.
  destruct rois1 as [|r1 rois1]; [congruence|].
  destruct rois2 as [|r2 rois2]; [congruence|].
  pose proof (view_run_after cfg
                (map Some (r1 :: rois1) ++ repeat None k ++ map Some (r2 :: rois2)) st)
    as Hv.
  fold st' in Hv. rewrite roi_flags_gap in Hv.
  change (List.length (r1 :: rois1)) with (S (List.length rois1)) in Hv.
  change (List.length (r2 :: rois2)) with (S (List.length rois2)) in Hv.
  rewrite !view_after_app in Hv.
  rewrite (view_after_present _ (view st)) in Hv.
  rewrite view_after_absent_open in Hv; [|reflexivity | cbn; lia].
  rewrite view_after_present in Hv.
  cbn [v_active v_start_frame v_frames v_frame_count v_transfer_count
       v_total_evaluated v_history v_frames_without_roi] in Hv.
  unfold Py.len.
  change (List.length (r1 :: rois1)) with (S (List.length rois1)).
  change (List.length (r2 :: rois2)) with (S (List.length rois2)).
  assert (Hact : v_active (view st') = true) by (now rewrite Hv).
  assert (Hfw : v_frames_without_roi (view st') = 0) by (now rewrite Hv).
  assert (Hfr : v_frames (view st')
                = (if v_active (view st) then v_frames (view st) else 0)
                  + Z.of_nat (S (List.length rois1)) + Z.of_nat (S (List.length rois2)))
    by (now rewrite Hv).
  assert (Hst : v_start_frame (view st')
                = (if v_active (view st) then v_start_frame (view st)
                   else v_frame_count (view st))) by (now rewrite Hv).
  assert (Htot : v_total_evaluated (view st') = v_total_evaluated (view st))
    by (now rewrite Hv).
  assert (Hcnt : v_transfer_count (view st') = v_transfer_count (view st))
    by (now rewrite Hv).
  cbn in Hact, Hfw, Hfr, Hst, Htot, Hcnt.
  repeat split; try assumption.
  apply run_stats_unchanged. exact Htot.
Qed.

Lemma short_gap_keeps_transfer_witness :
  current_transfer_frames
    (run default_config initial_state
         (map Some [quiet_roi_frame; quiet_roi_frame] ++ repeat None 7
          ++ map Some [quiet_roi_frame]))
  = 3.
Proof.
  apply (short_gap_keeps_transfer default_config initial_state
           [quiet_roi_frame; quiet_roi_frame] [quiet_roi_frame] 7);
    [reflexivity | discriminate | discriminate].
Defined.

(** ** ACTIVE means: ROI seen within the last [ABSENT_TO_NEW] frames *)

Lemma run_snoc (cfg : Config) (st : State) (fs : list Frame) (f : Frame) :
  run cfg st (fs ++ [f]) = fst (process_frame cfg (run cfg st fs) f).
Proof. rewrite run_app. reflexivity. Qed.

(** Whether some frame among the first [n] of a list has the ROI, by the
    number of frames without ROI at its head. *)
Lemma seen_in_prefix (n : nat) (l : list Frame) :
  existsb roi_found (firstn n l)
  = (leading_absent l <? n)%nat && (leading_absent l <? List.length l)%nat.
Proof.
  revert n. induction l as [|f l IH]; intros n.
  - rewrite firstn_nil. cbn. now rewrite andb_false_r.
  - destruct n as [|n]; [reflexivity|].
    destruct f as [roi|]; [reflexivity|].
    cbn [firstn existsb roi_found orb leading_absent List.length]. rewrite IH.
    reflexivity.
Qed.

(** X3.  Started from the initial state, the tracker is ACTIVE after a run
    of frames exactly when the ROI was found on at least one of the last
    [ABSENT_TO_NEW] frames, and [frames_without_roi] is the number of
    consecutive ROI-absent frames that end the run. *)
Theorem active_iff_roi_seen_recently (cfg : Config) (frames : list Frame) :
  0 < ABSENT_TO_NEW cfg ->
  current_transfer_active (run cfg initial_state frames)
  = roi_seen_within (ABSENT_TO_NEW cfg) frames
  /\ frames_without_roi (run cfg initial_state frames)
     = Z.of_nat (absent_streak frames).
Proof.
  intros HA. unfold roi_seen_within, absent_streak.
  induction frames as [|f frames IH] using rev_ind.
  - cbn. rewrite firstn_nil. auto.
  - destruct IH as [Hact Hfw].
    rewrite run_snoc, rev_app_distr. cbn [rev app].
    pose proof (view_process_frame cfg (run cfg initial_state frames) f) as Hv.
    assert (Ha : current_transfer_active
                   (fst (process_frame cfg (run cfg initial_state frames) f))
                 = v_active (view_step (ABSENT_TO_NEW cfg)
                                       (view (run cfg initial_state frames))
                                       (roi_found f)))
      by (rewrite <- Hv; reflexivity).
    assert (Hf : frames_without_roi
                   (fst (process_frame cfg (run cfg initial_state frames) f))
                 = v_frames_without_roi
                     (view_step (ABSENT_TO_NEW cfg)
                                (view (run cfg initial_state frames))
                                (roi_found f)))
      by (rewrite <- Hv; reflexivity).
    rewrite Ha, Hf. clear Ha Hf Hv.
    destruct (Z.to_nat (ABSENT_TO_NEW cfg)) as [|a] eqn:Ea; [lia|].
    destruct f as [roi|]; [split; reflexivity|].
    rewrite seen_in_prefix in Hact.
    cbn [firstn existsb roi_found orb leading_absent]. rewrite seen_in_prefix.
    unfold view_step. cbn [roi_found view v_active v_frames_without_roi].
    rewrite Hact, Hfw.
    set (t := leading_absent (rev frames)). set (n := List.length (rev frames)).
    split.
    + destruct (Nat.ltb_spec t (S a)), (Nat.ltb_spec t n), (Nat.ltb_spec t a);
        cbn [andb];
        destruct (Z.geb_spec (Z.of_nat t + 1) (ABSENT_TO_NEW cfg));
        cbn; try reflexivity; exfalso; lia.
    + match goal with |- context [if ?c then _ else _] => destruct c end; cbn; lia.
Qed.

Lemma active_iff_roi_seen_recently_witness :
  current_transfer_active
    (run default_config initial_state (Some quiet_roi_frame :: repeat None 7))
  = true
  /\ frames_without_roi
       (run default_config initial_state (Some quiet_roi_frame :: repeat None 7))
     = 7.
Proof.
  exact (active_iff_roi_seen_recently default_config
           (Some quiet_roi_frame :: repeat None 7) eq_refl).
Defined.

(** ** The shape of the transfer history *)

Lemma well_spaced_mono (gap lo lo' hi hi' : Z) (h : list (Z * Z * Z)) :
  lo' <= lo -> hi <= hi' -> well_spaced gap lo h hi -> well_spaced gap lo' h hi'.
Proof.
  revert lo lo'. induction h as [|[[id d] s] h IH]; intros lo lo' Hlo Hhi; cbn.
  - lia.
  - intros (H1 & H2 & H3). repeat split; try lia.
    apply (IH (s + d + gap)); [lia | exact Hhi | exact H3].
Qed.

Lemma well_spaced_snoc (gap lo hi hi' id d : Z) (h : list (Z * Z * Z)) :
  well_spaced gap lo h hi -> 1 <= d -> hi + d + gap <= hi' ->
  well_spaced gap lo (h ++ [(id, d, hi)]) hi'.
Proof.
  revert lo. induction h as [|[[id0 d0] s0] h IH]; intros lo; cbn.
  - intros; repeat split; lia.
  - intros (H1 & H2 & H3) Hd Hhi. repeat split; try lia. now apply IH.
Qed.

Lemma well_spaced_tl (gap hi : Z) (h : list (Z * Z * Z)) :
  0 <= gap -> well_spaced gap 0 h hi -> well_spaced gap 0 (tl h) hi.
Proof.
  intros Hg. destruct h as [|[[id d] s] h]; cbn; [auto|].
  intros (H1 & H2 & H3). apply (well_spaced_mono gap (s + d + gap) 0 hi hi); [lia|lia|auto].
Qed.

Lemma ids_from_snoc (first id d s : Z) (h : list (Z * Z * Z)) :
  ids_from first h -> id = first + Py.len h -> ids_from first (h ++ [(id, d, s)]).
Proof.
  revert first. induction h as [|[[id0 d0] s0] h IH]; intros first Hh Hid;
    cbn [ids_from app] in *.
  - split; [unfold Py.len in Hid; cbn in Hid; lia | exact I].
  - destruct Hh as (H1 & H2). split; [exact H1|].
    apply IH; [exact H2|].
    rewrite Hid. unfold Py.len. cbn [List.length]. lia.
Qed.

Lemma ids_from_tl (first : Z) (h : list (Z * Z * Z)) :
  ids_from first h -> ids_from (first + 1) (tl h).
Proof.
  destruct h as [|[[id d] s] h]; cbn; [auto | intros [_ H]; exact H].
Qed.

Lemma len_tl {A : Type} (l : list A) : l <> [] -> Py.len (tl l) = Py.len l - 1.
Proof.
  destruct l; [congruence|]. intros _. unfold Py.len. cbn [tl List.length]. lia.
Qed.

Lemma tracker_ok_step (A : Z) (v : TrackerView) (roi : bool) :
  0 < A -> tracker_ok A v -> tracker_ok A (view_step A v roi).
Proof.
  intros HA (Hfw & Hc & Hlen & Hids & Hact). unfold tracker_ok, view_step.
  destruct roi.
  - cbn [v_frames_without_roi v_transfer_count v_history v_active v_frames
         v_start_frame v_frame_count].
    repeat (split; [assumption || lia|]).
    destruct (v_active v).
    + destruct Hact as (H1 & H2 & H3 & H4). repeat split; try lia. exact H4.
    + destruct Hact as (H1 & H2). repeat split; try lia. exact H2.
  - destruct (v_active v) eqn:Ea; cbn [andb].
    + destruct Hact as (H1 & H2 & H3 & H4).
      destruct (Z.geb_spec (v_frames_without_roi v + 1) A) as [Hge|Hlt].
      * cbn [v_frames_without_roi v_transfer_count v_history v_active v_frames
             v_start_frame v_frame_count].
        set (x := (v_transfer_count v, v_frames v, v_start_frame v)).
        assert (Hsp : well_spaced A 0 (v_history v ++ [x]) (v_frame_count v + 1)).
        { apply well_spaced_snoc; [exact H4 | lia | lia]. }
        assert (Hid : ids_from (v_transfer_count v - Py.len (v_history v))
                               (v_history v ++ [x])).
        { apply ids_from_snoc; [exact Hids | lia]. }
        assert (Hl : Py.len (v_history v ++ [x]) = Py.len (v_history v) + 1)
          by apply len_app_one.
        destruct (Z.gtb_spec (Py.len (v_history v ++ [x])) 100) as [Hcap|Hcap].
        -- assert (Hne : v_history v ++ [x] <> [])
             by (destruct (v_history v); discriminate).
           rewrite (len_tl _ Hne), Hl.
           repeat (split; [lia|]). split.
           ++ apply ids_from_tl in Hid.
              replace (v_transfer_count v + 1 - (Py.len (v_history v) + 1 - 1))
                with (v_transfer_count v - Py.len (v_history v) + 1) by lia.
              exact Hid.
           ++ split; [reflexivity|]. apply well_spaced_tl; [lia | exact Hsp].
        -- rewrite Hl. repeat (split; [lia|]). split.
           ++ replace (v_transfer_count v + 1 - (Py.len (v_history v) + 1))
                with (v_transfer_count v - Py.len (v_history v)) by lia.
              exact Hid.
           ++ split; [reflexivity | exact Hsp].
      * cbn [v_frames_without_roi v_transfer_count v_history v_active v_frames
             v_start_frame v_frame_count].
        do 4 (split; [assumption || lia|]). repeat split; try lia. exact H4.
    + cbn [v_frames_without_roi v_transfer_count v_history v_active v_frames
           v_start_frame v_frame_count].
      destruct Hact as (H1 & H2).
      do 4 (split; [assumption || lia|]). split; [exact H1|].
      apply (well_spaced_mono A 0 0 (v_frame_count v)); [lia | lia | exact H2].
Qed.

Lemma tracker_ok_run (cfg : Config) (frames : list Frame) :
  0 < ABSENT_TO_NEW cfg ->
  tracker_ok (ABSENT_TO_NEW cfg) (view (run cfg initial_state frames)).
Proof.
  intros HA.
  apply (run_invariant (fun st => tracker_ok (ABSENT_TO_NEW cfg) (view st))).
  - unfold tracker_ok. cbn. repeat split; lia.
  - intros s f Hs. rewrite view_process_frame. now apply tracker_ok_step.
Qed.





(** * Further properties of the count stabilizer *)

Lemma sum_shift (l : list Z) (a : Z) : fold_left Z.add l a = a + Py.sum l.
Proof.
  unfold Py.sum. revert a. induction l as [|x l IH]; intros a; cbn; [lia|].
  rewrite IH, (IH x). lia.
Qed.

Lemma sum_cons (x : Z) (l : list Z) : Py.sum (x :: l) = x + Py.sum l.
Proof. unfold Py.sum at 1. cbn. apply sum_shift. Qed.

(** A sum of counts times non-negative weights lies between the least
    and the greatest count times the sum of the weights. *)
Lemma weighted_bounds (m M : Z) (l : list (Z * Z)) :
  (forall c w, In (c, w) l -> m <= c <= M /\ 0 <= w) ->
  m * Py.sum (map snd l)
  <= Py.sum (map (fun '(count, weight) => count * weight) l)
  <= M * Py.sum (map snd l).
Proof.
  induction l as [|[c w] l IH]; intros H.
  - cbn. lia.
  - cbn [map snd]. rewrite !sum_cons.
    destruct (H c w (or_introl eq_refl)) as [Hc Hw].
    assert (IH' := IH (fun c' w' Hin => H c' w' (or_intror Hin))).
    nia.
Qed.

Lemma weights_In (n : nat) (w : Z) : In w (weights n) -> 1 <= w.
Proof.
  unfold weights. intros H. apply in_map_iff in H. destruct H as (i & <- & _). lia.
Qed.

Lemma weights_length (n : nat) : List.length (weights n) = n.
Proof. unfold weights. now rewrite length_map, length_seq. Qed.

Lemma map_snd_combine {A B : Type} (l : list A) (l' : list B) :
  List.length l = List.length l' -> map snd (combine l l') = l'.
Proof.
  revert l'. induction l as [|a l IH]; intros [|b l'] H; try discriminate; cbn.
  - reflexivity.
  - f_equal. apply IH. now injection H.
Qed.

Lemma sum_weights_pos (n : nat) : (0 < n)%nat -> 0 < Py.sum (weights n).
Proof.
  intros Hn. assert (H : forall l, (forall w, In w l -> 1 <= w) -> l <> [] -> 0 < Py.sum l).
  { induction l as [|x l IH]; intros Hl Hne; [congruence|].
    rewrite sum_cons. pose proof (Hl x (or_introl eq_refl)).
    destruct l as [|y l]; [cbn; lia|].
    assert (0 < Py.sum (y :: l)) by (apply IH; [intros w Hw; apply Hl; now right | discriminate]).
    lia. }
  apply H; [apply weights_In|].
  intros E. apply (f_equal (@List.length Z)) in E. rewrite weights_length in E.
  cbn in E. lia.
Qed.

(** The weighted moving average lies between the least and the greatest
    count of a non-empty history. *)
Lemma moving_average_bounds (m M : Z) (history : list Z) :
  history <> [] ->
  (forall x, In x history -> m <= x <= M) ->
  (inject_Z m
   <= inject_Z (weighted_sum history) / inject_Z (Py.sum (weights (List.length history)))
   <= inject_Z M)%Q.
Proof.
  intros Hne Hb.
  set (ws := weights (List.length history)).
  assert (Hlen : List.length history = List.length ws)
    by (unfold ws; now rewrite weights_length).
  assert (Hpos : 0 < Py.sum ws).
  { apply sum_weights_pos. destruct history; [congruence | cbn; lia]. }
  pose proof (weighted_bounds m M (combine history ws)) as Hw.
  rewrite (map_snd_combine _ _ Hlen) in Hw.
  fold (weighted_sum history) in Hw. unfold weighted_sum. fold ws.
  assert (Hw' : m * Py.sum ws
                <= Py.sum (map (fun '(count, weight) => count * weight) (combine history ws))
                <= M * Py.sum ws).
  { apply Hw. intros c w Hin. split.
    - apply Hb. eapply in_combine_l; eauto.
    - pose proof (weights_In _ w (in_combine_r _ _ _ _ Hin)). lia. }
  pose proof (inject_Z_pos _ Hpos) as Hq.
  split.
  - apply Qle_shift_div_l; [exact Hq|].
    rewrite <- inject_Z_mult. rewrite <- Zle_Qle. lia.
  - apply Qle_shift_div_r; [exact Hq|].
    rewrite <- inject_Z_mult. rewrite <- Zle_Qle. lia.
Qed.

Lemma previous_of_In (history : list Z) :
  1 < Py.len history -> In (previous_of history) history.
Proof.
  intros H. unfold previous_of. apply nth_In. unfold Py.len in H. lia.
Qed.

(** Rounding to the nearest integer stays between integer bounds. *)
Lemma round_between (m M : Z) (q : Q) :
  (inject_Z m <= q <= inject_Z M)%Q -> m <= Py.round q <= M.
Proof.
  intros [Hm HM]. unfold Py.round.
  assert (Hfl : m <= Qfloor q).
  { rewrite <- (Qfloor_Z m). now apply Qfloor_resp_le. }
  assert (HfM : Qfloor q <= M).
  { rewrite <- (Qfloor_Z M). now apply Qfloor_resp_le. }
  assert (Hup : (inject_Z (Qfloor q) < q)%Q -> Qfloor q + 1 <= M).
  { intros Hlt. assert (Qfloor q < M); [|lia].
    rewrite Zlt_Qlt. eapply Qlt_le_trans; eauto. }
  assert (Hhalf : (1 # 2 <= q - inject_Z (Qfloor q))%Q -> (inject_Z (Qfloor q) < q)%Q).
  { intros H. apply Qlt_minus_iff.
    eapply Qlt_le_trans; [|exact H]. reflexivity. }
  destruct (Qcompare (q - inject_Z (Qfloor q)) (1 # 2)) eqn:E.
  - apply Qeq_alt in E. destruct (Z.even (Qfloor q)); [lia|].
    split; [lia|]. apply Hup, Hhalf. rewrite E. apply Qle_refl.
  - lia.
  - apply Qgt_alt in E. split; [lia|]. apply Hup, Hhalf. now apply Qlt_le_weak.
Qed.

Lemma float_max_ge_one (x : Q) : (1 <= float_max 1 x)%Q.
Proof. apply float_max_lower. Qed.

(** The value handed to [round] lies between the bounds of the history. *)
Lemma smoothed_between (m M : Z) (history : list Z) :
  history <> [] ->
  (forall x, In x history -> m <= x <= M) ->
  (inject_Z m <= smoothed history <= inject_Z M)%Q.
Proof.
  intros Hne Hb. pose proof (moving_average_bounds m M history Hne Hb) as Havg.
  unfold smoothed.
  set (avg := (inject_Z (weighted_sum history)
               / inject_Z (Py.sum (weights (List.length history))))%Q) in *.
  destruct (Z.gtb_spec (Py.len history) 1) as [Hlen|Hlen]; [|exact Havg].
  pose proof (Hb _ (previous_of_In history Hlen)) as Hp.
  set (p := previous_of history) in *.
  destruct (Py.gt (Qabs (avg - inject_Z p)) _) eqn:Ejump; [|exact Havg].
  apply gt_true_iff in Ejump.
  assert (Hone : (1 < Qabs (avg - inject_Z p))%Q).
  { eapply Qle_lt_trans; [apply float_max_ge_one | exact Ejump]. }
  destruct (Py.gt avg (inject_Z p)) eqn:Edir.
  - apply gt_true_iff in Edir.
    rewrite Qabs_pos in Hone by (apply Qlt_le_weak; now apply Qlt_minus_iff in Edir).
    assert (Hlt : (inject_Z (p + 1) < avg)%Q).
    { rewrite inject_Z_plus. apply Qlt_minus_iff.
      apply Qlt_minus_iff in Hone.
      setoid_replace (avg + - (inject_Z p + inject_Z 1))%Q
        with (avg - inject_Z p + - (1))%Q by ring. exact Hone. }
    split.
    + rewrite <- Zle_Qle. lia.
    + assert (p + 1 < M); [|rewrite <- Zle_Qle; lia].
      rewrite Zlt_Qlt. eapply Qlt_le_trans; [exact Hlt | apply Havg].
  - apply gt_false_iff in Edir.
    rewrite Qabs_neg in Hone by (now apply Qle_minus_iff in Edir; apply Qle_minus_iff;
                                 setoid_replace (0 + - (avg - inject_Z p))%Q
                                   with (inject_Z p + - avg)%Q by ring).
    assert (Hlt : (avg < inject_Z (p + -1))%Q).
    { rewrite inject_Z_plus. apply Qlt_minus_iff.
      apply Qlt_minus_iff in Hone.
      setoid_replace (inject_Z p + inject_Z (-1) + - avg)%Q
        with (- (avg - inject_Z p) + - (1))%Q by (change (inject_Z (-1)) with (- (1))%Q; ring).
      exact Hone. }
    split.
    + assert (m < p + -1); [|rewrite <- Zle_Qle; lia].
      rewrite Zlt_Qlt. eapply Qle_lt_trans; [apply Havg | exact Hlt].
    + rewrite <- Zle_Qle. lia.
Qed.

Lemma len_skipn {A : Type} (n : nat) (l : list A) :
  Py.len (skipn n l) = Z.max 0 (Py.len l - Z.of_nat n).
Proof. unfold Py.len. rewrite length_skipn. lia. Qed.

Lemma slice_from_suffix {A : Type} (start : Z) (l : list A) :
  exists dropped, l = dropped ++ Py.slice_from start l.
Proof.
  unfold Py.slice_from. destruct (start <? 0);
    eexists; symmetry; apply firstn_skipn.
Qed.

(** The history kept after a call is a suffix of the old history with the
    new count appended. *)
Lemma push_history_suffix (W : Z) (history : list Z) (c : Z) :
  exists dropped, history ++ [c] = dropped ++ push_history W history c.
Proof.
  unfold push_history. destruct (Py.len (history ++ [c]) >? W).
  - apply slice_from_suffix.
  - exists []. reflexivity.
Qed.

Lemma push_history_In (W : Z) (history : list Z) (c x : Z) :
  In x (push_history W history c) -> In x (history ++ [c]).
Proof.
  destruct (push_history_suffix W history c) as (dropped & ->).
  intros H. apply in_or_app. now right.
Qed.

Lemma push_history_len (W : Z) (history : list Z) (c : Z) :
  0 < W -> Py.len (push_history W history c) = Z.min (Py.len history + 1) W.
Proof.
  intros HW. unfold push_history. rewrite len_app_one.
  destruct (Z.gtb_spec (Py.len history + 1) W) as [Hgt|Hle];
    [|rewrite len_app_one; lia].
  unfold Py.slice_from. destruct (Z.ltb_spec (- W) 0); [|lia].
  rewrite len_skipn, len_app_one. lia.
Qed.



(** What [detect_class] does to the history of its class. *)
Lemma detect_class_history (enabled : bool) (W : Z) (history : list Z)
      (result : option ModelOutput) :
  snd (fst (detect_class enabled W history result)) = history
  \/ exists c, snd (fst (detect_class enabled W history result)) = push_history W history c.
Proof.
  unfold detect_class. destruct enabled; [|now left]. right.
  destruct (validate result).
  - eexists. unfold _stabilize_detection_count.
    destruct (Py.len _ >? 0); reflexivity.
  - exists 0. unfold _stabilize_detection_count.
    destruct (Py.len _ >? 0); reflexivity.
Qed.

Lemma detect_class_history_len (enabled : bool) (W : Z) (history : list Z)
      (result : option ModelOutput) :
  0 < W -> Py.len history <= W ->
  Py.len (snd (fst (detect_class enabled W history result))) <= W.
Proof.
  intros HW Hlen.
  destruct (detect_class_history enabled W history result) as [->|(c & ->)]; [exact Hlen|].
  rewrite push_history_len by exact HW. lia.
Qed.

(** The detection histories after one frame. *)
Lemma process_frame_histories (cfg : Config) (st : State) (f : Frame) :
  match f with
  | Some roi =>
      dh_smudge (detection_history (fst (process_frame cfg st f)))
      = snd (fst (detect_class (enabled_smudge cfg) (stabilization_window cfg)
                               (dh_smudge (detection_history st)) (smudge_result roi)))
      /\ dh_simbolos (detection_history (fst (process_frame cfg st f)))
         = snd (fst (detect_class (enabled_simbolos cfg) (stabilization_window cfg)
                                  (dh_simbolos (detection_history st))
                                  (simbolos_result roi)))
      /\ dh_blackdot (detection_history (fst (process_frame cfg st f)))
         = snd (fst (detect_class (enabled_blackdot cfg) (stabilization_window cfg)
                                  (dh_blackdot (detection_history st))
                                  (blackdot_result roi)))
  | None => detection_history (fst (process_frame cfg st f)) = detection_history st
  end.
Proof.
  destruct f as [roi|]; unfold process_frame.
  - unfold roi_present.
    destruct (detect_class _ _ _ (smudge_result roi)) as [[ks hs] cs].
    destruct (detect_class _ _ _ (simbolos_result roi)) as [[kb hb] cb].
    destruct (detect_class _ _ _ (blackdot_result roi)) as [[kk hk] ck].
    destruct (_ ++ _ ++ _); cbn; auto.
  - unfold roi_absent. cbv zeta.
    destruct (current_transfer_active (count_absent st) && _); reflexivity.
Qed.

(** X7.  With a positive stabilization window [W], each call keeps the last
    [min(len + 1, W)] raw counts, newest last, and in every state reached
    from the initial one no detection history is longer than [W].  With
    [W = 0] nothing is ever dropped: Python's [h[-0:]] is the whole list. *)
Theorem detection_history_bounded :
  (forall (W : Z) (history : list Z) (c : Z),
      0 < W ->
      Py.len (fst (_stabilize_detection_count W history c))
      = Z.min (Py.len history + 1) W
      /\ exists dropped,
          history ++ [c] = dropped ++ fst (_stabilize_detection_count W history c))
  /\ (forall (cfg : Config) (frames : list Frame),
         0 < stabilization_window cfg ->
         let dh := detection_history (run cfg initial_state frames) in
         Py.len (dh_smudge dh) <= stabilization_window cfg
         /\ Py.len (dh_simbolos dh) <= stabilization_window cfg
         /\ Py.len (dh_blackdot dh) <= stabilization_window cfg)
  /\ (forall (history : list Z) (c : Z),
         fst (_stabilize_detection_count 0 history c) = history ++ [c]).
Proof.
  split; [|split].
  - intros W history c HW.
    assert (E : fst (_stabilize_detection_count W history c) = push_history W history c).
    { unfold _stabilize_detection_count. destruct (Py.len _ >? 0); reflexivity. }
    rewrite E. split; [now apply push_history_len | apply push_history_suffix].
  - intros cfg frames HW. cbv zeta.
    apply (run_invariant
             (fun st => Py.len (dh_smudge (detection_history st)) <= stabilization_window cfg
                        /\ Py.len (dh_simbolos (detection_history st))
                           <= stabilization_window cfg
                        /\ Py.len (dh_blackdot (detection_history st))
                           <= stabilization_window cfg)).
    + cbn. lia.
    + intros s f (H1 & H2 & H3).
      pose proof (process_frame_histories cfg s f) as Hh. destruct f as [roi|].
      * destruct Hh as (-> & -> & ->).
        repeat split; apply detect_class_history_len; assumption.
      * rewrite Hh. auto.
  - intros history c. unfold _stabilize_detection_count.
    assert (E : push_history 0 history c = history ++ [c]).
    { unfold push_history. rewrite len_app_one.
      destruct (Z.gtb_spec (Py.len history + 1) 0); reflexivity. }
    rewrite E. destruct (Py.len _ >? 0); reflexivity.
Qed.

Lemma detection_history_bounded_witness :
  Py.len (fst (_stabilize_detection_count 3 [1; 2; 3] 4)) = Z.min (Py.len [1; 2; 3] + 1) 3
  /\ Py.len (dh_smudge (detection_history after_one_absent_frame)) <= 8.
Proof.
  split.
  - apply (proj1 detection_history_bounded 3 [1; 2; 3] 4). reflexivity.
  - apply (proj1 (proj2 detection_history_bounded) default_config
                 [Some quiet_roi_frame; None]). reflexivity.
Defined.

(** * Further properties of [process_frame] *)

Lemma dict_get_not_key {V : Type} (k : string) (d : list (string * V)) :
  ~ In k (dict_keys d) -> dict_get k d = None.
Proof.
  induction d as [|[k' v] d IH]; cbn; [reflexivity|].
  intros H. destruct (String.eqb_spec k' k) as [->|Hne]; [tauto | apply IH; tauto].
Qed.

(** Both passes return a dictionary with the keys of their input. *)
Lemma exclusive_keys (cp : list string) (d : DetectionsByClass) :
  dict_keys (_apply_exclusive_filtering cp d) = dict_keys d.
Proof.
  unfold _apply_exclusive_filtering. rewrite rebuild_grouped. apply dict_keys_grouped.
Qed.

Lemma general_keys (cp : list string) (thr : Q) (d : DetectionsByClass) :
  dict_keys (_filter_overlapping_detections cp thr d) = dict_keys d.
Proof.
  unfold _filter_overlapping_detections. rewrite dict_empty_like_grouped.
  destruct (general_fold_grouped thr (other_detections_flat d) (dict_keys d)
              (sort_candidates (collect_all cp d)) []) as (kept & -> & _).
  apply dict_keys_grouped.
Qed.

Lemma resolve_keys (cp : list string) (thr : Q) (d : DetectionsByClass) :
  dict_keys (resolve cp thr d) = dict_keys d.
Proof. unfold resolve. now rewrite general_keys, exclusive_keys. Qed.

Lemma resolve_missing_key (cp : list string) (thr : Q) (d : DetectionsByClass)
      (k : string) :
  ~ In k (dict_keys d) -> retained k (resolve cp thr d) = [].
Proof.
  intros H. unfold retained. rewrite dict_get_not_key; [reflexivity|].
  now rewrite resolve_keys.
Qed.

Lemma class_entry_keys (name k : string) (kept : option ModelOutput) :
  In k (dict_keys (class_entry name kept)) -> k = name.
Proof.
  unfold class_entry. destruct kept as [r|]; [|contradiction].
  destruct (Py.len (cls r) >? 0); cbn; [|contradiction].
  intros [H|[]]. now symmetry.
Qed.

(** The counts a frame with the ROI reports and records: with [d] the
    dictionary built from the results kept, they are the stabilized counts
    when [d] is empty and the numbers of detections the resolver retains
    otherwise. *)
Lemma process_frame_roi_counts (cfg : Config) (st : State) (roi : RoiFrame) :
  let W := stabilization_window cfg in
  let dh := detection_history st in
  let r_s := detect_class (enabled_smudge cfg) W (dh_smudge dh) (smudge_result roi) in
  let r_b := detect_class (enabled_simbolos cfg) W (dh_simbolos dh) (simbolos_result roi) in
  let r_k := detect_class (enabled_blackdot cfg) W (dh_blackdot dh) (blackdot_result roi) in
  let d := class_entry "smudge" (fst (fst r_s))
           ++ class_entry "simbolos" (fst (fst r_b))
           ++ class_entry "blackdot" (fst (fst r_k)) in
  let count (class_name : string) (stabilized : Z) :=
    match d with
    | [] => stabilized
    | _ :: _ => Py.len (retained class_name
                                 (resolve (class_priority cfg) (overlap_threshold cfg) d))
    end in
  let st' := fst (process_frame cfg st (Some roi)) in
  let stats := snd (process_frame cfg st (Some roi)) in
  stat_smudge stats = count "smudge"%string (snd r_s)
  /\ stat_simbolos stats = count "simbolos"%string (snd r_b)
  /\ stat_blackdot stats = count "blackdot"%string (snd r_k)
  /\ cts_smudge (current_transfer_stats st')
     = cts_smudge (current_transfer_stats st) ++ [stat_smudge stats]
  /\ cts_simbolos (current_transfer_stats st')
     = cts_simbolos (current_transfer_stats st) ++ [stat_simbolos stats]
  /\ cts_blackdot (current_transfer_stats st')
     = cts_blackdot (current_transfer_stats st) ++ [stat_blackdot stats].
Proof.
  cbv zeta. unfold process_frame, roi_present.
  destruct (detect_class _ _ _ (smudge_result roi)) as [[ks hs] cs].
  destruct (detect_class _ _ _ (simbolos_result roi)) as [[kb hb] cb].
  destruct (detect_class _ _ _ (blackdot_result roi)) as [[kk hk] ck].
  cbn [fst snd].
  destruct (_ ++ _ ++ _) as [|e dbc];
    cbv zeta; unfold record_ok_no;
    cbn [fst snd current_transfer_active current_transfer_stats
         stat_smudge stat_simbolos stat_blackdot];
    (do 3 (split; [reflexivity|]));
    match goal with
    | |- context [append_ok_no ?c ?x] =>
        destruct (append_ok_no_spec c x) as [(U1 & U2 & U3) _]
    end;
    rewrite U1, U2, U3;
    cbn [set_last_counts append_counts cts_smudge cts_simbolos cts_blackdot];
    rewrite ?set_last_appended; auto.
Qed.

Lemma detect_class_disabled (W : Z) (history : list Z) (result : option ModelOutput) :
  detect_class false W history result = (None, history, 0).
Proof. reflexivity. Qed.

(** X8.  A disabled sub-detector contributes nothing to a frame, whatever
    the other two report: its stabilizer history is left as it was, the
    count reported for its class is [0] and a [0] is appended to its
    per-frame sequence. *)
Theorem disabled_detector_reports_nothing (cfg : Config) (st : State) (roi : RoiFrame) :
  let st' := fst (process_frame cfg st (Some roi)) in
  let stats := snd (process_frame cfg st (Some roi)) in
  (enabled_smudge cfg = false ->
   dh_smudge (detection_history st') = dh_smudge (detection_history st)
   /\ stat_smudge stats = 0
   /\ cts_smudge (current_transfer_stats st')
      = cts_smudge (current_transfer_stats st) ++ [0])
  /\ (enabled_simbolos cfg = false ->
      dh_simbolos (detection_history st') = dh_simbolos (detection_history st)
      /\ stat_simbolos stats = 0
      /\ cts_simbolos (current_transfer_stats st')
         = cts_simbolos (current_transfer_stats st) ++ [0])
  /\ (enabled_blackdot cfg = false ->
      dh_blackdot (detection_history st') = dh_blackdot (detection_history st)
      /\ stat_blackdot stats = 0
      /\ cts_blackdot (current_transfer_stats st')
         = cts_blackdot (current_transfer_stats st) ++ [0]).
Proof.
  cbv zeta.
  pose proof (process_frame_histories cfg st (Some roi)) as (Hs & Hb & Hk).
  pose proof (process_frame_roi_counts cfg st roi) as Hc. cbv zeta in Hc.
  destruct Hc as (Cs & Cb & Ck & Ss & Sb & Sk).
  split; [|split]; intros Hoff; rewrite Hoff in *;
    rewrite ?detect_class_disabled in *; cbn [fst snd class_entry app] in *.
  - split; [exact Hs|].
    assert (Z0 : stat_smudge (snd (process_frame cfg st (Some roi))) = 0).
    { rewrite Cs. destruct (_ ++ _) as [|e dbc] eqn:E; [reflexivity|].
      rewrite resolve_missing_key; [reflexivity|]. rewrite <- E.
      unfold dict_keys. rewrite map_app. intros Hin. apply in_app_or in Hin.
      destruct Hin as [Hin|Hin]; apply class_entry_keys in Hin; discriminate. }
    split; [exact Z0 | now rewrite Ss, Z0].
  - split; [exact Hb|].
    assert (Z0 : stat_simbolos (snd (process_frame cfg st (Some roi))) = 0).
    { rewrite Cb. destruct (_ ++ _) as [|e dbc] eqn:E; [reflexivity|].
      rewrite resolve_missing_key; [reflexivity|]. rewrite <- E.
      unfold dict_keys. rewrite map_app. intros Hin. apply in_app_or in Hin.
      destruct Hin as [Hin|Hin]; apply class_entry_keys in Hin; discriminate. }
    split; [exact Z0 | now rewrite Sb, Z0].
  - split; [exact Hk|].
    assert (Z0 : stat_blackdot (snd (process_frame cfg st (Some roi))) = 0).
    { rewrite Ck. rewrite app_nil_r in *.
      destruct (_ ++ _) as [|e dbc] eqn:E; [reflexivity|].
      rewrite resolve_missing_key; [reflexivity|]. rewrite <- E.
      unfold dict_keys. rewrite map_app. intros Hin. apply in_app_or in Hin.
      destruct Hin as [Hin|Hin]; apply class_entry_keys in Hin; discriminate. }
    split; [exact Z0 | now rewrite Sk, Z0].
Qed.

Lemma disabled_detector_reports_nothing_witness :
  stat_smudge (snd (process_frame smudge_off_config initial_state
                                  (Some one_blackdot_frame))) = 0
  /\ dh_smudge (detection_history
                  (fst (process_frame smudge_off_config initial_state
                                      (Some one_blackdot_frame)))) = [].
Proof.
  destruct (proj1 (disabled_detector_reports_nothing smudge_off_config initial_state
                     one_blackdot_frame) eq_refl) as (H1 & H2 & _).
  split; [exact H2 | exact H1].
Defined.

Lemma detect_class_kept (enabled : bool) (W : Z) (history : list Z)
      (result : option ModelOutput) :
  fst (fst (detect_class enabled W history result)) = kept_result enabled result.
Proof.
  unfold detect_class, kept_result. destruct enabled; [|reflexivity]. cbn [andb].
  destruct (validate result);
    destruct (_stabilize_detection_count _ _ _); reflexivity.
Qed.

Lemma detect_class_count (W : Z) (history : list Z) (result : option ModelOutput) :
  kept_result true result = None ->
  snd (detect_class true W history result)
  = snd (_stabilize_detection_count W history 0).
Proof.
  unfold detect_class, kept_result. cbn [andb]. destruct (validate result) eqn:E.
  - intros ->. cbn in E. discriminate.
  - intros _. destruct (_stabilize_detection_count _ _ _); reflexivity.
Qed.

(** X9.  On a frame where some enabled sub-detector returns a validated
    result, the counts reported and recorded for all three classes are the
    numbers of detections the resolver retains: the stabilized counts
    computed earlier in the frame are overwritten.  Only when no detector
    has a validated result are the reported counts those of the stabilizer,
    fed a raw count of [0] for each enabled class. *)
Theorem frame_counts_are_resolved_counts (cfg : Config) (st : State) (roi : RoiFrame) :
  let stats := snd (process_frame cfg st (Some roi)) in
  let resolved :=
    resolve (class_priority cfg) (overlap_threshold cfg) (frame_detections cfg roi) in
  (frame_detections cfg roi <> [] ->
   stat_smudge stats = Py.len (retained "smudge" resolved)
   /\ stat_simbolos stats = Py.len (retained "simbolos" resolved)
   /\ stat_blackdot stats = Py.len (retained "blackdot" resolved))
  /\ (frame_detections cfg roi = [] ->
      enabled_smudge cfg = true -> enabled_simbolos cfg = true ->
      enabled_blackdot cfg = true ->
      stat_smudge stats
      = snd (_stabilize_detection_count (stabilization_window cfg)
                                        (dh_smudge (detection_history st)) 0)
      /\ stat_simbolos stats
         = snd (_stabilize_detection_count (stabilization_window cfg)
                                           (dh_simbolos (detection_history st)) 0)
      /\ stat_blackdot stats
         = snd (_stabilize_detection_count (stabilization_window cfg)
                                           (dh_blackdot (detection_history st)) 0)).
Proof.
  cbv zeta.
  pose proof (process_frame_roi_counts cfg st roi) as Hc. cbv zeta in Hc.
  rewrite !detect_class_kept in Hc. fold (frame_detections cfg roi) in Hc.
  destruct Hc as (Cs & Cb & Ck & _).
  split.
  - intros Hne. destruct (frame_detections cfg roi) as [|e dbc]; [congruence|].
    auto.
  - intros Hnil Es Eb Ek. rewrite Hnil in Cs, Cb, Ck.
    rewrite Cs, Cb, Ck, Es, Eb, Ek.
    unfold frame_detections in Hnil.
    apply app_eq_nil in Hnil. destruct Hnil as [Hs Hnil].
    apply app_eq_nil in Hnil. destruct Hnil as [Hb Hk].
    rewrite Es in Hs. rewrite Eb in Hb. rewrite Ek in Hk.
    assert (Hnone : forall name result,
               class_entry name (kept_result true result) = [] ->
               kept_result true result = None).
    { intros name result. unfold kept_result, class_entry. cbn [andb].
      destruct (validate result) eqn:E; [|reflexivity].
      destruct result as [r|]; [|reflexivity].
      cbn in E. destruct (Z.eqb_spec (Py.len (cls r)) 0); [discriminate|].
      destruct (Z.gtb_spec (Py.len (cls r)) 0); [discriminate|].
      unfold Py.len in *. lia. }
    rewrite !detect_class_count by (eapply Hnone; eauto). auto.
Qed.

Lemma frame_counts_are_resolved_counts_witness :
  stat_blackdot (snd (process_frame default_config initial_state (Some one_blackdot_frame)))
  = Py.len (retained "blackdot"
              (resolve default_class_priority default_overlap_threshold
                       (frame_detections default_config one_blackdot_frame))).
Proof.
  apply (proj1 (frame_counts_are_resolved_counts default_config initial_state
                  one_blackdot_frame)).
  discriminate.
Defined.

(** * Runtime controls *)

Lemma dict_set_keys {V : Type} (k : string) (v : V) (d : list (string * V)) :
  dict_keys (dict_set k v d) = dict_keys d.
Proof.
  unfold dict_keys, dict_set. rewrite map_map. apply map_ext.
  intros [k' v']. destruct (String.eqb k' k); reflexivity.
Qed.

Lemma dict_get_set {V : Type} (k k' : string) (v : V) (d : list (string * V)) :
  dict_get k' (dict_set k v d)
  = if String.eqb k' k then option_map (fun _ => v) (dict_get k' d) else dict_get k' d.
Proof.
  unfold dict_set. induction d as [|[k0 v0] d IH]; cbn [map dict_get].
  - destruct (String.eqb k' k); reflexivity.
  - destruct (String.eqb_spec k0 k) as [->|Hne]; cbn [dict_get option_map].
    + destruct (String.eqb_spec k k') as [->|Hne'].
      * now rewrite String.eqb_refl.
      * rewrite IH. reflexivity.
    + destruct (String.eqb_spec k0 k') as [->|Hne'].
      * destruct (String.eqb_spec k' k); [congruence | reflexivity].
      * rewrite IH. reflexivity.
Qed.

Lemma str_in_In (k : string) (l : list string) : str_in k l = true <-> In k l.
Proof.
  unfold str_in. rewrite existsb_exists. split.
  - intros (x & Hx & E). apply String.eqb_eq in E. now subst.
  - intros H. exists k. split; [exact H | apply String.eqb_refl].
Qed.

Lemma set_all_keys (b : bool) (ks : list string) (m : ModelEnabled) :
  dict_keys (fold_left (fun acc model => dict_set model b acc) ks m) = dict_keys m.
Proof.
  revert m. induction ks as [|k ks IH]; intros m; cbn [fold_left]; [reflexivity|].
  now rewrite IH, dict_set_keys.
Qed.

Lemma set_all_get (b : bool) (ks : list string) (m : ModelEnabled) (k : string) :
  dict_get k (fold_left (fun acc model => dict_set model b acc) ks m)
  = if str_in k ks then option_map (fun _ => b) (dict_get k m) else dict_get k m.
Proof.
  revert m. induction ks as [|k0 ks IH]; intros m; [reflexivity|].
  cbn [fold_left]. rewrite IH, dict_get_set. unfold str_in. cbn [existsb].
  fold (str_in k ks).
  destruct (String.eqb k k0); destruct (str_in k ks); cbn;
    destruct (dict_get k m); reflexivity.
Qed.

Lemma dict_get_key {V : Type} (k : string) (d : list (string * V)) :
  In k (dict_keys d) -> exists v, dict_get k d = Some v.
Proof.
  induction d as [|[k' v] d IH]; cbn; [tauto|].
  intros H. destruct (String.eqb_spec k' k) as [->|Hne]; [eauto|].
  destruct H as [H|H]; [congruence | auto].
Qed.

(** X10.  The model switches behave as a fixed set of named flags: none of
    the four operations adds or removes a name; [set_model_enabled] on a
    known name makes exactly that flag read back as set and leaves the
    others alone, and on an unknown name changes nothing;
    [enable_all_models] and [disable_all_models] make every flag read back
    [True], respectively [False]. *)
Theorem model_switches (m : ModelEnabled) (name : string) (b : bool) :
  dict_keys (set_model_enabled name b m) = dict_keys m
  /\ dict_keys (enable_all_models m) = dict_keys m
  /\ dict_keys (disable_all_models m) = dict_keys m
  /\ (In name (dict_keys m) ->
      dict_get name (get_model_status (set_model_enabled name b m)) = Some b)
  /\ (~ In name (dict_keys m) -> set_model_enabled name b m = m)
  /\ (forall other, other <> name ->
                    dict_get other (set_model_enabled name b m) = dict_get other m)
  /\ (forall k, In k (dict_keys m) ->
                dict_get k (enable_all_models m) = Some true
                /\ dict_get k (disable_all_models m) = Some false).
Proof.
  unfold set_model_enabled, get_model_status, enable_all_models, disable_all_models.
  repeat split.
  - destruct (str_in name (dict_keys m)); [apply dict_set_keys | reflexivity].
  - apply set_all_keys.
  - apply set_all_keys.
  - intros Hin. rewrite (proj2 (str_in_In _ _) Hin), dict_get_set, String.eqb_refl.
    destruct (dict_get_key _ _ Hin) as (v & ->). reflexivity.
  - intros Hnot. destruct (str_in name (dict_keys m)) eqn:E; [|reflexivity].
    apply str_in_In in E. contradiction.
  - intros other Hne. destruct (str_in name (dict_keys m)); [|reflexivity].
    rewrite dict_get_set. destruct (String.eqb_spec other name); [congruence | reflexivity].
  - rewrite set_all_get, (proj2 (str_in_In _ _) H).
    destruct (dict_get_key _ _ H) as (v & ->). reflexivity.
  - rewrite set_all_get, (proj2 (str_in_In _ _) H).
    destruct (dict_get_key _ _ H) as (v & ->). reflexivity.
Qed.

Lemma model_switches_witness :
  dict_get "smudge" (get_model_status (set_model_enabled "smudge" false initial_model_enabled))
  = Some false
  /\ set_model_enabled "roi" false initial_model_enabled = initial_model_enabled
  /\ dict_get "seg" (disable_all_models initial_model_enabled) = Some false.
Proof.
  destruct (model_switches initial_model_enabled "smudge" false)
    as (_ & _ & _ & Hset & _ & _ & Hall).
  destruct (model_switches initial_model_enabled "roi" false)
    as (_ & _ & _ & _ & Hunknown & _).
  split; [apply Hset; cbn; auto|].
  split; [apply Hunknown; cbn; intuition discriminate|].
  apply Hall. cbn. auto.
Defined.

(** * Further properties of the resolver *)

(** ** The sort key is a strict weak order *)

Lemma key_lt_spec (a b : Candidate) :
  key_lt a b = true
  <-> priority a < priority b
      \/ (priority a = priority b /\ (- cand_confidence a < - cand_confidence b)%Q).
Proof.
  unfold key_lt. rewrite orb_true_iff, andb_true_iff, Z.ltb_lt, Z.eqb_eq.
  fold (Py.gt (- cand_confidence b) (- cand_confidence a)). rewrite gt_true_iff.
  tauto.
Qed.

Lemma key_lt_false_spec (a b : Candidate) :
  key_lt a b = false
  <-> priority b < priority a
      \/ (priority a = priority b /\ (- cand_confidence b <= - cand_confidence a)%Q).
Proof.
  split.
  - intros H. destruct (Z.lt_trichotomy (priority a) (priority b)) as [Hlt|[Heq|Hgt]].
    + assert (key_lt a b = true) by (apply key_lt_spec; now left). congruence.
    + right. split; [exact Heq|].
      destruct (Qlt_le_dec (- cand_confidence a) (- cand_confidence b)) as [Hq|Hq];
        [|exact Hq].
      assert (key_lt a b = true) by (apply key_lt_spec; now right). congruence.
    + now left.
  - intros H. destruct (key_lt a b) eqn:E; [|reflexivity].
    apply key_lt_spec in E. destruct H as [H|[H1 H2]], E as [E|[E1 E2]]; try lia.
    exfalso. exact (Qlt_not_le _ _ E2 H2).
Qed.

Lemma key_lt_asym (a b : Candidate) : key_lt a b = true -> key_lt b a = false.
Proof.
  intros H. apply key_lt_spec in H. apply key_lt_false_spec.
  destruct H as [H|[H1 H2]]; [now left|].
  right. split; [now symmetry | now apply Qlt_le_weak].
Qed.

Lemma key_lt_cotrans (z y x : Candidate) :
  key_lt z x = true -> key_lt y x = false -> key_lt z y = true.
Proof.
  intros Hzx Hyx. apply key_lt_spec in Hzx. apply key_lt_false_spec in Hyx.
  apply key_lt_spec.
  destruct Hzx as [H|[H1 H2]], Hyx as [G|[G1 G2]]; try (left; lia).
  right. split; [lia|]. eapply Qlt_le_trans; eauto.
Qed.

Lemma key_ordered_trans (a b c : Candidate) :
  key_ordered a b -> key_ordered b c -> key_ordered a c.
Proof.
  unfold key_ordered. intros Hab Hbc.
  destruct (key_lt c a) eqn:E; [|reflexivity].
  pose proof (key_lt_cotrans c b a E Hab). congruence.
Qed.

(** ** Insertion sort on the key *)

Lemma sort_insert_sorted (x : Candidate) (l : list Candidate) :
  StronglySorted key_ordered l -> StronglySorted key_ordered (sort_insert x l).
Proof.
  induction l as [|y l IH]; intros Hs; cbn.
  - constructor; [constructor | constructor].
  - inversion Hs as [|? ? Hl Hy]; subst.
    destruct (key_lt y x) eqn:E.
    + constructor; [now apply IH|].
      apply Forall_forall. intros z Hz. apply sort_insert_In in Hz.
      destruct Hz as [->|Hz].
      * unfold key_ordered. now apply key_lt_asym.
      * rewrite Forall_forall in Hy. now apply Hy.
    + constructor; [exact Hs|].
      constructor; [exact E|].
      apply Forall_forall. intros z Hz. rewrite Forall_forall in Hy.
      apply (key_ordered_trans x y z); [exact E | now apply Hy].
Qed.

Lemma sort_candidates_sorted (l : list Candidate) :
  StronglySorted key_ordered (sort_candidates l).
Proof.
  induction l as [|x l IH]; cbn; [constructor | now apply sort_insert_sorted].
Qed.

Lemma sort_candidates_of_sorted (l : list Candidate) :
  StronglySorted key_ordered l -> sort_candidates l = l.
Proof.
  induction l as [|x l IH]; intros Hs; [reflexivity|].
  inversion Hs as [|? ? Hl Hx]; subst.
  change (sort_candidates (x :: l)) with (sort_insert x (sort_candidates l)).
  rewrite (IH Hl).
  destruct l as [|y l]; [reflexivity|]. cbn [sort_insert].
  inversion Hx as [|? ? Hxy _]; subst. unfold key_ordered in Hxy. now rewrite Hxy.
Qed.

Lemma filter_sort_insert (p : Candidate -> bool) (x : Candidate) (l : list Candidate) :
  StronglySorted key_ordered l ->
  filter p (sort_insert x l)
  = if p x then sort_insert x (filter p l) else filter p l.
Proof.
  induction l as [|y l IH]; intros Hs; cbn.
  - destruct (p x); reflexivity.
  - inversion Hs as [|? ? Hl Hy]; subst.
    destruct (key_lt y x) eqn:E; cbn.
    + rewrite (IH Hl). destruct (p y), (p x); cbn; rewrite ?E; reflexivity.
    + destruct (p x) eqn:Px; [|reflexivity].
      assert (Hhead : forall l', (forall z, In z l' -> key_lt z x = false) ->
                                 sort_insert x l' = x :: l').
      { intros [|z l'] Hall; [reflexivity|]. cbn. now rewrite (Hall z (or_introl eq_refl)). }
      rewrite Hhead; [reflexivity|].
      intros z Hz. assert (Hz' : In z (y :: l)).
      { change (In z (filter p (y :: l))) in Hz. apply filter_In in Hz. tauto. }
      destruct Hz' as [->|Hz']; [exact E|].
      rewrite Forall_forall in Hy.
      apply (key_ordered_trans x y z); [exact E | now apply Hy].
Qed.

(** Sorting and filtering commute: the sort is stable. *)
Lemma filter_sort_candidates (p : Candidate -> bool) (l : list Candidate) :
  filter p (sort_candidates l) = sort_candidates (filter p l).
Proof.
  induction l as [|x l IH]; [reflexivity|].
  change (sort_candidates (x :: l)) with (sort_insert x (sort_candidates l)).
  rewrite filter_sort_insert by apply sort_candidates_sorted.
  rewrite IH. cbn [filter]. destruct (p x); reflexivity.
Qed.

Lemma StronglySorted_filter (p : Candidate -> bool) (l : list Candidate) :
  StronglySorted key_ordered l -> StronglySorted key_ordered (filter p l).
Proof.
  induction l as [|x l IH]; intros Hs; cbn; [constructor|].
  inversion Hs as [|? ? Hl Hx]; subst.
  destruct (p x); [|now apply IH].
  constructor; [now apply IH|].
  apply Forall_forall. intros z Hz. apply filter_In in Hz.
  rewrite Forall_forall in Hx. now apply Hx.
Qed.

Lemma StronglySorted_remove (l1 l2 : list Candidate) (y : Candidate) :
  StronglySorted key_ordered (l1 ++ y :: l2) -> StronglySorted key_ordered (l1 ++ l2).
Proof.
  induction l1 as [|x l1 IH]; cbn; intros Hs.
  - now inversion Hs.
  - inversion Hs as [|? ? Hl Hx]; subst. constructor; [now apply IH|].
    apply Forall_forall. intros z Hz. rewrite Forall_forall in Hx. apply Hx.
    apply in_app_or in Hz. apply in_or_app. destruct Hz; [now left | right; now right].
Qed.

(** The exclusive pass keeps its candidates in sorted order. *)
Lemma exclusive_fold_sorted (flat : list Box) (l acc : list Candidate) :
  StronglySorted key_ordered (acc ++ l) ->
  StronglySorted key_ordered (fold_left (exclusive_step flat) l acc).
Proof.
  revert acc. induction l as [|y l IH]; intros acc Hs; cbn.
  - now rewrite app_nil_r in Hs.
  - apply IH. unfold exclusive_step.
    destruct (smudge_blocked flat y); [now apply StronglySorted_remove in Hs|].
    destruct (overlaps_accepted y acc); [now apply StronglySorted_remove in Hs|].
    now rewrite <- app_assoc.
Qed.

Lemma filter_exclusive_sorted (cp : list string) (d : DetectionsByClass) :
  StronglySorted key_ordered (filter_exclusive cp d).
Proof.
  unfold filter_exclusive. apply exclusive_fold_sorted. apply sort_candidates_sorted.
Qed.

(** ** No overlap among the detections kept *)

Lemma iou_sym (b1 b2 : Box) : iou b1 b2 = iou b2 b1.
Proof.
  unfold iou. destruct_boxes b1 b2. unfold _calculate_iou.
  rewrite (Z.max_comm x1_2 x1_1), (Z.max_comm y1_2 y1_1),
    (Z.min_comm x2_2 x2_1), (Z.min_comm y2_2 y2_1).
  rewrite (Z.add_comm ((x2_2 - x1_2) * (y2_2 - y1_2)) ((x2_1 - x1_1) * (y2_1 - y1_1))).
  reflexivity.
Qed.

Lemma ForallOrdPairs_snoc {A : Type} (R : A -> A -> Prop) (l : list A) (x : A) :
  ForallOrdPairs R l -> (forall a, In a l -> R a x) -> ForallOrdPairs R (l ++ [x]).
Proof.
  induction 1 as [|a l Ha Hl IH]; intros Hx; cbn.
  - constructor; constructor.
  - constructor.
    + apply Forall_forall. intros z Hz. apply in_app_or in Hz.
      destruct Hz as [Hz|[<-|[]]].
      * rewrite Forall_forall in Ha. now apply Ha.
      * apply Hx. now left.
    + apply IH. intros b Hb. apply Hx. now right.
Qed.

(** Every candidate the loop accepts passed the scan against the ones
    accepted before it. *)
Lemma exclusive_fold_conflict_free (flat : list Box) (l acc : list Candidate) :
  ForallOrdPairs (fun a b => conflicts b a = false) acc ->
  ForallOrdPairs (fun a b => conflicts b a = false)
                 (fold_left (exclusive_step flat) l acc).
Proof.
  revert acc. induction l as [|y l IH]; intros acc Hacc; cbn; [exact Hacc|].
  apply IH. unfold exclusive_step.
  destruct (smudge_blocked flat y); [exact Hacc|].
  destruct (overlaps_accepted y acc) eqn:E; [exact Hacc|].
  apply ForallOrdPairs_snoc; [exact Hacc|].
  intros a Ha. rewrite overlaps_accepted_conflicts in E.
  destruct (conflicts y a) eqn:C; [|reflexivity].
  assert (existsb (conflicts y) acc = true)
    by (apply existsb_exists; exists a; auto).
  congruence.
Qed.

(** Where the candidates kept by the exclusive pass come from. *)
Lemma filter_exclusive_In (cp : list string) (d : DetectionsByClass) (c : Candidate) :
  In c (filter_exclusive cp d) ->
  (exists k det, In k exclusive_classes /\ In det (retained k d)
                 /\ c = annotate cp true k det)
  /\ smudge_blocked (other_exclusive_flat (sort_candidates (collect_exclusive cp d))) c
     = false.
Proof.
  unfold filter_exclusive. intros H. apply exclusive_fold_sound in H.
  destruct H as [[]|[Hc Hb]]. split; [|exact Hb].
  now apply sort_candidates_In, collect_exclusive_In in Hc.
Qed.

(** A kept smudge candidate is completely outside every kept candidate of
    another class. *)
Lemma kept_smudge_outside (cp : list string) (d : DetectionsByClass) (c1 c2 : Candidate) :
  In c1 (filter_exclusive cp d) -> In c2 (filter_exclusive cp d) ->
  is_fifa_smudge c1 = true -> is_fifa_smudge c2 = false ->
  _is_box_completely_outside (cand_bbox c1) (cand_bbox c2) = true.
Proof.
  intros H1 H2 S1 S2.
  destruct (filter_exclusive_In cp d c1 H1) as (_ & Hb).
  apply (smudge_blocked_false _ c1 S1 Hb).
  unfold other_exclusive_flat. apply in_map. apply filter_In. split.
  - unfold filter_exclusive in H2. apply exclusive_fold_sound in H2.
    destruct H2 as [[]|[H2 _]]. exact H2.
  - now rewrite S2.
Qed.

Lemma fifa_in_simbolos_not_smudge (cp : list string) (k : string) (det : Detection) :
  is_fifa_in_simbolos (annotate cp true k det) = true ->
  is_fifa_smudge (annotate cp true k det) = false.
Proof.
  cbn. destruct (String.eqb_spec k "simbolos") as [->|]; [reflexivity | discriminate].
Qed.

(** For two kept candidates, passing the scan means an IOU of at most 0.02,
    also for a smudge / FIFA pair, which the scan exempts. *)
Lemma kept_conflict_free_apart (cp : list string) (d : DetectionsByClass)
      (a b : Candidate) :
  In a (filter_exclusive cp d) -> In b (filter_exclusive cp d) ->
  conflicts b a = false ->
  (iou (cand_bbox a) (cand_bbox b) <= 1 # 50)%Q.
Proof.
  intros Ha Hb Hc. unfold conflicts in Hc.
  destruct (fifa_fifa_intersection b a) eqn:F.
  - assert (Hzero : iou (cand_bbox a) (cand_bbox b) = 0%Q).
    { destruct (filter_exclusive_In cp d a Ha) as ((ka & da & _ & _ & Ea) & _).
      destruct (filter_exclusive_In cp d b Hb) as ((kb & db & _ & _ & Eb) & _).
      unfold fifa_fifa_intersection in F. rewrite orb_true_iff, !andb_true_iff in F.
      destruct F as [[Sb Fa]|[Fb Sa]].
      - rewrite iou_sym. apply outside_iou_zero.
        apply (kept_smudge_outside cp d b a Hb Ha Sb).
        rewrite Ea in *. now apply fifa_in_simbolos_not_smudge.
      - apply outside_iou_zero.
        apply (kept_smudge_outside cp d a b Ha Hb Sa).
        rewrite Eb in *. now apply fifa_in_simbolos_not_smudge. }
    rewrite Hzero. discriminate.
  - rewrite iou_sym. now apply gt_false_iff.
Qed.

Lemma ForallOrdPairs_impl_In {A : Type} (R S : A -> A -> Prop) (l : list A) :
  (forall a b, In a l -> In b l -> R a b -> S a b) ->
  ForallOrdPairs R l -> ForallOrdPairs S l.
Proof.
  intros H Hl. induction Hl as [|a l Ha Hl IH]; [constructor|].
  constructor.
  - apply Forall_forall. intros b Hb. rewrite Forall_forall in Ha.
    apply H; [now left | now right | now apply Ha].
  - apply IH. intros x y Hx Hy. apply H; now right.
Qed.

Lemma filter_exclusive_apart (cp : list string) (d : DetectionsByClass) :
  pairwise_apart (filter_exclusive cp d).
Proof.
  unfold pairwise_apart.
  apply (ForallOrdPairs_impl_In (fun a b => conflicts b a = false)).
  - intros a b Ha Hb. apply (kept_conflict_free_apart cp d a b Ha Hb).
  - unfold filter_exclusive. apply exclusive_fold_conflict_free. constructor.
Qed.

(** Two kept candidates of different classes have IOU at most 0.02. *)
Lemma kept_classes_apart (cp : list string) (d : DetectionsByClass) (c1 c2 : Candidate) :
  In c1 (filter_exclusive cp d) -> In c2 (filter_exclusive cp d) ->
  cand_class c1 <> cand_class c2 ->
  (iou (cand_bbox c1) (cand_bbox c2) <= 1 # 50)%Q.
Proof.
  intros H1 H2 Hne.
  destruct (ForallOrdPairs_In (filter_exclusive_apart cp d) c1 c2 H1 H2)
    as [E|[H|H]].
  - subst. congruence.
  - exact H.
  - now rewrite iou_sym.
Qed.

(** X11.  The detections the exclusive pass keeps, in the order it accepts
    them, never overlap pairwise with IOU above 0.02; and no two detections
    of different classes retained by the exclusive pass, or by the whole
    resolver, have IOU above 0.02.  This includes a smudge detection next
    to a FIFA-equivalent symbols detection: the pair the scan exempts from
    the IOU test is always at IOU 0. *)
Theorem resolver_output_never_overlaps (cp : list string) (thr : Q) (d : DetectionsByClass) :
  pairwise_apart (filter_exclusive cp d)
  /\ (forall (k1 k2 : string) (x y : Detection),
         k1 <> k2 ->
         In x (retained k1 (_apply_exclusive_filtering cp d)) ->
         In y (retained k2 (_apply_exclusive_filtering cp d)) ->
         (iou (bbox x) (bbox y) <= 1 # 50)%Q)
  /\ (forall (k1 k2 : string) (x y : Detection),
         k1 <> k2 ->
         In x (retained k1 (resolve cp thr d)) ->
         In y (retained k2 (resolve cp thr d)) ->
         (iou (bbox x) (bbox y) <= 1 # 50)%Q).
Proof.
  assert (Hex : forall (k1 k2 : string) (x y : Detection),
             k1 <> k2 ->
             In x (retained k1 (_apply_exclusive_filtering cp d)) ->
             In y (retained k2 (_apply_exclusive_filtering cp d)) ->
             (iou (bbox x) (bbox y) <= 1 # 50)%Q).
  { intros k1 k2 x y Hne Hx Hy.
    apply exclusive_retained in Hx. destruct Hx as (_ & c1 & H1 & E1 & <-).
    apply exclusive_retained in Hy. destruct Hy as (_ & c2 & H2 & E2 & <-).
    apply (kept_classes_apart cp d c1 c2 H1 H2). congruence. }
  split; [apply filter_exclusive_apart|]. split; [exact Hex|].
  intros k1 k2 x y Hne Hx Hy.
  apply (Hex k1 k2 x y Hne); eapply resolve_subset_exclusive; eauto.
Qed.

Lemma resolver_output_never_overlaps_witness :
  (iou (bbox apart_symbol) (bbox apart_blackdot) <= 1 # 50)%Q.
Proof.
  apply (proj2 (proj2 (resolver_output_never_overlaps
                         default_class_priority default_overlap_threshold apart_input))
           "simbolos"%string "blackdot"%string apart_symbol apart_blackdot).
  - discriminate.
  - vm_compute. left. reflexivity.
  - vm_compute. left. reflexivity.
Defined.

(** ** The general pass after the exclusive pass *)

Lemma overlaps_filtered_grouped_false (thr : Q) (c : Candidate) (keys : list string)
      (acc : list Candidate) :
  (forall a, In a acc -> general_conflicts thr c (cand_class a) (strip a) = false) ->
  overlaps_filtered thr c (grouped keys acc) = false.
Proof.
  intros H. destruct (overlaps_filtered thr c (grouped keys acc)) eqn:E; [|reflexivity].
  unfold overlaps_filtered in E. apply existsb_exists in E.
  destruct E as ([k dets] & Hin & E). apply existsb_exists in E.
  destruct E as (det & Hdet & E).
  unfold grouped in Hin. apply in_map_iff in Hin.
  destruct Hin as (k' & Heq & _). inversion Heq; subst k' dets.
  apply in_map_iff in Hdet. destruct Hdet as (a & <- & Ha).
  apply filter_In in Ha. destruct Ha as [Ha Hk].
  apply String.eqb_eq in Hk. subst k.
  specialize (H a Ha). unfold general_conflicts in H. rewrite H in E. discriminate.
Qed.

(** When no candidate is blocked and none conflicts with another, the loop
    of the general pass accepts every candidate. *)
Lemma general_fold_keeps_all (thr : Q) (flat : list Box) (keys : list string)
      (l acc : list Candidate) :
  (forall c, In c l -> smudge_blocked flat c = false) ->
  (forall c a, In c l -> In a (acc ++ l) ->
               general_conflicts thr c (cand_class a) (strip a) = false) ->
  fold_left (general_step thr flat) l (grouped keys acc) = grouped keys (acc ++ l).
Proof.
  revert acc. induction l as [|y l IH]; intros acc Hb Hc; cbn [fold_left].
  - now rewrite app_nil_r.
  - unfold general_step at 2. rewrite (Hb y) by now left.
    rewrite overlaps_filtered_grouped_false.
    + rewrite dict_append_grouped.
      replace (acc ++ y :: l) with ((acc ++ [y]) ++ l)
        by (rewrite <- app_assoc; reflexivity).
      apply IH.
      * intros c Hc'. apply Hb. now right.
      * intros c a Hc' Ha. apply Hc; [now right|].
        rewrite <- app_assoc in Ha. exact Ha.
    + intros a Ha. apply Hc; [now left|]. apply in_or_app. now left.
Qed.

(** The candidates the general pass collects from the output of the
    exclusive pass are the candidates the exclusive pass kept. *)
Lemma collect_all_kept (cp : list string) (d : DetectionsByClass) (c : Candidate) :
  In c (collect_all cp (_apply_exclusive_filtering cp d)) ->
  In c (filter_exclusive cp d).
Proof.
  intros H. apply collect_all_In in H. destruct H as (k & dets & det & Hin & Hdet & ->).
  unfold _apply_exclusive_filtering in Hin. rewrite rebuild_grouped in Hin.
  unfold grouped in Hin. apply in_map_iff in Hin.
  destruct Hin as (k' & Heq & _). inversion Heq; subst k' dets.
  apply in_map_iff in Hdet. destruct Hdet as (a & <- & Ha).
  apply filter_In in Ha. destruct Ha as [Ha Hk].
  apply String.eqb_eq in Hk. subst k.
  destruct (filter_exclusive_In cp d a Ha) as ((k0 & det0 & Hk0 & _ & Ea) & _).
  rewrite Ea at 1 2 3. cbn [cand_class annotate]. rewrite strip_annotate.
  replace (str_in k0 exclusive_classes) with true
    by (symmetry; now apply str_in_In).
  now rewrite <- Ea.
Qed.

Lemma kept_general_conflicts (cp : list string) (thr : Q) (d : DetectionsByClass)
      (c a : Candidate) :
  In c (filter_exclusive cp d) -> In a (filter_exclusive cp d) ->
  general_conflicts thr c (cand_class a) (strip a) = false.
Proof.
  intros Hc Ha. unfold general_conflicts. cbv zeta.
  match goal with |- (if ?b then _ else _) = _ => destruct b end; [reflexivity|].
  destruct (filter_exclusive_In cp d c Hc) as ((kc & dc & _ & _ & Ec) & _).
  assert (Hex : is_exclusive c = true) by (rewrite Ec; reflexivity).
  rewrite Hex. cbn [andb negb].
  destruct (String.eqb_spec (cand_class a) (cand_class c)) as [E|Hne]; [reflexivity|].
  cbn [negb]. apply gt_false_iff. cbn [strip bbox].
  apply Qle_trans with (1 # 50)%Q; [|discriminate].
  apply (kept_classes_apart cp d c a Hc Ha). congruence.
Qed.

Lemma kept_not_blocked (cp : list string) (d : DetectionsByClass) (c : Candidate) :
  In c (filter_exclusive cp d) ->
  smudge_blocked (other_detections_flat (_apply_exclusive_filtering cp d)) c = false.
Proof.
  intros Hc. unfold smudge_blocked.
  destruct (is_fifa_smudge c) eqn:S; [|reflexivity]. cbn [andb].
  match goal with |- ?e = false => destruct e eqn:E end; [|reflexivity].
  apply existsb_exists in E. destruct E as (b & Hb & E).
  unfold other_detections_flat in Hb. apply in_flat_map in Hb.
  destruct Hb as ([k dets] & Hin & Hb).
  destruct (String.eqb_spec k "smudge") as [->|Hk]; [destruct Hb|].
  apply in_map_iff in Hb. destruct Hb as (det & <- & Hdet).
  unfold _apply_exclusive_filtering in Hin. rewrite rebuild_grouped in Hin.
  unfold grouped in Hin. apply in_map_iff in Hin.
  destruct Hin as (k' & Heq & _). inversion Heq; subst k' dets.
  apply in_map_iff in Hdet. destruct Hdet as (a & <- & Ha).
  apply filter_In in Ha. destruct Ha as [Ha Hka].
  apply String.eqb_eq in Hka. subst k.
  assert (Sa : is_fifa_smudge a = false).
  { destruct (filter_exclusive_In cp d a Ha) as ((k0 & det0 & _ & _ & Ea) & _).
    rewrite Ea in *. cbn in *. now apply String.eqb_neq. }
  cbn [strip bbox] in E.
  rewrite (kept_smudge_outside cp d c a Hc Ha S Sa) in E. discriminate.
Qed.

(** Filtering a dictionary's candidates by one of its keys gives that
    key's entry. *)
Lemma filter_class_flat_map (f : string -> list Candidate) (k : string)
      (keys : list string) :
  (forall k' c, In c (f k') -> cand_class c = k') ->
  NoDup keys -> In k keys ->
  filter (fun c => String.eqb k (cand_class c)) (flat_map f keys) = f k.
Proof.
  intros Hf.
  assert (Hout : forall ks, ~ In k ks ->
            filter (fun c => String.eqb k (cand_class c)) (flat_map f ks) = []).
  { induction ks as [|k' ks IH]; intros Hn; cbn; [reflexivity|].
    rewrite filter_app, IH by (intros H; apply Hn; now right).
    rewrite app_nil_r.
    assert (Hne : k' <> k) by (intros ->; apply Hn; now left).
    assert (Hall : forall l, (forall c, In c l -> cand_class c = k') ->
              filter (fun c => String.eqb k (cand_class c)) l = []).
    { induction l as [|c l IHl]; intros Hl; cbn; [reflexivity|].
      rewrite (Hl c) by now left.
      destruct (String.eqb_spec k k') as [E|_]; [congruence|].
      apply IHl. intros c' Hc'. apply Hl. now right. }
    apply Hall. intros c. apply Hf. }
  assert (Hin : forall l, (forall c, In c l -> cand_class c = k) ->
            filter (fun c => String.eqb k (cand_class c)) l = l).
  { induction l as [|c l IHl]; intros Hl; cbn; [reflexivity|].
    rewrite (Hl c) by now left. rewrite String.eqb_refl. f_equal.
    apply IHl. intros c' Hc'. apply Hl. now right. }
  induction keys as [|k' ks IH]; intros Hnd Hk; [destruct Hk|].
  inversion Hnd as [|? ? Hnot Hnd']; subst. cbn. rewrite filter_app.
  destruct Hk as [->|Hk].
  - rewrite Hout by exact Hnot. rewrite app_nil_r. apply Hin. intros c. apply Hf.
  - assert (Hne : k' <> k) by (intros ->; contradiction).
    rewrite IH by assumption.
    assert (Hall : forall l, (forall c, In c l -> cand_class c = k') ->
              filter (fun c => String.eqb k (cand_class c)) l = []).
    { induction l as [|c l IHl]; intros Hl; cbn; [reflexivity|].
      rewrite (Hl c) by now left.
      destruct (String.eqb_spec k k') as [E|_]; [congruence|].
      apply IHl. intros c' Hc'. apply Hl. now right. }
    rewrite Hall by (intros c; apply Hf). reflexivity.
Qed.

Lemma collect_all_grouped (cp : list string) (keys : list string) (kept : list Candidate) :
  collect_all cp (grouped keys kept)
  = flat_map (fun k => map (annotate cp (str_in k exclusive_classes) k)
                           (map strip (filter (fun c => String.eqb k (cand_class c)) kept)))
             keys.
Proof.
  unfold collect_all, grouped.
  induction keys as [|k ks IH]; cbn [map flat_map]; [reflexivity|].
  f_equal. exact IH.
Qed.

Lemma annotate_strip_kept (cp : list string) (k : string) (l : list Candidate) :
  (forall c, In c l -> exists det, In k exclusive_classes /\ c = annotate cp true k det) ->
  map (annotate cp (str_in k exclusive_classes) k) (map strip l) = l.
Proof.
  induction l as [|c l IH]; intros H; cbn [map]; [reflexivity|].
  rewrite IH by (intros c' Hc'; apply H; now right). f_equal.
  destruct (H c (or_introl eq_refl)) as (det & Hk & ->).
  rewrite strip_annotate.
  replace (str_in k exclusive_classes) with true
    by (symmetry; now apply str_in_In).
  reflexivity.
Qed.

Lemma filter_class_collect_all (cp : list string) (d : DetectionsByClass) (k : string) :
  NoDup (dict_keys d) -> In k (dict_keys d) ->
  filter (fun c => String.eqb k (cand_class c))
         (collect_all cp (_apply_exclusive_filtering cp d))
  = filter (fun c => String.eqb k (cand_class c)) (filter_exclusive cp d).
Proof.
  intros Hnd Hk. unfold _apply_exclusive_filtering.
  rewrite rebuild_grouped, collect_all_grouped.
  rewrite (filter_class_flat_map _ k (dict_keys d)); [|
    intros k' c Hc; apply in_map_iff in Hc; destruct Hc as (x & <- & _); reflexivity
    | exact Hnd | exact Hk].
  apply annotate_strip_kept. intros c Hc. apply filter_In in Hc.
  destruct Hc as [Hc E]. apply String.eqb_eq in E.
  destruct (filter_exclusive_In cp d c Hc) as ((k0 & det0 & Hk0 & _ & Ec) & _).
  exists det0. rewrite Ec in E. cbn in E. subst k0. auto.
Qed.

(** After the exclusive pass, the general pass accepts every detection and
    rebuilds the same dictionary. *)
Lemma resolve_exclusive_eq (cp : list string) (thr : Q) (d : DetectionsByClass) :
  NoDup (dict_keys d) ->
  resolve cp thr d = _apply_exclusive_filtering cp d.
Proof.
  intros Hnd. unfold resolve, _filter_overlapping_detections. cbv zeta.
  rewrite dict_empty_like_grouped, exclusive_keys.
  rewrite general_fold_keeps_all.
  - cbn [app]. unfold _apply_exclusive_filtering at 2. rewrite rebuild_grouped.
    unfold grouped. apply map_ext_in. intros k Hk. f_equal. f_equal.
    rewrite filter_sort_candidates, filter_class_collect_all by assumption.
    apply sort_candidates_of_sorted, StronglySorted_filter, filter_exclusive_sorted.
  - intros c Hc. apply kept_not_blocked, collect_all_kept.
    now apply sort_candidates_In.
  - intros c a Hc Ha. cbn [app] in Ha.
    apply (kept_general_conflicts cp thr d); apply collect_all_kept;
      now apply sort_candidates_In.
Qed.


Lemma frame_detections_keys_NoDup (cfg : Config) (roi : RoiFrame) :
  NoDup (dict_keys (frame_detections cfg roi)).
Proof.
  unfold frame_detections, class_entry.
  destruct (kept_result (enabled_smudge cfg) (smudge_result roi)) as [r1|];
    [destruct (Py.len (cls r1) >? 0)|];
    (destruct (kept_result (enabled_simbolos cfg) (simbolos_result roi)) as [r2|];
     [destruct (Py.len (cls r2) >? 0)|]);
    (destruct (kept_result (enabled_blackdot cfg) (blackdot_result roi)) as [r3|];
     [destruct (Py.len (cls r3) >? 0)|]);
    cbn; repeat constructor; cbn; intuition discriminate.
Qed.

(** X12.  In the order [process_frame] chains them, the general pass never
    removes anything: on a dictionary with distinct keys the resolver
    returns exactly what the exclusive pass returns, whatever the overlap
    threshold, and so it does on the detections of every frame.  The 0.1
    test and the configured overlap threshold of the general pass decide
    nothing there. *)
Theorem general_pass_keeps_exclusive_result (cp : list string) (thr : Q) :
  (forall d : DetectionsByClass,
      NoDup (dict_keys d) ->
      resolve cp thr d = _apply_exclusive_filtering cp d)
  /\ (forall (cfg : Config) (roi : RoiFrame),
         resolve cp thr (frame_detections cfg roi)
         = _apply_exclusive_filtering cp (frame_detections cfg roi)).
Proof.
  split.
  - intros d. apply resolve_exclusive_eq.
  - intros cfg roi. apply resolve_exclusive_eq, frame_detections_keys_NoDup.
Qed.

Lemma general_pass_keeps_exclusive_result_witness :
  resolve default_class_priority default_overlap_threshold overlap_input
  = _apply_exclusive_filtering default_class_priority overlap_input.
Proof.
  apply (proj1 (general_pass_keeps_exclusive_result
                  default_class_priority default_overlap_threshold) overlap_input).
  repeat constructor; cbn; intuition discriminate.
Defined.

(** ** The resolver only removes *)

Lemma exclusive_fold_filter_length (p : Candidate -> bool) (flat : list Box)
      (l acc : list Candidate) :
  (List.length (filter p (fold_left (exclusive_step flat) l acc))
   <= List.length (filter p acc) + List.length (filter p l))%nat.
Proof.
  revert acc. induction l as [|y l IH]; intros acc; cbn [fold_left filter].
  - cbn. lia.
  - etransitivity; [apply IH|].
    assert (List.length (filter p (exclusive_step flat acc y))
            <= List.length (filter p acc) + List.length (filter p [y]))%nat.
    { unfold exclusive_step. destruct (smudge_blocked flat y); [lia|].
      destruct (overlaps_accepted y acc); [lia|].
      rewrite filter_app, length_app. lia. }
    cbn [filter] in *. destruct (p y); cbn [List.length] in *; lia.
Qed.

Lemma sort_insert_length (x : Candidate) (l : list Candidate) :
  List.length (sort_insert x l) = S (List.length l).
Proof.
  induction l as [|y l IH]; cbn; [reflexivity|].
  destruct (key_lt y x); cbn; [now rewrite IH | reflexivity].
Qed.

Lemma sort_candidates_length (l : list Candidate) :
  List.length (sort_candidates l) = List.length l.
Proof.
  induction l as [|x l IH]; [reflexivity|].
  change (sort_candidates (x :: l)) with (sort_insert x (sort_candidates l)).
  rewrite sort_insert_length, IH. reflexivity.
Qed.

Lemma filter_class_flat_map_out (f : string -> list Candidate) (k : string)
      (keys : list string) :
  (forall k' c, In c (f k') -> cand_class c = k') ->
  ~ In k keys ->
  filter (fun c => String.eqb k (cand_class c)) (flat_map f keys) = [].
Proof.
  intros Hf Hn.
  destruct (filter (fun c => String.eqb k (cand_class c)) (flat_map f keys))
    as [|c l] eqn:E; [reflexivity|].
  assert (Hc : In c (filter (fun c => String.eqb k (cand_class c)) (flat_map f keys)))
    by (rewrite E; now left).
  apply filter_In in Hc. destruct Hc as [Hc Hk].
  apply in_flat_map in Hc. destruct Hc as (k' & Hk' & Hc).
  apply Hf in Hc. apply String.eqb_eq in Hk. subst. contradiction.
Qed.

Lemma exclusive_classes_NoDup : NoDup exclusive_classes.
Proof. unfold exclusive_classes. repeat constructor; cbn; intuition discriminate. Qed.

Lemma collect_exclusive_class_length (cp : list string) (d : DetectionsByClass)
      (k : string) :
  (List.length (filter (fun c => String.eqb k (cand_class c)) (collect_exclusive cp d))
   <= List.length (retained k d))%nat.
Proof.
  unfold collect_exclusive.
  assert (Hf : forall k' c,
             In c (match dict_get k' d with
                   | Some detections => map (annotate cp true k') detections
                   | None => []
                   end) -> cand_class c = k').
  { intros k' c Hc. destruct (dict_get k' d); [|destruct Hc].
    apply in_map_iff in Hc. destruct Hc as (x & <- & _). reflexivity. }
  destruct (in_dec string_dec k exclusive_classes) as [Hk|Hk].
  - rewrite (filter_class_flat_map _ k exclusive_classes Hf exclusive_classes_NoDup Hk).
    unfold retained. destruct (dict_get k d); [rewrite length_map | cbn]; lia.
  - rewrite (filter_class_flat_map_out _ k exclusive_classes Hf Hk). cbn. lia.
Qed.

Lemma exclusive_count_le (cp : list string) (d : DetectionsByClass) (k : string) :
  Py.len (retained k (_apply_exclusive_filtering cp d)) <= Py.len (retained k d).
Proof.
  unfold Py.len. apply inj_le.
  unfold _apply_exclusive_filtering. rewrite rebuild_grouped.
  unfold retained at 1.
  destruct (in_dec string_dec k (dict_keys d)) as [Hk|Hk].
  - rewrite dict_get_grouped by exact Hk. rewrite length_map.
    unfold filter_exclusive. cbv zeta.
    etransitivity; [apply exclusive_fold_filter_length|]. cbn [filter List.length plus].
    rewrite filter_sort_candidates, sort_candidates_length.
    apply collect_exclusive_class_length.
  - rewrite dict_get_not_key by (now rewrite dict_keys_grouped). cbn. lia.
Qed.

(** X13.  The resolver only removes: every detection it retains for a class
    was an input detection of that class, and for every class the number
    retained is at most the number given, after the exclusive pass and (on a
    dictionary with distinct keys) after both passes. *)
Theorem resolver_only_removes (cp : list string) (thr : Q) (d : DetectionsByClass)
        (k : string) :
  (forall x, In x (retained k (resolve cp thr d)) -> In x (retained k d))
  /\ Py.len (retained k (_apply_exclusive_filtering cp d)) <= Py.len (retained k d)
  /\ (NoDup (dict_keys d) ->
      Py.len (retained k (resolve cp thr d)) <= Py.len (retained k d)).
Proof.
  split; [|split].
  - intros x Hx. eapply exclusive_subset, resolve_subset_exclusive, Hx.
  - apply exclusive_count_le.
  - intros Hnd. rewrite resolve_exclusive_eq by exact Hnd. apply exclusive_count_le.
Qed.

Lemma resolver_only_removes_witness :
  Py.len (retained "smudge"
            (resolve default_class_priority default_overlap_threshold overlap_input))
  <= Py.len (retained "smudge" overlap_input).
Proof.
  apply (proj2 (proj2 (resolver_only_removes
                         default_class_priority default_overlap_threshold
                         overlap_input "smudge"))).
  repeat constructor; cbn; intuition discriminate.
Defined.


(** ** The best black-dot detection survives *)

Lemma exclusive_fold_mono (flat : list Box) (c : Candidate) (l acc : list Candidate) :
  In c acc -> In c (fold_left (exclusive_step flat) l acc).
Proof.
  revert acc. induction l as [|y l IH]; intros acc H; cbn; [exact H|].
  apply IH. now apply exclusive_step_mono.
Qed.

Lemma index_of_nonneg (s : string) (l : list string) (i : Z) :
  index_of s l = Some i -> 0 <= i.
Proof.
  revert i. induction l as [|h t IH]; intros i; cbn; [discriminate|].
  destruct (String.eqb h s); [intros [= <-]; lia|].
  destruct (index_of s t) as [j|]; [|discriminate].
  intros [= <-]. specialize (IH j eq_refl). lia.
Qed.

Lemma index_of_first (s s' : string) (l : list string) :
  index_of s l = Some 0 -> index_of s' l = Some 0 -> s = s'.
Proof.
  destruct l as [|h t]; cbn; [discriminate|].
  destruct (String.eqb_spec h s) as [<-|_].
  - destruct (String.eqb_spec h s') as [<-|_]; [reflexivity|].
    destruct (index_of s' t) as [j|] eqn:E; [|discriminate].
    intros _ [= H]. apply index_of_nonneg in E. lia.
  - destruct (index_of s t) as [j|] eqn:E; [|discriminate].
    intros [= H]. apply index_of_nonneg in E. lia.
Qed.

Lemma base_priority_nonneg (cp : list string) (k : string) : 0 <= base_priority cp k.
Proof.
  unfold base_priority. destruct (index_of k cp) as [i|] eqn:E; [|lia].
  now apply index_of_nonneg in E.
Qed.

(** With the black-dot class first in the priority list, a candidate of
    priority [0] is a black-dot candidate. *)
Lemma priority_zero_blackdot (cp : list string) (k : string) (det : Detection) :
  index_of "blackdot" cp = Some 0 ->
  priority (annotate cp true k det) <= 0 ->
  k = "blackdot"%string.
Proof.
  intros H0. cbn [priority annotate].
  destruct (String.eqb k "simbolos" && class_id_in_0_1 (class_id det)); [lia|].
  unfold base_priority. destruct (index_of k cp) as [i|] eqn:E; [|lia].
  intros Hi. pose proof (index_of_nonneg _ _ _ E).
  assert (i = 0) by lia. subst i. symmetry. now apply (index_of_first _ _ cp).
Qed.

(** The head of the sorted candidates is accepted unless the smudge rule
    blocks it. *)
Lemma sorted_head_kept (cp : list string) (d : DetectionsByClass) (c : Candidate)
      (rest : list Candidate) :
  sort_candidates (collect_exclusive cp d) = c :: rest ->
  is_fifa_smudge c = false ->
  In c (filter_exclusive cp d).
Proof.
  intros E S. unfold filter_exclusive. cbv zeta. rewrite E. cbn [fold_left].
  apply exclusive_fold_mono. unfold exclusive_step, smudge_blocked.
  rewrite S. cbn. now left.
Qed.

Lemma best_blackdot_kept (cp : list string) (d : DetectionsByClass) :
  index_of "blackdot" cp = Some 0 ->
  retained "blackdot" d <> [] ->
  exists x, In x (retained "blackdot" (_apply_exclusive_filtering cp d))
            /\ forall y, In y (retained "blackdot" d) ->
                         (confidence y <= confidence x)%Q.
Proof.
  intros H0 Hne.
  assert (Hcand : forall y, In y (retained "blackdot" d) ->
            In (annotate cp true "blackdot" y) (sort_candidates (collect_exclusive cp d))).
  { intros y Hy. apply sort_candidates_In, collect_exclusive_In.
    exists "blackdot"%string, y. repeat split; [|exact Hy].
    unfold exclusive_classes. cbn. auto. }
  assert (Hprio : forall y, priority (annotate cp true "blackdot" y) = 0).
  { intros y. cbn. unfold base_priority. now rewrite H0. }
  pose proof (sort_candidates_sorted (collect_exclusive cp d)) as Hs.
  destruct (sort_candidates (collect_exclusive cp d)) as [|c rest] eqn:E.
  { destruct (retained "blackdot" d) as [|y l]; [congruence|].
    destruct (Hcand y (or_introl eq_refl)). }
  inversion Hs as [|? ? _ Hall]; subst. rewrite Forall_forall in Hall.
  assert (Hc : In c (sort_candidates (collect_exclusive cp d)))
    by (rewrite E; now left).
  apply sort_candidates_In, collect_exclusive_In in Hc.
  destruct Hc as (k & det & _ & _ & Ec).
  assert (Hle : forall y, In y (retained "blackdot" d) ->
            priority c <= 0 /\ (priority c = 0 -> (confidence y <= cand_confidence c)%Q)).
  { intros y Hy. destruct (Hcand y Hy) as [Heq|Hy'].
    - rewrite Heq, Hprio. split; [lia|]. intros _. cbn. apply Qle_refl.
    - specialize (Hall _ Hy'). unfold key_ordered in Hall.
      apply key_lt_false_spec in Hall. rewrite Hprio in Hall.
      destruct Hall as [Hlt|[Heq Hconf]].
      + split; [lia|]. intros Hz. lia.
      + split; [lia|]. intros _. cbn [cand_confidence annotate] in Hconf.
        apply Qopp_le_compat in Hconf. now rewrite !Qopp_opp in Hconf. }
  assert (Hk : k = "blackdot"%string).
  { destruct (retained "blackdot" d) as [|y l] eqn:Er; [congruence|].
    destruct (Hle y (or_introl eq_refl)) as [Hp _].
    rewrite Ec in Hp. now apply (priority_zero_blackdot cp k det). }
  subst k.
  exists (strip c). split.
  - apply exclusive_retained. split.
    + unfold retained in Hne. destruct (dict_get "blackdot" d) eqn:Eg; [|congruence].
      now apply dict_get_In_key in Eg.
    + exists c. repeat split.
      * apply (sorted_head_kept cp d c rest E). rewrite Ec. reflexivity.
      * rewrite Ec. reflexivity.
  - intros y Hy. destruct (Hle y Hy) as [_ Hq]. cbn [strip confidence].
    apply Hq. rewrite Ec. apply Hprio.
Qed.

(** X14.  With the black-dot class first in the priority list, as in the
    default configuration, black-dot detections are never all removed: when
    the input has black-dot detections, the resolver retains one whose
    confidence is at least that of every black-dot detection given. *)
Theorem best_blackdot_survives (cp : list string) (thr : Q) (d : DetectionsByClass) :
  index_of "blackdot" cp = Some 0 ->
  NoDup (dict_keys d) ->
  retained "blackdot" d <> [] ->
  exists x, In x (retained "blackdot" (resolve cp thr d))
            /\ forall y, In y (retained "blackdot" d) ->
                         (confidence y <= confidence x)%Q.
Proof.
  intros H0 Hnd Hne. rewrite resolve_exclusive_eq by exact Hnd.
  now apply best_blackdot_kept.
Qed.

Lemma best_blackdot_survives_witness :
  exists x, In x (retained "blackdot"
                    (resolve default_class_priority default_overlap_threshold apart_input))
            /\ forall y, In y (retained "blackdot" apart_input) ->
                         (confidence y <= confidence x)%Q.
Proof.
  apply (best_blackdot_survives default_class_priority default_overlap_threshold
           apart_input).
  - reflexivity.
  - repeat constructor; cbn; intuition discriminate.
  - discriminate.
Defined.


(** ** Counts are never negative and records add up *)

Lemma nonneg_snoc (l : list Z) (v : Z) : nonneg l -> 0 <= v -> nonneg (l ++ [v]).
Proof.
  intros Hl Hv. apply Forall_app. split; [exact Hl|]. constructor; [exact Hv|constructor].
Qed.

Lemma sum_nonneg (l : list Z) : nonneg l -> 0 <= Py.sum l.
Proof.
  induction 1 as [|x l Hx Hl IH]; [cbn; lia|]. rewrite sum_cons. lia.
Qed.

Lemma len_nonneg {A : Type} (l : list A) : 0 <= Py.len l.
Proof. unfold Py.len. lia. Qed.

Lemma len_cons {A : Type} (x : A) (l : list A) : Py.len (x :: l) = Py.len l + 1.
Proof. unfold Py.len. cbn [List.length]. lia. Qed.

Lemma frames_with_bounds (l : list Z) :
  0 <= frames_with l <= Py.len l /\ (nonneg l -> frames_with l <= Py.sum l).
Proof.
  unfold frames_with. induction l as [|x l [IH1 IH2]].
  - cbn. split; [lia|]. intros _. lia.
  - cbn [filter]. rewrite sum_cons, len_cons. split.
    + destruct (x >? 0); [rewrite len_cons|]; lia.
    + intros Hn. inversion Hn as [|? ? Hx Hl]; subst. specialize (IH2 Hl).
      destruct (Z.gtb_spec x 0); [rewrite len_cons|]; lia.
Qed.

Lemma frames_with_ok_no_bounds (oks nos : list Z) :
  nonneg oks -> nonneg nos ->
  0 <= frames_with_ok_no oks nos <= Py.sum oks + Py.sum nos.
Proof.
  unfold frames_with_ok_no. intros Ho. revert nos.
  induction Ho as [|ok oks Hok Ho IH]; intros nos Hn.
  - cbn. pose proof (sum_nonneg nos Hn). lia.
  - destruct Hn as [|no nos Hno Hn].
    + cbn [combine filter]. pose proof (sum_nonneg oks Ho). rewrite sum_cons.
      cbn. lia.
    + cbn [combine filter]. rewrite !sum_cons. specialize (IH nos Hn).
      destruct (Z.gtb_spec ok 0); destruct (Z.gtb_spec no 0); cbn [orb];
        rewrite ?len_cons; lia.
Qed.

Lemma ok_no_objects_coherent (oks nos : list Z) :
  nonneg oks -> nonneg nos -> ok_no_coherent (ok_no_objects oks nos).
Proof.
  intros Ho Hn. unfold ok_no_coherent, ok_no_objects. cbn.
  pose proof (sum_nonneg oks Ho). pose proof (sum_nonneg nos Hn).
  pose proof (frames_with_ok_no_bounds oks nos Ho Hn). lia.
Qed.

(** A class counts as detected exactly when its per-frame counts sum to
    more than zero. *)
Lemma class_average_detected (l : list Z) :
  Py.gt (class_average l) 0 = (Py.sum l >? 0).
Proof.
  unfold class_average. destruct l as [|x l]; [reflexivity|].
  destruct (len_pos_cons x l) as (p & Hp). rewrite Hp.
  change (Z.pos p >? 0) with true. cbv iota. unfold np_mean. rewrite Hp.
  assert (Hpos : (0 < inject_Z (Z.pos p))%Q) by reflexivity.
  destruct (Z.gtb_spec (Py.sum (x :: l)) 0) as [Hs|Hs].
  - apply gt_true_iff. apply Qlt_shift_div_l; [exact Hpos|].
    rewrite Qmult_0_l. rewrite <- (Zlt_Qlt 0). lia.
  - apply gt_false_iff. apply Qle_shift_div_r; [exact Hpos|].
    rewrite Qmult_0_l. rewrite <- (Zle_Qle _ 0). exact Hs.
Qed.

Lemma class_average_times_len (l : list Z) :
  (class_average l * inject_Z (Py.len l) == inject_Z (Py.sum l))%Q.
Proof.
  unfold class_average. destruct l as [|x l]; [reflexivity|].
  destruct (len_pos_cons x l) as (p & Hp). rewrite Hp.
  change (Z.pos p >? 0) with true. cbv iota. unfold np_mean. rewrite Hp.
  field. discriminate.
Qed.

Lemma reject_implies_detected (q : Q) :
  Py.gt q (1 # 5) = true -> Py.gt q 0 = true.
Proof.
  rewrite !gt_true_iff. intros H. apply Qlt_trans with (1 # 5)%Q; [reflexivity|exact H].
Qed.

Lemma make_transfer_record_coherent (st : State) :
  seqs_nonneg (current_transfer_stats st) ->
  class_lengths (current_transfer_stats st) (current_transfer_frames st) ->
  record_coherent (make_transfer_record st).
Proof.
  intros (Ns & Nb & Nk & N1 & N2 & N3 & N4 & N5 & N6) (Ls & Lb & Lk).
  unfold record_coherent, make_transfer_record. cbv zeta.
  cbn [smudge_frames duration_frames smudge_total blackdot_frames blackdot_total
       smudge_detected blackdot_detected simbolos_detected smudge_avg blackdot_avg
       smudge_reject simbolos_reject blackdot_reject approved
       fifa_objects simbolo_objects string_objects].
  pose proof (frames_with_bounds (cts_smudge (current_transfer_stats st))) as [Fs1 Fs2].
  pose proof (frames_with_bounds (cts_blackdot (current_transfer_stats st))) as [Fk1 Fk2].
  specialize (Fs2 Ns). specialize (Fk2 Nk).
  split; [lia|]. split; [lia|].
  split; [apply class_average_detected|]. split; [apply class_average_detected|].
  split; [rewrite <- Ls; apply class_average_times_len|].
  split; [rewrite <- Lk; apply class_average_times_len|].
  do 3 (split; [apply reject_implies_detected|]).
  split; [reflexivity|].
  repeat split; apply ok_no_objects_coherent; assumption.
Qed.

Lemma push_record_Forall (P : TransferRecord -> Prop) (h : list TransferRecord)
      (r : TransferRecord) :
  Forall P h -> P r -> Forall P (push_record h r).
Proof.
  intros Hh Hr. unfold push_record. cbv zeta.
  assert (Hall : Forall P (h ++ [r]))
    by (apply Forall_app; split; [exact Hh | constructor; [exact Hr|constructor]]).
  destruct (Py.len (h ++ [r]) >? 100); [|exact Hall].
  destruct (h ++ [r]) as [|x t]; [constructor|]. cbn. now inversion Hall.
Qed.

(** The history after a frame without ROI. *)
Lemma process_frame_absent_history (cfg : Config) (st : State) :
  transfer_history (transfer_stats (fst (process_frame cfg st None)))
  = if current_transfer_active st && (frames_without_roi st + 1 >=? ABSENT_TO_NEW cfg)
    then push_record (transfer_history (transfer_stats st))
                     (make_transfer_record (count_absent st))
    else transfer_history (transfer_stats st).
Proof.
  unfold process_frame, roi_absent. cbv zeta.
  cbn [count_absent current_transfer_active frames_without_roi].
  destruct (current_transfer_active st && (frames_without_roi st + 1 >=? ABSENT_TO_NEW cfg));
    reflexivity.
Qed.

Lemma list_upper_bound (l : list Z) : exists M, forall x, In x l -> x <= M.
Proof.
  induction l as [|y l (M & HM)]; [exists 0; intros x []|].
  exists (Z.max y M). intros x [<-|Hx]; [lia|]. specialize (HM x Hx). lia.
Qed.

Lemma stabilize_nonneg (W : Z) (history : list Z) (c : Z) :
  nonneg history -> 0 <= c ->
  nonneg (fst (_stabilize_detection_count W history c))
  /\ 0 <= snd (_stabilize_detection_count W history c).
Proof.
  intros Hh Hc.
  assert (Hall : forall x, In x (push_history W history c) -> 0 <= x).
  { intros x Hx. apply push_history_In in Hx. apply in_app_or in Hx.
    destruct Hx as [Hx|[<-|[]]]; [|exact Hc].
    unfold nonneg in Hh. rewrite Forall_forall in Hh. now apply Hh. }
  unfold _stabilize_detection_count. cbv zeta.
  destruct (Z.gtb_spec (Py.len (push_history W history c)) 0) as [Hpos|Hnpos];
    cbn [fst snd]; (split; [apply Forall_forall; exact Hall|]); [|exact Hc].
  destruct (list_upper_bound (push_history W history c)) as (M & HM).
  apply (round_between 0 M). apply smoothed_between.
  - intros E. rewrite E in Hpos. cbn in Hpos. lia.
  - intros x Hx. split; [now apply Hall | now apply HM].
Qed.

Lemma detect_class_nonneg (enabled : bool) (W : Z) (history : list Z)
      (result : option ModelOutput) :
  nonneg history ->
  nonneg (snd (fst (detect_class enabled W history result)))
  /\ 0 <= snd (detect_class enabled W history result).
Proof.
  intros Hh. unfold detect_class. destruct enabled; [|cbn; split; [exact Hh|lia]].
  destruct (validate result).
  - destruct result as [r|].
    + pose proof (stabilize_nonneg W history (Py.len (cls r)) Hh (len_nonneg _)) as H.
      destruct (_stabilize_detection_count W history (Py.len (cls r))). exact H.
    + pose proof (stabilize_nonneg W history 0 Hh (Z.le_refl 0)) as H.
      destruct (_stabilize_detection_count W history 0). exact H.
  - pose proof (stabilize_nonneg W history 0 Hh (Z.le_refl 0)) as H.
    destruct (_stabilize_detection_count W history 0). exact H.
Qed.

Lemma analyze_ok_no_nonneg (simbolos : option ModelOutput) :
  six_nonneg (_analyze_ok_no_classes simbolos).
Proof.
  unfold _analyze_ok_no_classes, six_nonneg, count_cls.
  destruct simbolos as [r|]; [|lia].
  destruct (Py.len (cls r) =? 0); [lia|].
  repeat split; apply len_nonneg.
Qed.

Lemma append_ok_no_nonneg (cts : CurrentTransferStats) (c : Z * Z * Z * Z * Z * Z) :
  six_nonneg c -> seqs_nonneg cts -> seqs_nonneg (append_ok_no cts c).
Proof.
  destruct c as [[[[[f_ok f_no] s_ok] s_no] g_ok] g_no].
  intros (H1 & H2 & H3 & H4 & H5 & H6) (Ns & Nb & Nk & N1 & N2 & N3 & N4 & N5 & N6).
  unfold seqs_nonneg. cbn. repeat split; try assumption; now apply nonneg_snoc.
Qed.

Lemma record_ok_no_nonneg (st : State) (stats : Stats) (simbolos : option ModelOutput) :
  seqs_nonneg (current_transfer_stats st) ->
  seqs_nonneg (current_transfer_stats (record_ok_no st stats simbolos)).
Proof.
  intros H. unfold record_ok_no. cbv zeta. cbn [current_transfer_stats].
  destruct (current_transfer_active st); [|exact H].
  apply append_ok_no_nonneg; [|exact H].
  destruct ((stat_simbolos stats >? 0) && _);
    [apply analyze_ok_no_nonneg | unfold six_nonneg; lia].
Qed.

Lemma seqs_nonneg_step (cfg : Config) (st : State) (f : Frame) :
  history_nonneg (detection_history st) ->
  seqs_nonneg (current_transfer_stats st) ->
  seqs_nonneg (current_transfer_stats (fst (process_frame cfg st f))).
Proof.
  intros (Hs & Hb & Hk) Hn. destruct f as [roi|].
  - unfold process_frame, roi_present.
    pose proof (detect_class_nonneg (enabled_smudge cfg) (stabilization_window cfg)
                  _ (smudge_result roi) Hs) as [_ Cs].
    pose proof (detect_class_nonneg (enabled_simbolos cfg) (stabilization_window cfg)
                  _ (simbolos_result roi) Hb) as [_ Cb].
    pose proof (detect_class_nonneg (enabled_blackdot cfg) (stabilization_window cfg)
                  _ (blackdot_result roi) Hk) as [_ Ck].
    destruct (detect_class _ _ _ (smudge_result roi)) as [[ks hs] cs].
    destruct (detect_class _ _ _ (simbolos_result roi)) as [[kb hb] cb].
    destruct (detect_class _ _ _ (blackdot_result roi)) as [[kk hk] ck].
    cbn [snd] in Cs, Cb, Ck.
    destruct Hn as (Ns & Nb & Nk & N1 & N2 & N3 & N4 & N5 & N6).
    destruct (_ ++ _ ++ _) as [|e dbc]; cbv zeta; cbn [fst];
      apply record_ok_no_nonneg; cbn [current_transfer_stats];
      unfold seqs_nonneg;
      cbn [set_last_counts append_counts cts_smudge cts_simbolos cts_blackdot
           cts_fifa_ok cts_fifa_no cts_simbolo_ok cts_simbolo_no
           cts_string_ok cts_string_no];
      rewrite ?set_last_appended;
      repeat split; try assumption; apply nonneg_snoc; try assumption;
        apply len_nonneg.
  - unfold process_frame, roi_absent. cbv zeta. cbn [fst].
    apply record_ok_no_nonneg.
    cbn [count_absent current_transfer_active frames_without_roi].
    destruct (current_transfer_active st && _); cbn; [|exact Hn].
    unfold seqs_nonneg, nonneg. cbn. repeat split; constructor.
Qed.

Lemma history_nonneg_step (cfg : Config) (st : State) (f : Frame) :
  history_nonneg (detection_history st) ->
  history_nonneg (detection_history (fst (process_frame cfg st f))).
Proof.
  intros (Hs & Hb & Hk). pose proof (process_frame_histories cfg st f) as H.
  destruct f as [roi|].
  - destruct H as (E1 & E2 & E3). unfold history_nonneg. rewrite E1, E2, E3.
    repeat split; now apply detect_class_nonneg.
  - rewrite H. now repeat split.
Qed.

Lemma counts_invariant_step (cfg : Config) (st : State) (f : Frame) :
  counts_invariant st -> counts_invariant (fst (process_frame cfg st f)).
Proof.
  intros (Hseq & Hh & Hn & Hr).
  split; [now apply sequences_invariant_step|].
  split; [now apply history_nonneg_step|].
  split; [now apply seqs_nonneg_step|].
  destruct f as [roi|].
  - destruct (process_frame_present_totals cfg st roi) as [-> _]. exact Hr.
  - rewrite process_frame_absent_history.
    destruct (current_transfer_active st) eqn:Ea; cbn [andb]; [|exact Hr].
    destruct (frames_without_roi st + 1 >=? ABSENT_TO_NEW cfg); [|exact Hr].
    apply push_record_Forall; [exact Hr|].
    apply make_transfer_record_coherent; cbn [count_absent current_transfer_stats
                                              current_transfer_frames]; [exact Hn|].
    unfold sequences_invariant in Hseq. rewrite Ea in Hseq. apply Hseq.
Qed.

Lemma counts_invariant_run (cfg : Config) (frames : list Frame) :
  counts_invariant (run cfg initial_state frames).
Proof.
  apply run_invariant.
  - unfold counts_invariant, sequences_invariant, history_nonneg, seqs_nonneg, nonneg.
    cbn. repeat split; constructor.
  - intros s f. apply counts_invariant_step.
Qed.

(** X15.  In every state reached from the initial one no count is negative
    (stabilizer histories, reported counts, per-frame sequences), and every
    recorded transfer adds up: frames with a detection are at most the
    duration and at most the total, a class is flagged as detected exactly
    when its total is positive, the average times the duration is the
    total, a class that rejects the transfer is flagged as detected, the
    transfer is approved exactly when no class rejects it, and each OK/NO
    total is the sum of its OK and NO counts. *)
Theorem counts_nonneg_and_records_add_up (cfg : Config) (frames : list Frame) (f : Frame) :
  let st := run cfg initial_state frames in
  let stats := snd (process_frame cfg st f) in
  history_nonneg (detection_history st)
  /\ seqs_nonneg (current_transfer_stats st)
  /\ (0 <= stat_smudge stats /\ 0 <= stat_simbolos stats /\ 0 <= stat_blackdot stats)
  /\ Forall record_coherent (transfer_history (transfer_stats st)).
Proof.
  cbv zeta. destruct (counts_invariant_run cfg frames) as (_ & Hh & Hn & Hr).
  split; [exact Hh|]. split; [exact Hn|]. split; [|exact Hr].
  destruct f as [roi|].
  - pose proof (process_frame_roi_counts cfg (run cfg initial_state frames) roi) as Hc.
    cbv zeta in Hc. destruct Hc as (-> & -> & -> & _).
    destruct Hh as (Hs & Hb & Hk).
    destruct (_ ++ _ ++ _);
      repeat split; try apply len_nonneg; now apply detect_class_nonneg.
  - unfold process_frame, roi_absent. cbv zeta. cbn. lia.
Qed.


(** ** The summary of a reachable state *)

Lemma percentage_bounds (v total : Z) :
  0 <= v <= total -> 0 < total ->
  (0 <= inject_Z v / inject_Z total * 100 <= 100)%Q.
Proof.
  intros Hv Ht. destruct (Qdiv_Z_unit_interval v total Hv Ht) as [H0 H1]. split.
  - apply Qmult_le_0_compat; [exact H0 | discriminate].
  - apply Qle_trans with (1 * 100)%Q; [|apply Qle_refl].
    apply Qmult_le_compat_r; [exact H1 | discriminate].
Qed.

(** [most_frequent] on the five error counts: the count reported is the
    largest, ties go to the first key in insertion order, and the
    percentage is its share of all errors. *)
Lemma most_frequent_five (a b c d e : Z) :
  0 <= a -> 0 <= b -> 0 <= c -> 0 <= d -> 0 <= e ->
  exists m,
    most_frequent [("fifa_no"%string, a); ("simbolo_no"%string, b);
                   ("string_no"%string, c); ("smudge"%string, d);
                   ("blackdot"%string, e)] = Py.Ok m
    /\ mfe_count m = Z.max a (Z.max b (Z.max c (Z.max d e)))
    /\ (0 <= mfe_percentage m <= 100)%Q
    /\ (b <= a -> c <= a -> d <= a -> e <= a ->
        mfe_class m = "FIFA"%string /\ mfe_type m = "NO"%string)
    /\ (a < e -> b < e -> c < e -> d < e ->
        mfe_class m = "BlackDot"%string /\ mfe_type m = "Erro"%string)
    /\ (a + b + c + d + e = 0 -> m = mkMostFrequentError "FIFA" "NO" 0 0).
Proof.
  intros Ha Hb Hc Hd He. unfold most_frequent.
  replace (Py.sum (map snd [("fifa_no"%string, a); ("simbolo_no"%string, b);
                            ("string_no"%string, c); ("smudge"%string, d);
                            ("blackdot"%string, e)]))
    with (a + b + c + d + e) by (cbn; lia).
  repeat (cbn [max_entry snd];
          match goal with
          | |- context [?x >? ?y] => destruct (Z.gtb_spec x y)
          end);
    cbv beta iota; try rewrite truediv_pos by lia;
    cbn [Py.bind];
    (eexists; split; [reflexivity|]);
    cbn [mfe_count mfe_percentage mfe_class mfe_type];
    (split; [lia|]);
    (split; [first [apply percentage_bounds; lia
                   | split; [apply Qle_refl | discriminate]]|]);
    (split; [intros; first [split; reflexivity | exfalso; lia]|]);
    (split; [intros; first [split; reflexivity | exfalso; lia]|]);
    intros Hz; first [exfalso; lia | assert (a = 0) as -> by lia; reflexivity].
Qed.

Lemma total_of_cons (f : TransferRecord -> Z) (t : TransferRecord)
      (h : list TransferRecord) :
  total_of f (t :: h) = f t + total_of f h.
Proof. unfold total_of. cbn [map]. apply sum_cons. Qed.

Lemma total_of_nonneg (f : TransferRecord -> Z) (h : list TransferRecord) :
  (forall t, In t h -> 0 <= f t) -> 0 <= total_of f h.
Proof.
  induction h as [|t h IH]; intros H; [cbn; lia|].
  rewrite total_of_cons. specialize (H t (or_introl eq_refl)) as Ht.
  assert (0 <= total_of f h) by (apply IH; intros x Hx; apply H; now right). lia.
Qed.

Lemma total_of_add (f g k : TransferRecord -> Z) (h : list TransferRecord) :
  (forall t, In t h -> f t = g t + k t) ->
  total_of f h = total_of g h + total_of k h.
Proof.
  induction h as [|t h IH]; intros H; [reflexivity|].
  rewrite !total_of_cons, (H t (or_introl eq_refl)), IH; [lia|].
  intros x Hx. apply H. now right.
Qed.

Lemma transfers_with_bounds (f : TransferRecord -> Z) (h : list TransferRecord) :
  0 <= transfers_with f h <= Py.len h
  /\ ((forall t, In t h -> 0 <= f t) -> transfers_with f h <= total_of f h).
Proof.
  unfold transfers_with. induction h as [|t h [IH1 IH2]].
  - cbn. split; [lia|]. intros _. lia.
  - cbn [filter]. rewrite total_of_cons, len_cons. split.
    + destruct (f t >? 0); [rewrite len_cons|]; lia.
    + intros Hn. pose proof (Hn t (or_introl eq_refl)).
      assert (Py.len (filter (fun t0 => f t0 >? 0) h) <= total_of f h)
        by (apply IH2; intros x Hx; apply Hn; now right).
      destruct (Z.gtb_spec (f t) 0); [rewrite len_cons|]; lia.
Qed.

Lemma plain_row_coherent (f : TransferRecord -> Z) (h : list TransferRecord) :
  (forall t, In t h -> 0 <= f t) ->
  row_coherent (Py.len h) (mkClassSummary (transfers_with f h) (total_of f h) None).
Proof.
  intros H. destruct (transfers_with_bounds f h) as [B1 B2].
  unfold row_coherent. cbn. repeat split; try lia. now apply B2.
Qed.

Lemma ok_no_row_coherent (f : TransferRecord -> OkNoObjects) (h : list TransferRecord) :
  (forall t, In t h -> ok_no_coherent (f t)) ->
  row_coherent (Py.len h) (ok_no_summary f h).
Proof.
  intros H. destruct (transfers_with_bounds (fun t => obj_total (f t)) h) as [B1 B2].
  unfold row_coherent, ok_no_summary. cbn.
  split; [lia|]. split; [|split; [|split]].
  - apply B2. intros t Ht. destruct (H t Ht) as (? & ? & ? & ?). lia.
  - apply total_of_nonneg. intros t Ht. now destruct (H t Ht).
  - apply total_of_nonneg. intros t Ht. now destruct (H t Ht) as (? & ? & ?).
  - apply total_of_add. intros t Ht. now destruct (H t Ht) as (? & ? & ? & ?).
Qed.

Lemma summary_of_coherent_history (st : State) :
  Forall record_coherent (transfer_history (transfer_stats st)) ->
  exists s : Summary,
    get_final_statistics_summary st = Py.Ok s
    /\ total_transfers_evaluated s = Py.len (transfer_history (transfer_stats st))
    /\ (forall name c, In (name, c) (transfers_by_class s) ->
                       row_coherent (total_transfers_evaluated s) c)
    /\ (0 <= mfe_percentage (most_frequent_error s) <= 100)%Q
    /\ (forall k v, In (k, v) (error_counts (transfer_history (transfer_stats st))) ->
                    0 <= v
                    /\ (transfer_history (transfer_stats st) <> [] ->
                        v <= mfe_count (most_frequent_error s)))
    /\ (transfer_history (transfer_stats st) <> [] ->
        Py.sum (map snd (error_counts (transfer_history (transfer_stats st)))) = 0 ->
        most_frequent_error s = mkMostFrequentError "FIFA" "NO" 0 0).
Proof.
  intros Hr. rewrite Forall_forall in Hr.
  set (h := transfer_history (transfer_stats st)) in *.
  assert (Ha : 0 <= total_of (fun t => obj_no (fifa_objects t)) h).
  { apply total_of_nonneg. intros t Ht. destruct (Hr t Ht) as (_&_&_&_&_&_&_&_&_&_&H&_).
    now destruct H as (? & ? & ?). }
  assert (Hb : 0 <= total_of (fun t => obj_no (simbolo_objects t)) h).
  { apply total_of_nonneg. intros t Ht. destruct (Hr t Ht) as (_&_&_&_&_&_&_&_&_&_&_&H&_).
    now destruct H as (? & ? & ?). }
  assert (Hc : 0 <= total_of (fun t => obj_no (string_objects t)) h).
  { apply total_of_nonneg. intros t Ht. destruct (Hr t Ht) as (_&_&_&_&_&_&_&_&_&_&_&_&H).
    now destruct H as (? & ? & ?). }
  assert (Hsm : forall t, In t h -> 0 <= smudge_total t).
  { intros t Ht. destruct (Hr t Ht) as (H & _). lia. }
  assert (Hbd : forall t, In t h -> 0 <= blackdot_total t).
  { intros t Ht. destruct (Hr t Ht) as (_ & H & _). lia. }
  pose proof (total_of_nonneg smudge_total h Hsm) as Hd.
  pose proof (total_of_nonneg blackdot_total h Hbd) as He.
  unfold get_final_statistics_summary. cbv zeta. fold h.
  destruct (Z.eqb_spec (Py.len h) 0) as [Hz|Hnz].
  - assert (Hnil : h = []) by (destruct h; [reflexivity | rewrite len_cons in Hz;
                               pose proof (len_nonneg h); lia]).
    eexists. split; [reflexivity|]. cbn.
    split; [now rewrite Hz|]. split; [intros ? ? []|].
    split; [split; [apply Qle_refl | discriminate]|].
    split; [|intros Hne; congruence].
    intros k v Hkv. split; [|intros Hne; congruence].
    rewrite Hnil in Hkv. cbn in Hkv.
    destruct Hkv as [E|[E|[E|[E|[E|[]]]]]]; inversion E; reflexivity.
  - unfold error_counts at 1.
    destruct (most_frequent_five _ _ _ _ _ Ha Hb Hc Hd He)
      as (m & Hm & Hcount & Hpct & _ & _ & Hzero).
    rewrite Hm. cbn [Py.bind]. eexists. split; [reflexivity|].
    cbn [total_transfers_evaluated transfers_by_class most_frequent_error].
    split; [reflexivity|]. split; [|split; [exact Hpct|split]].
    + intros name c Hin.
      destruct Hin as [E|[E|[E|[E|[E|[]]]]]]; inversion E; subst.
      * now apply plain_row_coherent.
      * now apply plain_row_coherent.
      * apply ok_no_row_coherent. intros t Ht.
        now destruct (Hr t Ht) as (_&_&_&_&_&_&_&_&_&_&H&_).
      * apply ok_no_row_coherent. intros t Ht.
        now destruct (Hr t Ht) as (_&_&_&_&_&_&_&_&_&_&_&H&_).
      * apply ok_no_row_coherent. intros t Ht.
        now destruct (Hr t Ht) as (_&_&_&_&_&_&_&_&_&_&_&_&H).
    + intros k v Hkv. unfold error_counts in Hkv.
      destruct Hkv as [E|[E|[E|[E|[E|[]]]]]]; inversion E; subst;
        (split; [assumption|intros _; rewrite Hcount; lia]).
    + intros _ Hsum. apply Hzero. unfold error_counts in Hsum. cbn in Hsum. lia.
Qed.

(** X16.  For every state reached from the initial one the summary is
    returned and its numbers agree: each class appears in at most as many
    transfers as were evaluated and in no more transfers than it has
    objects, each OK/NO total is the sum of its non-negative parts, the
    most frequent error has the largest of the five non-negative error
    counts and a percentage between 0 and 100.  When transfers were
    recorded and none had an error, the summary still names an error:
    FIFA / NO with count 0. *)
Theorem summary_of_reachable_state (cfg : Config) (frames : list Frame) :
  let st := run cfg initial_state frames in
  let history := transfer_history (transfer_stats st) in
  exists s : Summary,
    get_final_statistics_summary st = Py.Ok s
    /\ total_transfers_evaluated s = Py.len history
    /\ (forall name c, In (name, c) (transfers_by_class s) ->
                       row_coherent (total_transfers_evaluated s) c)
    /\ (0 <= mfe_percentage (most_frequent_error s) <= 100)%Q
    /\ (forall k v, In (k, v) (error_counts history) ->
                    0 <= v /\ (history <> [] -> v <= mfe_count (most_frequent_error s)))
    /\ (history <> [] ->
        Py.sum (map snd (error_counts history)) = 0 ->
        most_frequent_error s = mkMostFrequentError "FIFA" "NO" 0 0).
Proof.
  cbv zeta. apply summary_of_coherent_history.
  now destruct (counts_invariant_run cfg frames) as (_ & _ & _ & Hr).
Qed.


(** ** The OK/NO counts of a frame *)

Lemma count_cls_partition (l : list Z) :
  count_cls 0 l + count_cls 1 l + count_cls 2 l + count_cls 3 l
  + count_cls 4 l + count_cls 5 l <= Py.len l
  /\ ((forall c, In c l -> 0 <= c <= 5) ->
      count_cls 0 l + count_cls 1 l + count_cls 2 l + count_cls 3 l
      + count_cls 4 l + count_cls 5 l = Py.len l).
Proof.
  unfold count_cls. induction l as [|x l [IH1 IH2]].
  - cbn. split; [lia|]. intros _. lia.
  - cbn [filter]. split.
    + destruct (Z.eqb_spec 0 x); destruct (Z.eqb_spec 1 x); destruct (Z.eqb_spec 2 x);
        destruct (Z.eqb_spec 3 x); destruct (Z.eqb_spec 4 x); destruct (Z.eqb_spec 5 x);
        rewrite ?len_cons; lia.
    + intros H. pose proof (H x (or_introl eq_refl)) as Hx.
      assert (IH : forall c, In c l -> 0 <= c <= 5) by (intros c Hc; apply H; now right).
      specialize (IH2 IH).
      destruct (Z.eqb_spec 0 x); destruct (Z.eqb_spec 1 x); destruct (Z.eqb_spec 2 x);
        destruct (Z.eqb_spec 3 x); destruct (Z.eqb_spec 4 x); destruct (Z.eqb_spec 5 x);
        rewrite ?len_cons; lia.
Qed.

(** X17.  [_analyze_ok_no_classes] counts every box of the symbols result at
    most once: the six counts are non-negative, they sum to at most the
    number of boxes, and to exactly that number when every class id is one
    of 0..5; a box with any other class id is counted nowhere.  A missing
    or empty result gives six zeros. *)
Theorem ok_no_counts_partition (simbolos : option ModelOutput) :
  let '(f_ok, f_no, s_ok, s_no, g_ok, g_no) := _analyze_ok_no_classes simbolos in
  let boxes := match simbolos with Some r => Py.len (cls r) | None => 0 end in
  six_nonneg (f_ok, f_no, s_ok, s_no, g_ok, g_no)
  /\ f_ok + f_no + s_ok + s_no + g_ok + g_no <= boxes
  /\ ((forall r c, simbolos = Some r -> In c (cls r) -> 0 <= c <= 5) ->
      f_ok + f_no + s_ok + s_no + g_ok + g_no = boxes).
Proof.
  pose proof (analyze_ok_no_nonneg simbolos) as Hn.
  unfold _analyze_ok_no_classes in *. destruct simbolos as [r|].
  - destruct (Z.eqb_spec (Py.len (cls r)) 0) as [Hz|Hnz].
    + cbv zeta. split; [exact Hn|]. rewrite Hz. split; [lia|]. intros _. lia.
    + cbv zeta. split; [exact Hn|].
      destruct (count_cls_partition (cls r)) as [H1 H2]. split; [lia|].
      intros H. rewrite <- H2; [lia|]. intros c Hc. now apply (H r).
  - cbv zeta. split; [exact Hn|]. split; [lia|]. intros _. lia.
Qed.

Lemma ok_no_counts_partition_witness :
  let '(f_ok, f_no, s_ok, s_no, g_ok, g_no) :=
    _analyze_ok_no_classes (Some (mkModelOutput [1; 0; 3; 5; 5] true [])) in
  f_ok + f_no + s_ok + s_no + g_ok + g_no = 5.
Proof.
  pose proof (ok_no_counts_partition (Some (mkModelOutput [1; 0; 3; 5; 5] true []))) as H.
  cbv zeta in H. cbn in H. cbn. destruct H as (_ & _ & H). apply H.
  intros r c [= <-] Hc. cbn in Hc. lia.
Defined.

(** ** The two IOU functions *)







(** ** Per-class detection rates *)

Lemma detected_count_bounds (flag : TransferRecord -> bool) (h : list TransferRecord) :
  0 <= detected_count flag h <= Py.len h.
Proof.
  unfold detected_count. induction h as [|t h IH]; [cbn; lia|].
  cbn [filter]. destruct (flag t); rewrite !len_cons; lia.
Qed.

Lemma rate_of_truediv (count total : Z) :
  0 <= count <= total -> 0 < total ->
  rate_of count total (inject_Z count / inject_Z total * 100)%Q.
Proof.
  intros Hc Ht. split; [exact Hc|]. split; [now apply percentage_bounds|].
  rewrite inject_Z_mult. field. intros E. apply inject_Z_pos in Ht.
  rewrite E in Ht. discriminate Ht.
Qed.

Lemma rate_of_zero : rate_of 0 0 0.
Proof.
  split; [lia|]. split; [split; [apply Qle_refl | discriminate] | reflexivity].
Qed.

Lemma detected_count_transfers_with (flag : TransferRecord -> bool)
      (f : TransferRecord -> Z) (h : list TransferRecord) :
  (forall t, In t h -> flag t = (f t >? 0)) ->
  detected_count flag h = transfers_with f h.
Proof.
  intros H. unfold detected_count, transfers_with. f_equal.
  apply filter_ext_in. exact H.
Qed.

Lemma transfer_class_stats_returns (st : State) :
  exists s : TransferClassStats,
    get_transfer_class_stats st = Py.Ok s
    /\ tcs_total_transfers s = Py.len (transfer_history (transfer_stats st))
    /\ tcs_smudge_detected_count s
       = detected_count smudge_detected (transfer_history (transfer_stats st))
    /\ tcs_blackdot_detected_count s
       = detected_count blackdot_detected (transfer_history (transfer_stats st))
    /\ rate_of (tcs_smudge_detected_count s) (tcs_total_transfers s)
               (tcs_smudge_detection_rate s)
    /\ rate_of (tcs_simbolos_detected_count s) (tcs_total_transfers s)
               (tcs_simbolos_detection_rate s)
    /\ rate_of (tcs_blackdot_detected_count s) (tcs_total_transfers s)
               (tcs_blackdot_detection_rate s).
Proof.
  unfold get_transfer_class_stats. cbv zeta.
  destruct (transfer_history (transfer_stats st)) as [|t h] eqn:E.
  - eexists. split; [reflexivity|]. cbn.
    repeat split; try reflexivity; try lia; try apply Qle_refl; discriminate.
  - set (l := t :: h).
    assert (Hpos : 0 < Py.len l)
      by (unfold l; rewrite len_cons; pose proof (len_nonneg h); lia).
    rewrite !truediv_pos by exact Hpos. cbn [Py.bind].
    eexists. split; [reflexivity|].
    cbn [tcs_total_transfers tcs_smudge_detected_count tcs_simbolos_detected_count
         tcs_blackdot_detected_count tcs_smudge_detection_rate
         tcs_simbolos_detection_rate tcs_blackdot_detection_rate].
    do 3 (split; [reflexivity|]).
    split; [|split]; apply rate_of_truediv; try exact Hpos; apply detected_count_bounds.
Qed.

(** X19.  [get_transfer_class_stats] never divides by zero: it returns on
    every state, with each rate the share of its count in the transfers of
    the history, in percent, between 0 and 100 (all zeros on an empty
    history).  For every state reached from the initial one it agrees with
    [get_final_statistics_summary] on the number of transfers in which
    smudge and black-dot detections appeared. *)
Theorem transfer_class_stats_agree_with_summary :
  (forall st : State,
      exists s : TransferClassStats,
        get_transfer_class_stats st = Py.Ok s
        /\ tcs_total_transfers s = Py.len (transfer_history (transfer_stats st))
        /\ rate_of (tcs_smudge_detected_count s) (tcs_total_transfers s)
                   (tcs_smudge_detection_rate s)
        /\ rate_of (tcs_simbolos_detected_count s) (tcs_total_transfers s)
                   (tcs_simbolos_detection_rate s)
        /\ rate_of (tcs_blackdot_detected_count s) (tcs_total_transfers s)
                   (tcs_blackdot_detection_rate s))
  /\ (forall (cfg : Config) (frames : list Frame) (s : TransferClassStats)
             (sm : Summary) (c : ClassSummary),
         get_transfer_class_stats (run cfg initial_state frames) = Py.Ok s ->
         get_final_statistics_summary (run cfg initial_state frames) = Py.Ok sm ->
         (In ("smudge"%string, c) (transfers_by_class sm) ->
          cs_count c = tcs_smudge_detected_count s)
         /\ (In ("blackdot"%string, c) (transfers_by_class sm) ->
             cs_count c = tcs_blackdot_detected_count s)).
Proof.
  split.
  - intros st. destruct (transfer_class_stats_returns st)
      as (s & Hs & Ht & _ & _ & R1 & R2 & R3).
    exists s. auto.
  - intros cfg frames s sm c Hs Hsm.
    destruct (counts_invariant_run cfg frames) as (_ & _ & _ & Hr).
    rewrite Forall_forall in Hr.
    set (st := run cfg initial_state frames) in *.
    destruct (transfer_class_stats_returns st) as (s' & Hs' & _ & Cs & Ck & _).
    rewrite Hs in Hs'. injection Hs' as <-.
    rewrite Cs, Ck.
    rewrite (detected_count_transfers_with smudge_detected smudge_total)
      by (intros t Ht; now destruct (Hr t Ht) as (_ & _ & H & _)).
    rewrite (detected_count_transfers_with blackdot_detected blackdot_total)
      by (intros t Ht; now destruct (Hr t Ht) as (_ & _ & _ & H & _)).
    unfold get_final_statistics_summary in Hsm. cbv zeta in Hsm.
    destruct (Py.len (transfer_history (transfer_stats st)) =? 0).
    + injection Hsm as <-. cbn. split; intros [].
    + destruct (most_frequent _) as [m|e]; [|discriminate Hsm].
      cbn [Py.bind] in Hsm. injection Hsm as <-.
      cbn [transfers_by_class].
      split; intros [E|[E|[E|[E|[E|[]]]]]]; inversion E; reflexivity.
Qed.


(** ** Predominant class *)

Lemma class_key_values :
  class_key label_smudge = "smudge"%string
  /\ class_key label_simbolo = "simbolo"%string
  /\ class_key label_blackdot = "blackdot"%string.
Proof. repeat split; vm_compute; reflexivity. Qed.

Lemma frame_get_simbolo (frame : FrameData) : frame_get "simbolo" frame = None.
Proof. reflexivity. Qed.

Lemma current_dominant_returns (stats : Stats) :
  exists r, _get_current_dominant_class stats = Py.Ok r.
Proof.
  unfold _get_current_dominant_class. cbv zeta.
  destruct ((stat_smudge stats =? 0) && (stat_simbolos stats =? 0)
            && (stat_blackdot stats =? 0)); [eexists; reflexivity|].
  destruct (max_entry _ _) as [k v].
  destruct (Z.gtb_spec (Py.sum (map snd [(label_smudge, stat_smudge stats);
                                         (label_simbolo, stat_simbolos stats);
                                         (label_blackdot, stat_blackdot stats)])) 0)
    as [Hpos|Hnpos].
  - rewrite truediv_pos by exact Hpos. eexists. reflexivity.
  - eexists. reflexivity.
Qed.

Lemma gt_div_same (a b n : Z) :
  0 < n -> Py.gt (inject_Z a / inject_Z n) (inject_Z b / inject_Z n) = (a >? b).
Proof.
  intros Hn.
  assert (Hinv : (0 < / inject_Z n)%Q) by (apply Qinv_lt_0_compat; now apply inject_Z_pos).
  destruct (Z.gtb_spec a b) as [H|H].
  - apply gt_true_iff. unfold Qdiv. apply Qmult_lt_compat_r; [exact Hinv|].
    rewrite <- Zlt_Qlt. lia.
  - apply gt_false_iff. unfold Qdiv. apply Qmult_le_compat_r; [|now apply Qlt_le_weak].
    now rewrite <- Zle_Qle.
Qed.

Lemma gt_tenth_div (a n : Z) :
  0 < n -> Py.gt (1 # 10) (inject_Z a / inject_Z n) = (n >? 10 * a).
Proof.
  intros Hn. pose proof (inject_Z_pos n Hn) as Hq.
  destruct (Z.gtb_spec n (10 * a)) as [H|H].
  - apply gt_true_iff. apply Qlt_shift_div_r; [exact Hq|].
    unfold Qlt, Qmult, inject_Z. cbn [Qnum Qden]. lia.
  - apply gt_false_iff. apply Qle_shift_div_l; [exact Hq|].
    unfold Qle, Qmult, inject_Z. cbn [Qnum Qden]. lia.
Qed.

Lemma count_detections_simbolo (frames : list FrameData) (acc : Z) :
  frames <> [] -> count_detections "simbolo" frames acc = None.
Proof. destruct frames as [|f rest]; [congruence | reflexivity]. Qed.

Lemma recent_frames_nonempty (h : list FrameData) :
  3 <= Py.len h ->
  (if Py.len h >=? 5 then Py.slice_from (-5) h else h) <> [].
Proof.
  intros Hlen. destruct (Z.geb_spec (Py.len h) 5) as [H5|H5].
  - unfold Py.slice_from. cbn [Z.ltb Z.compare]. intros E.
    assert (Hl : Py.len (skipn (Z.to_nat (Z.max 0 (Py.len h + -5))) h) = 0)
      by (rewrite E; reflexivity).
    rewrite len_skipn in Hl. lia.
  - intros E. rewrite E in Hlen. cbn in Hlen. lia.
Qed.

(** When the moving averages select the symbols class, the block raises
    and the handler answers from the current frame alone. *)
Lemma simbolo_falls_back (h : list FrameData) (stats : Stats) :
  3 <= Py.len h ->
  Py.sum (map fd_smudge h) < Py.sum (map fd_simbolos h) ->
  Py.sum (map fd_blackdot h) <= Py.sum (map fd_simbolos h) ->
  Py.len h <= 10 * Py.sum (map fd_simbolos h) ->
  predominant_body h stats = None.
Proof.
  intros Hlen Hs Hk Hten. unfold predominant_body.
  destruct (Z.ltb_spec (Py.len h) 3); [lia|].
  rewrite !truediv_pos by lia. cbn [caught max_score_entry snd].
  rewrite gt_div_same by lia.
  destruct (Z.gtb_spec (Py.sum (map fd_simbolos h)) (Py.sum (map fd_smudge h))); [|lia].
  rewrite gt_div_same by lia.
  destruct (Z.gtb_spec (Py.sum (map fd_blackdot h)) (Py.sum (map fd_simbolos h))); [lia|].
  rewrite gt_tenth_div by lia.
  destruct (Z.gtb_spec (Py.len h) (10 * Py.sum (map fd_simbolos h))); [lia|].
  cbv zeta.
  replace (class_key label_simbolo) with "simbolo"%string
    by (symmetry; apply class_key_values).
  rewrite count_detections_simbolo by now apply recent_frames_nonempty.
  reflexivity.
Qed.

(** The class reported by the block itself is never the symbols class. *)
Lemma predominant_body_class (h : list FrameData) (stats : Stats) (r : string * Q) :
  predominant_body h stats = Some r ->
  _get_current_dominant_class stats = Py.Ok r
  \/ r = (label_none, 0%Q)
  \/ fst r = label_smudge
  \/ fst r = label_blackdot.
Proof.
  unfold predominant_body.
  destruct (Z.ltb_spec (Py.len h) 3) as [Hlt|Hge].
  { destruct (_get_current_dominant_class stats) as [r'|e]; cbn [caught];
      [intros [= <-]; now left | discriminate]. }
  destruct (caught _) as [a|]; [|discriminate].
  destruct (caught _) as [b|]; [|discriminate].
  destruct (caught _) as [k|]; [|discriminate].
  cbn [max_score_entry snd].
  destruct (Py.gt b a); cbn [max_score_entry snd];
    match goal with
    | |- context [if Py.gt k ?y then _ else _] => destruct (Py.gt k y)
    end;
    cbv beta iota;
    match goal with
    | |- context [if Py.gt (1 # 10) ?y then _ else _] =>
        destruct (Py.gt (1 # 10) y); [intros [= <-]; now (right; left)|]
    end;
    cbv zeta;
    try (replace (class_key label_simbolo) with "simbolo"%string
           by (symmetry; apply class_key_values);
         rewrite count_detections_simbolo by (now apply recent_frames_nonempty);
         discriminate);
    match goal with
    | |- context [count_detections ?key ?l 0] =>
        destruct (count_detections key l 0) as [d|]; [|discriminate]
    end;
    match goal with
    | |- context [caught ?x] => destruct (caught x) as [c|]; [|discriminate]
    end;
    intros [= <-]; cbn [fst]; auto.
Qed.

(** X20.  [_calculate_predominant_class] always returns, and it never
    reports the symbols class from its moving averages: the key it looks up
    for that class, ['simbolo'], is not a key of the history entries
    (['simbolos'] is), the lookup raises and the handler answers from the
    current frame alone.  So the pair returned is what
    [_get_current_dominant_class] gives for the current frame, or
    ("Nenhuma", 0.0), or has class "Smudge" or "BlackDot"; and whenever the
    symbols average is the selected score and at least 0.1, it is the
    current-frame answer, "Nenhuma" with 0.0 on a frame without detections
    however many symbols the frames before it had. *)
Theorem symbols_class_is_never_smoothed (W : Z) (class_history : list FrameData)
        (frame_count : Z) (stats : Stats) :
  let h := fst (_calculate_predominant_class W class_history frame_count stats) in
  let result := snd (_calculate_predominant_class W class_history frame_count stats) in
  (exists r, result = Py.Ok r
             /\ (_get_current_dominant_class stats = Py.Ok r
                 \/ r = (label_none, 0%Q)
                 \/ fst r = label_smudge
                 \/ fst r = label_blackdot))
  /\ (3 <= Py.len h ->
      Py.sum (map fd_smudge h) < Py.sum (map fd_simbolos h) ->
      Py.sum (map fd_blackdot h) <= Py.sum (map fd_simbolos h) ->
      Py.len h <= 10 * Py.sum (map fd_simbolos h) ->
      result = _get_current_dominant_class stats
      /\ (stat_smudge stats = 0 -> stat_simbolos stats = 0 -> stat_blackdot stats = 0 ->
          result = Py.Ok (label_none, 0%Q))).
Proof.
  cbv zeta. unfold _calculate_predominant_class. cbv zeta. cbn [fst snd].
  set (h := push_class_history W class_history _).
  split.
  - destruct (predominant_body h stats) as [r|] eqn:E.
    + exists r. split; [reflexivity|]. now apply (predominant_body_class h stats).
    + destruct (current_dominant_returns stats) as (r & Hr).
      exists r. split; [exact Hr|]. now left.
  - intros Hlen Hs Hk Hten. rewrite (simbolo_falls_back h stats Hlen Hs Hk Hten).
    split; [reflexivity|]. intros Z1 Z2 Z3.
    unfold _get_current_dominant_class. cbv zeta. rewrite Z1, Z2, Z3. reflexivity.
Qed.

Lemma symbols_class_is_never_smoothed_witness :
  snd (_calculate_predominant_class 10 symbol_frames 9 empty_stats)
  = Py.Ok (label_none, 0%Q)
  /\ snd (_calculate_predominant_class 10 smudge_frames_only 9 empty_stats)
     = Py.Ok (label_smudge, (4 # 5) * ((18 # 10) / 2))%Q.
Proof.
  split.
  - apply (proj2 (symbols_class_is_never_smoothed 10 symbol_frames 9 empty_stats));
      vm_compute; try reflexivity; discriminate.
  - vm_compute. reflexivity.
Defined.


(** ** Box validation *)

Lemma gt_four_fifths (d w : Z) :
  Py.gt (inject_Z d) (inject_Z w * (8 # 10)) = (5 * d >? 4 * w).
Proof.
  destruct (Z.gtb_spec (5 * d) (4 * w)) as [H|H].
  - apply gt_true_iff. unfold Qlt, Qmult, inject_Z. cbn [Qnum Qden]. lia.
  - apply gt_false_iff. unfold Qle, Qmult, inject_Z. cbn [Qnum Qden]. lia.
Qed.

Lemma validate_bbox_spec (b : Box) (frame_shape : Z * Z) :
  _validate_bbox b frame_shape = true <-> valid_box frame_shape b.
Proof.
  destruct b as [[[x1 y1] x2] y2]. destruct frame_shape as [height width].
  unfold _validate_bbox, valid_box. cbv zeta. rewrite !gt_four_fifths.
  destruct (Z.ltb_spec x1 0); destruct (Z.ltb_spec y1 0);
    destruct (Z.geb_spec x2 width); destruct (Z.geb_spec y2 height);
    cbn [orb]; try (split; [discriminate | lia]).
  destruct (Z.leb_spec x2 x1); destruct (Z.leb_spec y2 y1);
    cbn [orb]; try (split; [discriminate | lia]).
  destruct (Z.ltb_spec (x2 - x1) 10); destruct (Z.ltb_spec (y2 - y1) 10);
    cbn [orb]; try (split; [discriminate | lia]).
  destruct (Z.gtb_spec (5 * (x2 - x1)) (4 * width));
    destruct (Z.gtb_spec (5 * (y2 - y1)) (4 * height));
    cbn [orb]; split; try discriminate; try lia; intros _; lia.
Qed.

Lemma filter_valid_fold (frame_shape : Z * Z) (l acc : list Box) :
  fold_left (fun valid_bboxes bbox =>
               if _validate_bbox bbox frame_shape then valid_bboxes ++ [bbox]
               else valid_bboxes) l acc
  = acc ++ filter (fun b => _validate_bbox b frame_shape) l.
Proof.
  revert acc. induction l as [|b l IH]; intros acc; cbn [fold_left filter].
  - now rewrite app_nil_r.
  - rewrite IH. destruct (_validate_bbox b frame_shape); [|reflexivity].
    now rewrite <- app_assoc.
Qed.

Lemma filter_valid_is_filter (bboxes : list Box) (frame_shape : Z * Z) :
  _filter_valid_bboxes bboxes frame_shape
  = filter (fun b => _validate_bbox b frame_shape) bboxes.
Proof. unfold _filter_valid_bboxes. now rewrite filter_valid_fold. Qed.

Lemma valid_box_proper (frame_shape : Z * Z) (b : Box) :
  valid_box frame_shape b -> proper b.
Proof.
  destruct b as [[[x1 y1] x2] y2]. destruct frame_shape as [height width].
  unfold valid_box, proper. lia.
Qed.

(** X21.  [_filter_valid_bboxes] keeps, in their order, exactly the boxes
    that lie inside the frame short of its last row and column and whose
    sides measure at least 10 pixels and at most 80% of the frame's; every
    box it returns has positive width and height; filtering again changes
    nothing; and on a frame less than 13 pixels wide or high no box is
    valid. *)
Theorem valid_boxes_kept (bboxes : list Box) (frame_shape : Z * Z) :
  let kept := _filter_valid_bboxes bboxes frame_shape in
  kept = filter (fun b => _validate_bbox b frame_shape) bboxes
  /\ (forall b, In b kept <-> In b bboxes /\ valid_box frame_shape b)
  /\ (forall b, In b kept -> proper b)
  /\ _filter_valid_bboxes kept frame_shape = kept
  /\ (fst frame_shape < 13 \/ snd frame_shape < 13 -> kept = []).
Proof.
  cbv zeta. rewrite filter_valid_is_filter.
  assert (Hin : forall b, In b (filter (fun b => _validate_bbox b frame_shape) bboxes)
                          <-> In b bboxes /\ valid_box frame_shape b).
  { intros b. rewrite filter_In, validate_bbox_spec. reflexivity. }
  split; [reflexivity|]. split; [exact Hin|]. split; [|split].
  - intros b Hb. apply Hin in Hb. now apply (valid_box_proper frame_shape).
  - rewrite filter_valid_is_filter. apply forallb_filter_id.
    apply forallb_forall. intros b Hb. now apply filter_In in Hb.
  - intros Hsmall.
    destruct (filter (fun b => _validate_bbox b frame_shape) bboxes) as [|b l] eqn:E;
      [reflexivity|].
    assert (Hb : valid_box frame_shape b) by (apply Hin; now left).
    destruct b as [[[x1 y1] x2] y2]. destruct frame_shape as [height width].
    unfold valid_box in Hb. cbn [fst snd] in Hsmall. lia.
Qed.


(** ** In-ROI test *)

Lemma filter_len_mono {A : Type} (p q : A -> bool) (l : list A) :
  (forall x, p x = true -> q x = true) ->
  Py.len (filter p l) <= Py.len (filter q l).
Proof.
  intros H. induction l as [|x l IH]; [cbn; lia|]. cbn [filter].
  destruct (p x) eqn:Ep.
  - rewrite (H x Ep), !len_cons. lia.
  - destruct (q x); rewrite ?len_cons; lia.
Qed.

Lemma count_nonzero_region_mono (m m' : Mask) (y_min y_max x_min x_max : Z) :
  (forall y x, mask_at m y x <> 0 -> mask_at m' y x <> 0) ->
  count_nonzero_region m y_min y_max x_min x_max
  <= count_nonzero_region m' y_min y_max x_min x_max.
Proof.
  intros H. unfold count_nonzero_region. apply filter_len_mono.
  intros [y x]. rewrite !negb_true_iff, !Z.eqb_neq. apply H.
Qed.

Lemma ge_half_div (i a : Z) :
  0 < a ->
  negb (Py.gt (1 # 2) (inject_Z i / inject_Z a)) = (2 * i >=? a).
Proof.
  intros Ha. pose proof (inject_Z_pos a Ha) as Hq.
  destruct (Z.geb_spec (2 * i) a) as [H|H].
  - apply negb_true_iff, gt_false_iff. apply Qle_shift_div_l; [exact Hq|].
    unfold Qle, Qmult, inject_Z. cbn [Qnum Qden]. lia.
  - apply negb_false_iff, gt_true_iff. apply Qlt_shift_div_r; [exact Hq|].
    unfold Qlt, Qmult, inject_Z. cbn [Qnum Qden]. lia.
Qed.

Lemma inside_roi_center (b : Box) (mask : option Mask) (roi : Z * Z * Z * Z) :
  is_detection_inside_roi b mask (Some roi) = true -> center_in_roi b roi.
Proof.
  destruct b as [[[x1 y1] x2] y2]. destruct roi as [[[rx ry] rw] rh].
  unfold is_detection_inside_roi, center_in_roi. cbv zeta.
  destruct (Z.leb_spec rx (Z.quot (x1 + x2) 2));
    destruct (Z.leb_spec (Z.quot (x1 + x2) 2) (rx + rw));
    destruct (Z.leb_spec ry (Z.quot (y1 + y2) 2));
    destruct (Z.leb_spec (Z.quot (y1 + y2) 2) (ry + rh));
    cbn [andb negb]; try discriminate.
  intros _. lia.
Qed.

Lemma inside_roi_no_mask (b : Box) (roi : Z * Z * Z * Z) :
  is_detection_inside_roi b None (Some roi) = true <-> center_in_roi b roi.
Proof.
  split; [apply inside_roi_center|].
  destruct b as [[[x1 y1] x2] y2]. destruct roi as [[[rx ry] rw] rh].
  unfold is_detection_inside_roi, center_in_roi. cbv zeta.
  intros [[H1 H2] [H3 H4]].
  apply Z.leb_le in H1, H2, H3, H4. rewrite H1, H2, H3, H4. reflexivity.
Qed.

Lemma inside_roi_mask_mono (b : Box) (m m' : Mask) (roi : option (Z * Z * Z * Z)) :
  mask_le m m' ->
  is_detection_inside_roi b (Some m) roi = true ->
  is_detection_inside_roi b (Some m') roi = true.
Proof.
  intros (Hr & Hc & Hpos & Hnz).
  destruct b as [[[x1 y1] x2] y2]. destruct roi as [[[[rx ry] rw] rh]|]; [|trivial].
  unfold is_detection_inside_roi. cbv zeta. rewrite Hr, Hc.
  destruct (negb _); [trivial|].
  set (cx := Z.quot (x1 + x2) 2). set (cy := Z.quot (y1 + y2) 2).
  destruct ((0 <=? cy) && (cy <? mask_rows m) && (0 <=? cx) && (cx <? mask_cols m))
    eqn:Hin; cbn [andb].
  - destruct (Z.gtb_spec (mask_at m cy cx) 0) as [Hp|Hp].
    + intros _. destruct (Z.gtb_spec (mask_at m' cy cx) 0) as [_|Hp']; [reflexivity|].
      specialize (Hpos cy cx). lia.
    + destruct (mask_at m' cy cx >? 0); [reflexivity|].
      destruct ((Z.min x2 (mask_cols m) >? Z.max x1 0)
                && (Z.min y2 (mask_rows m) >? Z.max y1 0)); [|trivial].
      destruct (Z.gtb_spec ((x2 - x1) * (y2 - y1)) 0) as [Ha|Ha]; [|trivial].
      rewrite !ge_half_div by lia. intros H.
      pose proof (count_nonzero_region_mono m m' (Z.max y1 0) (Z.min y2 (mask_rows m))
                    (Z.max x1 0) (Z.min x2 (mask_cols m)) Hnz).
      apply Z.geb_le in H. apply Z.geb_le. lia.
  - destruct ((Z.min x2 (mask_cols m) >? Z.max x1 0)
                && (Z.min y2 (mask_rows m) >? Z.max y1 0)); [|trivial].
    destruct (Z.gtb_spec ((x2 - x1) * (y2 - y1)) 0) as [Ha|Ha]; [|trivial].
    rewrite !ge_half_div by lia. intros H.
    pose proof (count_nonzero_region_mono m m' (Z.max y1 0) (Z.min y2 (mask_rows m))
                  (Z.max x1 0) (Z.min x2 (mask_cols m)) Hnz).
    apply Z.geb_le in H. apply Z.geb_le. lia.
Qed.

(** X22.  [is_detection_inside_roi]: without an ROI box nothing is inside;
    without a mask a detection is inside exactly when its truncated centre
    lies in the closed ROI rectangle; a mask can only reject, never admit a
    detection the rectangle test refuses; and the test is monotone in the
    mask: setting more pixels of a mask never turns an inside detection
    into an outside one. *)
Theorem inside_roi_test (b : Box) (mask : option Mask) (roi : Z * Z * Z * Z) :
  is_detection_inside_roi b mask None = false
  /\ (is_detection_inside_roi b None (Some roi) = true <-> center_in_roi b roi)
  /\ (is_detection_inside_roi b mask (Some roi) = true ->
      is_detection_inside_roi b None (Some roi) = true)
  /\ (forall m m', mask_le m m' ->
                   is_detection_inside_roi b (Some m) (Some roi) = true ->
                   is_detection_inside_roi b (Some m') (Some roi) = true).
Proof.
  split; [reflexivity|]. split; [apply inside_roi_no_mask|]. split.
  - intros H. apply inside_roi_no_mask. now apply (inside_roi_center b mask).
  - intros m m' Hle. now apply inside_roi_mask_mono.
Qed.

Lemma inside_roi_test_witness :
  is_detection_inside_roi good_box None (Some (0, 0, 50, 50)) = true.
Proof.
  apply (proj1 (proj2 (proj2 (inside_roi_test good_box
                                (Some (mkMask 100 100 (fun _ _ => 255)))
                                (0, 0, 50, 50))))).
  vm_compute. reflexivity.
Defined.

(** ** Detections and their confidences *)

Lemma collect_from_spec (boxes : list Box) (confidences : list Q)
      (mask : option Mask) (roi : option (Z * Z * Z * Z)) :
  forall (i : nat) (acc : list Detection),
    (i + List.length boxes <= List.length confidences)%nat ->
    collect_from i boxes confidences None mask roi acc
    = Some (acc ++ map (fun '(b, c) => mkDetection b c None)
                       (filter (fun '(b, _) => is_detection_inside_roi b mask roi)
                               (combine boxes (skipn i confidences)))).
Proof.
  induction boxes as [|b boxes IH]; intros i acc Hlen; cbn [collect_from].
  - cbn. now rewrite app_nil_r.
  - cbn [List.length] in Hlen.
    destruct (nth_error confidences i) as [c|] eqn:En;
      [|apply nth_error_None in En; lia].
    assert (Hsk : skipn i confidences = c :: skipn (S i) confidences).
    { clear - En. revert i En. induction confidences as [|x l IHl]; intros i En.
      - destruct i; discriminate.
      - destruct i as [|i]; cbn in *; [now inversion En | now apply IHl]. }
    rewrite Hsk. cbn [combine filter].
    destruct (is_detection_inside_roi b mask roi).
    + rewrite IH by lia. cbn [map]. now rewrite <- app_assoc.
    + apply IH. lia.
Qed.

Lemma filter_valid_length (mapped : list Box) (frame_shape : Z * Z) :
  (List.length (_filter_valid_bboxes mapped frame_shape) <= List.length mapped)%nat.
Proof. rewrite filter_valid_is_filter. apply filter_length_le. Qed.

Lemma skipn_nth_error {A : Type} (l : list A) (i : nat) (x : A) :
  nth_error l i = Some x -> skipn i l = x :: skipn (S i) l.
Proof.
  revert i. induction l as [|y l IHl]; intros i En.
  - destruct i; discriminate.
  - destruct i as [|i]; cbn in *; [now inversion En | now apply IHl].
Qed.

Lemma collect_from_ids_spec (boxes : list Box) (confidences : list Q) (ids : list Z)
      (mask : option Mask) (roi : option (Z * Z * Z * Z)) :
  forall (i : nat) (acc : list Detection),
    (i + List.length boxes <= List.length confidences)%nat ->
    (i + List.length boxes <= List.length ids)%nat ->
    collect_from i boxes confidences (Some ids) mask roi acc
    = Some (acc ++ map (fun '(b, (c, cid)) => mkDetection b c (Some cid))
                       (filter (fun '(b, _) => is_detection_inside_roi b mask roi)
                               (combine boxes
                                        (combine (skipn i confidences) (skipn i ids))))).
Proof.
  induction boxes as [|b boxes IH]; intros i acc Hlen Hids; cbn [collect_from].
  - cbn. now rewrite app_nil_r.
  - cbn [List.length] in Hlen, Hids.
    destruct (nth_error confidences i) as [c|] eqn:En;
      [|apply nth_error_None in En; lia].
    destruct (nth_error ids i) as [cid|] eqn:Ei;
      [|apply nth_error_None in Ei; lia].
    rewrite (skipn_nth_error confidences i c En), (skipn_nth_error ids i cid Ei).
    cbn [combine filter].
    destruct (is_detection_inside_roi b mask roi).
    + rewrite IH by lia. cbn [map]. now rewrite <- app_assoc.
    + apply IH; lia.
Qed.

(** X23.  The detections stored for a class pair the boxes that survive
    [_filter_valid_bboxes] with the raw confidences by position: the j-th
    valid box gets the confidence of the j-th raw detection.  The loop never
    reads past the confidences; when every mapped box is valid each
    detection carries the confidence of its own box; but when an invalid
    box precedes a valid one inside the ROI, that valid box is recorded
    with the confidence of the box that was dropped. *)
Theorem detections_paired_by_position (mapped : list Box) (frame_shape : Z * Z)
        (confidences : list Q) (mask : option Mask) (roi : option (Z * Z * Z * Z)) :
  List.length confidences = List.length mapped ->
  detections_in_roi mapped frame_shape confidences None mask roi
  = Some (map (fun '(b, c) => mkDetection b c None)
              (filter (fun '(b, _) => is_detection_inside_roi b mask roi)
                      (combine (_filter_valid_bboxes mapped frame_shape) confidences)))
  /\ (_filter_valid_bboxes mapped frame_shape = mapped ->
      detections_in_roi mapped frame_shape confidences None mask roi
      = Some (map (fun '(b, c) => mkDetection b c None)
                  (filter (fun '(b, _) => is_detection_inside_roi b mask roi)
                          (combine mapped confidences))))
  /\ (forall b0 b1 rest c0 c1 cs,
         mapped = b0 :: b1 :: rest -> confidences = c0 :: c1 :: cs ->
         _validate_bbox b0 frame_shape = false ->
         _validate_bbox b1 frame_shape = true ->
         is_detection_inside_roi b1 mask roi = true ->
         (exists others,
             detections_in_roi mapped frame_shape confidences None mask roi
             = Some (mkDetection b1 c0 None :: others))
         /\ (forall id0 id1 ids,
                List.length ids = List.length rest ->
                exists others,
                  detections_in_roi mapped frame_shape confidences
                                    (Some (id0 :: id1 :: ids)) mask roi
                  = Some (mkDetection b1 c0 (Some id0) :: others))).
Proof.
  intros Hlen.
  assert (Hspec : detections_in_roi mapped frame_shape confidences None mask roi
            = Some (map (fun '(b, c) => mkDetection b c None)
                        (filter (fun '(b, _) => is_detection_inside_roi b mask roi)
                                (combine (_filter_valid_bboxes mapped frame_shape)
                                         confidences)))).
  { unfold detections_in_roi. rewrite collect_from_spec.
    - reflexivity.
    - pose proof (filter_valid_length mapped frame_shape). cbn. lia. }
  split; [exact Hspec|]. split.
  - intros Hall. rewrite Hspec, Hall. reflexivity.
  - intros b0 b1 rest c0 c1 cs Hm Hc H0 H1 Hin. split.
    + rewrite Hspec.
      rewrite filter_valid_is_filter, Hm, Hc. cbn [filter]. rewrite H0, H1.
      cbn [combine filter]. rewrite Hin. cbn [map]. eexists. reflexivity.
    + intros id0 id1 ids Hids. unfold detections_in_roi.
      pose proof (filter_valid_length mapped frame_shape) as Hle.
      rewrite collect_from_ids_spec;
        [| cbn; lia | rewrite Hm in *; cbn [List.length] in *; lia].
      rewrite filter_valid_is_filter, Hm, Hc. cbn [filter skipn]. rewrite H0, H1.
      cbn [combine filter]. rewrite Hin. cbn [map app]. eexists. reflexivity.
Qed.

Lemma detections_paired_by_position_witness :
  exists others,
    detections_in_roi [flat_box; good_box] small_frame_shape [9 # 10; 3 # 10] None None
                      (Some (0, 0, 50, 50))
    = Some (mkDetection good_box (9 # 10) None :: others).
Proof.
  apply (proj1 (proj2 (proj2 (detections_paired_by_position
                                [flat_box; good_box] small_frame_shape [9 # 10; 3 # 10]
                                None (Some (0, 0, 50, 50)) eq_refl))
                  flat_box good_box [] (9 # 10) (3 # 10) []
                  eq_refl eq_refl eq_refl eq_refl eq_refl)).
Defined.


(** ** ROI box *)

(** X24.  [largest_bbox_from_mask]: no contour gives no box; for a bounding
    rectangle inside the frame and a margin that is not negative, the box
    returned lies inside the frame, contains the rectangle, and exceeds it
    by at most the margin on the left and top and by at most twice the
    margin in width and height, so the crop taken from it is never empty
    and never leaves the frame. *)
Theorem roi_box_inside_frame (x0 y0 bw0 bh0 margin h w : Z) :
  0 <= margin ->
  0 <= x0 -> 0 <= y0 -> 0 < bw0 -> 0 < bh0 -> x0 + bw0 <= w -> y0 + bh0 <= h ->
  largest_bbox_from_mask None margin (h, w) = None
  /\ exists x y bw bh,
      largest_bbox_from_mask (Some (x0, y0, bw0, bh0)) margin (h, w) = Some (x, y, bw, bh)
      /\ 0 <= x <= x0 /\ 0 <= y <= y0
      /\ x0 - margin <= x /\ y0 - margin <= y
      /\ x0 + bw0 <= x + bw <= w /\ y0 + bh0 <= y + bh <= h
      /\ bw0 <= bw <= bw0 + 2 * margin /\ bh0 <= bh <= bh0 + 2 * margin.
Proof.
  intros Hm Hx Hy Hbw Hbh Hw Hh. split; [reflexivity|].
  unfold largest_bbox_from_mask. cbv zeta.
  do 4 eexists. split; [reflexivity|]. lia.
Qed.

Lemma roi_box_inside_frame_witness :
  exists x y bw bh,
    largest_bbox_from_mask (Some (5, 20, 100, 50)) 10 (480, 640) = Some (x, y, bw, bh)
    /\ 0 <= x <= 5 /\ 0 <= y <= 20
    /\ 5 - 10 <= x /\ 20 - 10 <= y
    /\ 5 + 100 <= x + bw <= 640 /\ 20 + 50 <= y + bh <= 480
    /\ 100 <= bw <= 100 + 2 * 10 /\ 50 <= bh <= 50 + 2 * 10.
Proof.
  apply (proj2 (roi_box_inside_frame 5 20 100 50 10 480 640
                  ltac:(lia) ltac:(lia) ltac:(lia) ltac:(lia) ltac:(lia)
                  ltac:(lia) ltac:(lia))).
Defined.

(** ** Result validators *)

Lemma float_lt_spec (a b : Q) : float_lt a b = true <-> (a < b)%Q.
Proof. unfold float_lt. apply gt_true_iff. Qed.

Lemma float_lt_false (a b : Q) : float_lt a b = false <-> (b <= a)%Q.
Proof. unfold float_lt. apply gt_false_iff. Qed.

Lemma float_ge_lt (a b : Q) : float_ge a b = negb (float_lt a b).
Proof. reflexivity. Qed.

Lemma fifa_box_valid_spec (box : RawBox) :
  exists ok, fifa_box_valid box = Py.Ok ok /\ (ok = true <-> fifa_shape box).
Proof.
  unfold fifa_box_valid, fifa_shape. cbv zeta.
  set (width := (raw_x2 box - raw_x1 box)%Q).
  set (height := (raw_y2 box - raw_y1 box)%Q).
  destruct (float_lt width 25) eqn:W25.
  { exists false. split; [reflexivity|]. apply float_lt_spec in W25.
    split; [discriminate|]. intros ((H & _) & _). exfalso.
    apply (Qlt_irrefl width). eapply Qlt_le_trans; eauto. }
  destruct (float_lt height 25) eqn:H25.
  { exists false. split; [reflexivity|]. apply float_lt_spec in H25.
    split; [discriminate|]. intros (_ & (H & _) & _). exfalso.
    apply (Qlt_irrefl height). eapply Qlt_le_trans; eauto. }
  cbn [orb]. apply float_lt_false in W25, H25.
  destruct (Py.gt width 150) eqn:W150.
  { exists false. split; [reflexivity|]. apply gt_true_iff in W150.
    split; [discriminate|]. intros ((_ & H) & _). exfalso.
    apply (Qlt_irrefl width). eapply Qle_lt_trans; eauto. }
  destruct (Py.gt height 150) eqn:H150.
  { exists false. split; [reflexivity|]. apply gt_true_iff in H150.
    split; [discriminate|]. intros (_ & (_ & H) & _). exfalso.
    apply (Qlt_irrefl height). eapply Qle_lt_trans; eauto. }
  cbn [orb]. apply gt_false_iff in W150, H150.
  assert (Hpos : (0 < height)%Q) by (eapply Qlt_le_trans; [|exact H25]; reflexivity).
  destruct (Qeq_bool height 0) eqn:Hz.
  { apply Qeq_bool_eq in Hz. rewrite Hz in Hpos. discriminate Hpos. }
  destruct (float_lt (width / height) (3 # 10)) eqn:A1.
  { exists false. split; [reflexivity|]. apply float_lt_spec in A1.
    split; [discriminate|]. intros (_ & _ & H & _). exfalso.
    apply (Qlt_irrefl (width / height)). eapply Qlt_le_trans; [exact A1|].
    apply Qle_shift_div_l; assumption. }
  destruct (Py.gt (width / height) 3) eqn:A2.
  { exists false. split; [reflexivity|]. apply gt_true_iff in A2.
    split; [discriminate|]. intros (_ & _ & _ & H). exfalso.
    apply (Qlt_irrefl (width / height)). eapply Qle_lt_trans; [|exact A2].
    apply Qle_shift_div_r; assumption. }
  cbn [orb]. exists true. split; [reflexivity|]. split; [|reflexivity]. intros _.
  apply float_lt_false in A1. apply gt_false_iff in A2.
  repeat split; try assumption.
  - apply (Qmult_le_compat_r _ _ height) in A1; [|now apply Qlt_le_weak].
    rewrite (Qmult_comm (width / height)), Qmult_div_r in A1; [exact A1|].
    intros E. rewrite E in Hpos. discriminate Hpos.
  - apply (Qmult_le_compat_r _ _ height) in A2; [|now apply Qlt_le_weak].
    rewrite (Qmult_comm (width / height)), Qmult_div_r in A2; [exact A2|].
    intros E. rewrite E in Hpos. discriminate Hpos.
Qed.

Lemma count_valid_boxes_spec (boxes : list RawBox) :
  forall acc, 0 <= acc ->
    exists n, count_valid_boxes boxes acc = Py.Ok n /\ acc <= n
              /\ (n = acc <-> forall b, In b boxes -> ~ fifa_shape b).
Proof.
  induction boxes as [|b boxes IH]; intros acc Hacc; cbn [count_valid_boxes].
  - exists acc. split; [reflexivity|]. split; [lia|]. split; [intros _ b []|reflexivity].
  - destruct (fifa_box_valid_spec b) as (ok & -> & Hok). cbn [Py.bind].
    destruct ok.
    + destruct (IH (acc + 1) ltac:(lia)) as (n & -> & Hle & _).
      exists n. split; [reflexivity|]. split; [lia|]. split; [lia|].
      intros H. exfalso. apply (H b); [now left | now apply Hok].
    + destruct (IH acc Hacc) as (n & -> & Hle & Hn).
      exists n. split; [reflexivity|]. split; [exact Hle|].
      rewrite Hn. split.
      * intros H b' [<-|Hb']; [|now apply H].
        intros Hs. apply Hok in Hs. discriminate.
      * intros H b' Hb'. apply H. now right.
Qed.

Lemma np_max_ge (first : Q) (rest : list Q) (m : Q) :
  float_ge (np_max first rest) m = true
  <-> exists c, In c (first :: rest) /\ (m <= c)%Q.
Proof.
  unfold np_max, float_ge. rewrite negb_true_iff, gt_false_iff.
  revert first. induction rest as [|x rest IH]; intros first; cbn [fold_left].
  - split; [intros H; exists first; split; [now left | exact H]|].
    intros (c & [<-|[]] & Hc). exact Hc.
  - rewrite IH. unfold float_max. destruct (Py.gt x first) eqn:E.
    + apply gt_true_iff in E. split.
      * intros (c & [<-|Hc] & Hm); [exists x | exists c]; cbn; auto.
      * intros (c & [<-|[<-|Hc]] & Hm).
        -- exists x. split; [now left|]. eapply Qle_trans; [exact Hm|].
           now apply Qlt_le_weak.
        -- exists x. split; [now left | exact Hm].
        -- exists c. split; [now right | exact Hm].
    + apply gt_false_iff in E. split.
      * intros (c & [<-|Hc] & Hm); [exists first | exists c]; cbn; auto.
      * intros (c & [<-|[<-|Hc]] & Hm).
        -- exists first. split; [now left | exact Hm].
        -- exists first. split; [now left|]. eapply Qle_trans; eauto.
        -- exists c. split; [now right | exact Hm].
Qed.

(** X25.  [_validate_fifa_detection] never divides by zero, and it accepts
    a result exactly when some box has at least the minimum confidence and
    some box, not necessarily the same one, has the required shape (sides
    between 25 and 150, width between 0.3 and 3 times the height).  What it
    accepts, [_validate_detection_quality] accepts at the same threshold. *)
Theorem fifa_validation_rule (result : option (list RawBox)) (min_confidence : Q) :
  exists ok,
    _validate_fifa_detection result min_confidence = Py.Ok ok
    /\ (ok = true <->
        exists boxes b1 b2,
          result = Some boxes /\ In b1 boxes /\ In b2 boxes
          /\ (min_confidence <= raw_conf b1)%Q /\ fifa_shape b2)
    /\ (ok = true -> _validate_detection_quality result min_confidence = true).
Proof.
  unfold _validate_fifa_detection, _validate_detection_quality.
  destruct result as [[|b rest]|].
  - exists false. split; [reflexivity|]. split; [|discriminate].
    split; [discriminate|]. intros (boxes & b1 & _ & [= <-] & [] & _).
  - set (boxes := b :: rest).
    assert (Hconf : float_ge (np_max (raw_conf b) (map raw_conf rest)) min_confidence = true
                    <-> exists b1, In b1 boxes /\ (min_confidence <= raw_conf b1)%Q).
    { rewrite np_max_ge. change (raw_conf b :: map raw_conf rest) with (map raw_conf boxes).
      split.
      - intros (c & Hc & Hm). apply in_map_iff in Hc. destruct Hc as (b1 & <- & Hb1).
        exists b1. auto.
      - intros (b1 & Hb1 & Hm). exists (raw_conf b1). split; [now apply in_map|exact Hm]. }
    rewrite float_ge_lt in *.
    destruct (float_lt (np_max (raw_conf b) (map raw_conf rest)) min_confidence).
    + exists false. split; [reflexivity|]. split; [|discriminate].
      split; [discriminate|]. intros (boxes' & b1 & b2 & [= <-] & H1 & _ & Hm & _).
      cbn [negb] in Hconf. assert (false = true) by (apply Hconf; eauto). discriminate.
    + cbn [negb] in *.
      destruct (count_valid_boxes_spec boxes 0 ltac:(lia)) as (n & Hn & Hle & Hz).
      fold boxes. rewrite Hn. cbn [Py.bind].
      destruct (Z.eqb_spec n 0) as [E|E].
      * exists false. split; [reflexivity|]. split; [|discriminate].
        split; [discriminate|]. intros (boxes' & b1 & b2 & [= <-] & _ & H2 & _ & Hs).
        exfalso. apply (proj1 Hz E b2 H2 Hs).
      * exists true. split; [reflexivity|]. split; [|reflexivity].
        split; [|reflexivity]. intros _.
        destruct (proj1 Hconf eq_refl) as (b1 & Hb1 & Hm).
        assert (Hex : exists b2, In b2 boxes /\ fifa_shape b2).
        { assert (G : forall bs acc n, count_valid_boxes bs acc = Py.Ok n -> n <> acc ->
                        exists b2, In b2 bs /\ fifa_shape b2).
          { induction bs as [|x bs IH]; intros a m; cbn [count_valid_boxes].
            - intros [= <-] H. congruence.
            - destruct (fifa_box_valid_spec x) as (ok & -> & Hok). cbn [Py.bind].
              destruct ok.
              + intros _ _. exists x. split; [now left | now apply Hok].
              + intros H1 H2. destruct (IH a m H1 H2) as (b2 & Hb2 & Hs).
                exists b2. split; [now right | exact Hs]. }
          apply (G boxes 0 n Hn E). }
        destruct Hex as (b2 & Hb2 & Hs).
        exists boxes, b1, b2. auto.
  - exists false. split; [reflexivity|]. split; [|discriminate].
    split; [discriminate|]. intros (boxes & b1 & _ & [=] & _).
Qed.

Lemma fifa_validation_rule_witness :
  _validate_fifa_detection (Some [tiny_confident_box; shaped_faint_box]) (7 # 10)
  = Py.Ok true.
Proof.
  destruct (fifa_validation_rule (Some [tiny_confident_box; shaped_faint_box]) (7 # 10))
    as (ok & Hok & Hiff & _).
  rewrite Hok. f_equal. apply Hiff.
  exists [tiny_confident_box; shaped_faint_box], tiny_confident_box, shaped_faint_box.
  split; [reflexivity|]. split; [now left|]. split; [right; now left|].
  split; [discriminate|]. vm_compute. repeat split; discriminate.
Defined.


(** ** Running totals, the approval rate and the size of the summary *)

Lemma totals_invariant_step (cfg : Config) (st : State) (f : Frame) :
  totals_invariant st -> totals_invariant (fst (process_frame cfg st f)).
Proof.
  unfold totals_invariant. intros (He & Ha & Hr & Hs). destruct f as [roi|].
  - destruct (process_frame_present_totals cfg st roi) as [-> ->]. auto.
  - destruct (process_frame_absent_totals cfg st) as [[-> ->]|(s0 & -> & Hs0 & ->)];
      [auto|].
    pose proof (finalize_totals s0) as (E & Hcase). cbv zeta in E, Hcase.
    rewrite Hs0 in E, Hcase. lia.
Qed.

Lemma totals_invariant_run (cfg : Config) (frames : list Frame) :
  totals_invariant (run cfg initial_state frames).
Proof.
  apply run_invariant.
  - unfold totals_invariant. cbn. lia.
  - intros s f. apply totals_invariant_step.
Qed.

(** X26.  In every state reached from the initial one, with
    [ABSENT_TO_NEW > 0]: [total_evaluated] equals [transfer_count]; the
    approval rate is computed without dividing by zero and lies between 0
    and 100; and the summary's [total_transfers_evaluated] is
    [min(total_evaluated, 100)]: the summary covers only the records still in
    the capped history, so it falls behind the running total once more than
    100 transfers have been evaluated. *)
Theorem totals_rate_and_summary_size (cfg : Config) (frames : list Frame) :
  0 < ABSENT_TO_NEW cfg ->
  let st := run cfg initial_state frames in
  total_evaluated (transfer_stats st) = transfer_count st
  /\ (exists r, approval_rate st = Py.Ok r /\ (0 <= r <= 100)%Q)
  /\ (exists s, get_final_statistics_summary st = Py.Ok s
                /\ total_transfers_evaluated s
                   = Z.min (total_evaluated (transfer_stats st)) 100).
Proof.
  intros HA. cbv zeta.
  destruct (totals_invariant_run cfg frames) as (He & Ha & Hr & Hs).
  set (st := run cfg initial_state frames) in *.
  split; [exact He|]. split.
  - unfold approval_rate. cbv zeta.
    destruct (Z.gtb_spec (total_evaluated (transfer_stats st)) 0) as [Hpos|Hnpos].
    + rewrite truediv_pos by exact Hpos. cbn [Py.bind]. eexists. split; [reflexivity|].
      apply percentage_bounds; lia.
    + eexists. split; [reflexivity|]. split; [apply Qle_refl | discriminate].
  - destruct (counts_invariant_run cfg frames) as (_ & _ & _ & Hrec).
    destruct (summary_of_coherent_history st Hrec) as (s & Hsum & Hlen & _).
    exists s. split; [exact Hsum|]. rewrite Hlen, He.
    destruct (tracker_ok_run cfg frames HA) as (_ & _ & Hh & _).
    unfold view in Hh. cbn [v_history v_transfer_count] in Hh.
    rewrite len_map in Hh. exact Hh.
Qed.

Lemma totals_rate_and_summary_size_witness :
  total_evaluated (transfer_stats after_one_absent_frame)
  = transfer_count after_one_absent_frame
  /\ (exists r, approval_rate after_one_absent_frame = Py.Ok r /\ (0 <= r <= 100)%Q)
  /\ (exists s, get_final_statistics_summary after_one_absent_frame = Py.Ok s
                /\ total_transfers_evaluated s
                   = Z.min (total_evaluated (transfer_stats after_one_absent_frame)) 100).
Proof.
  apply (totals_rate_and_summary_size default_config [Some quiet_roi_frame; None]).
  reflexivity.
Defined.
